(** * Politician copy-trading: holdings reconstruction and return attribution

    A shallow embedding of [src/data_processing/create_portfolio.py].

    Data frames are lists of records, one record per row, in row order.
    Dates are day numbers ([Z]); tickers and the other text columns are
    strings.  Numeric columns are exact rationals ([Q]); a missing value
    (pandas NaN) is [None] in a [cell].  This model computes without
    rounding, and it has no infinities: a float division by zero, which
    yields an infinity or NaN in Python, yields the missing value here (see
    [fdiv]).  It is the model of the values of the pipeline.

    Which rows the holdings ledger has is decided by comparing a float64
    quantity with 0, and there rounding, infinities and NaN change the
    decision.  The share quantities and the day loop of [holdings] are
    therefore embedded a second time in binary64 ([Float64]), and what is
    said of the sign of a quantity and of the deletion of a ticker is
    proved of that embedding. *)

From Stdlib Require Import List String ZArith QArith Bool Lia.
From Stdlib Require Import Permutation Sorted OrderedTypeEx.
From Stdlib Require Import Floats.SpecFloat.
Import ListNotations.

Local Open Scope Z_scope.
Local Open Scope Q_scope.
Local Open Scope string_scope.
Local Open Scope list_scope.

Set Implicit Arguments.

(** ** Numeric cells *)

Definition cell : Type := option Q.

(** Float division in the exact model.  At a zero divisor the program
    gets an infinity (NaN for 0/0); the exact model has no such value and
    gives the missing value instead, so quotients are reasoned about at
    non-zero divisors only.  [Float64.div] is the division of the program. *)
Definition fdiv (a b : Q) : cell :=
  if Qeq_bool b 0 then None else Some (a / b).

Definition cell_div (a b : cell) : cell :=
  match a, b with
  | Some x, Some y => fdiv x y
  | _, _ => None
  end.

Definition cell_mul (a b : cell) : cell :=
  match a, b with
  | Some x, Some y => Some (x * y)
  | _, _ => None
  end.

Definition cell_sub (a b : cell) : cell :=
  match a, b with
  | Some x, Some y => Some (x - y)
  | _, _ => None
  end.

(** [Series.fillna(v)] on one cell. *)
Definition fillna (v : Q) (c : cell) : Q :=
  match c with
  | Some x => x
  | None => v
  end.

(** [Series.sum()]: missing values are skipped, the empty sum is 0. *)
Definition nansum (l : list cell) : Q :=
  fold_left (fun acc c => match c with Some x => acc + x | None => acc end) l 0.

(** [Series.cumprod()] on a column without missing values. *)
Fixpoint cumprod_from (acc : Q) (l : list Q) : list Q :=
  match l with
  | [] => []
  | x :: l' => (acc * x) :: cumprod_from (acc * x) l'
  end.

Definition cumprod (l : list Q) : list Q :=
  match l with
  | [] => []
  | x :: l' => x :: cumprod_from x l'
  end.

(** ** Keys: unique values, sorting, group-by *)

Section Keyed.
Variable K : Type.
Variable eqb : K -> K -> bool.
Variable cmp : K -> K -> comparison.

(** [Series.unique()]: the distinct values in order of first appearance. *)
Definition unique (l : list K) : list K :=
  fold_left (fun acc k => if existsb (eqb k) acc then acc else acc ++ [k]) l [].

Fixpoint insert_sorted (x : K) (l : list K) : list K :=
  match l with
  | [] => [x]
  | y :: l' =>
      match cmp x y with
      | Gt => y :: insert_sorted x l'
      | _ => x :: l
      end
  end.

(** Ascending sort by [cmp]. *)
Definition sort_keys (l : list K) : list K :=
  fold_right insert_sorted [] l.

(** [df.groupby(key)[col].sum()]: one entry per distinct key, keys in
    ascending order, each with the sum of its rows' cells. *)
Definition groupby_sum (rows : list (K * cell)) : list (K * Q) :=
  map (fun k => (k, nansum (map snd (filter (fun r => eqb (fst r) k) rows))))
      (sort_keys (unique (map fst rows))).
End Keyed.

(** Sorting rows by a key: [df.sort_values(by=...)], as an insertion sort.
    Rows with equal keys keep their order here; the default sort of pandas
    may order them differently, so nothing below is claimed of the order of
    rows with equal keys (see [sorts_by_date] for the sort as a parameter). *)
Section SortRows.
Variable A : Type.
Variable cmp : A -> A -> comparison.

Definition sort_values (rows : list A) : list A := sort_keys cmp rows.
End SortRows.

(** ** The holdings dictionary

    [cumulative_holdings] is a Python dict: keys are unique and keep their
    insertion order, which is the order of the rows emitted for a day. *)

Definition dict : Type := list (string * Q).

Fixpoint dict_get (d : dict) (k : string) : option Q :=
  match d with
  | [] => None
  | (k', v) :: d' => if String.eqb k' k then Some v else dict_get d' k
  end.

(** [d[k] = v]: replaces the value in place, or appends a new key. *)
Fixpoint dict_set (d : dict) (k : string) (v : Q) : dict :=
  match d with
  | [] => [(k, v)]
  | (k', v') :: d' =>
      if String.eqb k' k then (k', v) :: d' else (k', v') :: dict_set d' k v
  end.

(** [del d[k]]. *)
Definition dict_del (d : dict) (k : string) : dict :=
  filter (fun kv => negb (String.eqb (fst kv) k)) d.

(** ** Tables *)

(** A row of the transactions file. *)
Record transaction : Type := mkTransaction {
  Representative : string;
  Ticker : string;
  Transaction : string;
  Amount : Q;
  ReportDate : Z;
  TransactionDate : Z
}.

(** A transaction after [add_stock_amount_column]. *)
Record trade : Type := mkTrade {
  tr_tx : transaction;
  tr_Close : cell;
  tr_StockAmount : cell
}.

(** A row of [stock_data]. *)
Record price : Type := mkPrice {
  px_Date : Z;
  px_Ticker : string;
  px_Close : Q;
  px_DailyROI : Q
}.

(** A row of the holdings ledger. *)
Record snapshot : Type := mkSnapshot {
  h_Date : Z;
  h_Ticker : string;
  h_StockAmount : Q
}.

(** The two values of [groupby_column]. *)
Inductive date_key : Type :=
| ByTransactionDate
| ByReportDate.

Definition key_date (col : date_key) (t : trade) : Z :=
  match col with
  | ByTransactionDate => TransactionDate (tr_tx t)
  | ByReportDate => ReportDate (tr_tx t)
  end.

(** ** holdings: the day loop *)

(** [get_group(date)]: the day's transactions. *)
Definition day_transactions (trades : list trade) (col : date_key) (date : Z)
  : list trade :=
  filter (fun t => Z.eqb (key_date col t) date) trades.

(** [day_transactions.groupby('Ticker')['StockAmount'].sum()]. *)
Definition day_sums (trades : list trade) (col : date_key) (date : Z)
  : list (string * Q) :=
  groupby_sum String.eqb String.compare
    (map (fun t => (Ticker (tr_tx t), tr_StockAmount t))
         (day_transactions trades col date)).

(** One iteration of the inner loop: add the day's sum to the running
    quantity (0 for a ticker not held) and delete the ticker when the
    result is not positive.  The sum and the comparison are exact here;
    [Float64.update_holding] is the same step in binary64. *)
Definition update_holding (cumulative_holdings : dict) (item : string * Q) : dict :=
  let (ticker, stock_amount) := item in
  let v := fillna 0 (dict_get cumulative_holdings ticker) + stock_amount in
  let d := dict_set cumulative_holdings ticker v in
  if Qle_bool v 0 then dict_del d ticker else d.

Definition day_update (trades : list trade) (col : date_key)
    (cumulative_holdings : dict) (date : Z) : dict :=
  if existsb (fun t => Z.eqb (key_date col t) date) trades
  then fold_left update_holding (day_sums trades col date) cumulative_holdings
  else cumulative_holdings.

Fixpoint holdings_loop (trades : list trade) (col : date_key)
    (cumulative_holdings : dict) (dates : list Z) : list snapshot :=
  match dates with
  | [] => []
  | date :: dates' =>
      let d := day_update trades col cumulative_holdings date in
      map (fun kv => mkSnapshot date (fst kv) (snd kv)) d
        ++ holdings_loop trades col d dates'
  end.

(** The ledger over a trading calendar, from the empty dictionary. *)
Definition holdings_on (trades : list trade) (col : date_key) (dates : list Z)
  : list snapshot :=
  holdings_loop trades col [] dates.

(** ** The price provider

    [yf.download] is external.  Its answer to a request is a wide frame of
    closes: an index of trading days, a column per ticker, and a cell per
    (day, ticker).  Every call is recorded in a log, so that the calls of a
    run can be counted. *)

Record request : Type := mkRequest {
  rq_tickers : list string;
  rq_start : Z;
  rq_end : option Z
}.

Record frame : Type := mkFrame {
  f_index : list Z;
  f_columns : list string;
  f_close : Z -> string -> cell
}.

Inductive exn : Type :=
| IndexError
| KeyError.

Inductive result (A : Type) : Type :=
| Ok (a : A)
| Raise (e : exn).

Arguments Ok {A} a.
Arguments Raise {A} e.

(** Computations that may call the provider and may raise. *)
Definition M (A : Type) : Type := list request -> result A * list request.

Definition ret {A : Type} (a : A) : M A := fun log => (Ok a, log).

Definition raise {A : Type} (e : exn) : M A := fun log => (Raise e, log).

Definition bind {A B : Type} (m : M A) (f : A -> M B) : M B :=
  fun log =>
    match m log with
    | (Ok a, log') => f a log'
    | (Raise e, log') => (Raise e, log')
    end.

Notation "x <- m ;; k" := (bind m (fun x => k))
  (at level 100, m at next level, right associativity).

(** ** Price series construction (download_stock_data) *)

(** [reset_index().melt(id_vars=['Date'], ...)]: column after column. *)
Definition melt (f : frame) : list (Z * string * cell) :=
  flat_map (fun tk => map (fun d => (d, tk, f_close f d tk)) (f_index f))
           (f_columns f).

(** [dropna(subset=['Close'])]. *)
Fixpoint dropna_close (rows : list (Z * string * cell)) : list (Z * string * Q) :=
  match rows with
  | [] => []
  | (d, tk, Some c) :: rows' => (d, tk, c) :: dropna_close rows'
  | (_, _, None) :: rows' => dropna_close rows'
  end.

(** The order of [sort_values(by=['Ticker', 'Date'])]. *)
Definition cmp_ticker_date (a b : Z * string * Q) : comparison :=
  match String.compare (snd (fst a)) (snd (fst b)) with
  | Eq => Z.compare (fst (fst a)) (fst (fst b))
  | c => c
  end.

(** [groupby('Ticker')['Close'].pct_change().fillna(0) + 1.0], row by row:
    [last] holds, for each ticker, the close of its previous row. *)
Fixpoint daily_roi (last : dict) (rows : list (Z * string * Q)) : list price :=
  match rows with
  | [] => []
  | (d, tk, c) :: rows' =>
      let pct :=
        match dict_get last tk with
        | None => None
        | Some p => cell_sub (fdiv c p) (Some 1)
        end in
      mkPrice d tk c (fillna 0 pct + 1) :: daily_roi (dict_set last tk c) rows'
  end.

Definition build_stock_data (f : frame) : list price :=
  daily_roi [] (sort_values cmp_ticker_date (dropna_close (melt f))).

(** ** Trade valuation (add_stock_amount_column) *)

(** The left merge on (TransactionDate, Ticker) = (Date, Ticker), then
    [StockAmount = Amount / Close]. *)
Definition add_stock_amount_column (politician_trades : list transaction)
    (stock_data : list price) : list trade :=
  flat_map
    (fun t =>
       match filter (fun p => Z.eqb (px_Date p) (TransactionDate t)
                              && String.eqb (px_Ticker p) (Ticker t))
                    stock_data with
       | [] => [mkTrade t None None]
       | ms => map (fun p => mkTrade t (Some (px_Close p))
                                     (fdiv (Amount t) (px_Close p))) ms
       end)
    politician_trades.

(** ** Portfolio ROI aggregation (calculate_portfolio_roi) *)

Record roi_row : Type := mkRoiRow {
  r_Date : Z;
  r_Ticker : string;
  r_StockAmount : Q;
  r_Close : Q;
  r_DailyROI : Q;
  r_StockValue : Q;
  r_TotalValue : Q;
  r_ROI : cell
}.

(** The inner merge of the ledger with [stock_data] on (Date, Ticker). *)
Definition merge_prices (holding : list snapshot) (stock_data : list price)
  : list (snapshot * price) :=
  flat_map
    (fun h =>
       map (fun p => (h, p))
           (filter (fun p => Z.eqb (h_Date h) (px_Date p)
                             && String.eqb (h_Ticker h) (px_Ticker p))
                   stock_data))
    holding.

Definition stock_value (hp : snapshot * price) : Q :=
  h_StockAmount (fst hp) * px_Close (snd hp).

(** [groupby('Date')['StockValue'].transform('sum')] at one date. *)
Definition total_value (merged : list (snapshot * price)) (date : Z) : Q :=
  nansum (map (fun hp => Some (stock_value hp))
              (filter (fun hp => Z.eqb (h_Date (fst hp)) date) merged)).

Definition portfolio_rows (holding : list snapshot) (stock_data : list price)
  : list roi_row :=
  let merged := merge_prices holding stock_data in
  map (fun hp =>
         let sv := stock_value hp in
         let tv := total_value merged (h_Date (fst hp)) in
         mkRoiRow (h_Date (fst hp)) (h_Ticker (fst hp)) (h_StockAmount (fst hp))
                  (px_Close (snd hp)) (px_DailyROI (snd hp)) sv tv
                  (cell_mul (fdiv sv tv) (Some (px_DailyROI (snd hp)))))
      merged.

(** [holdings.groupby('Date')['ROI'].sum().reset_index()]. *)
Definition daily_returns (rows : list roi_row) : list (Z * Q) :=
  groupby_sum Z.eqb Z.compare (map (fun r => (r_Date r, r_ROI r)) rows).

(** ** Return comparison (create_portfolio_roi) *)

Record final_row : Type := mkFinalRow {
  fr_Date : Z;
  fr_SPYCumROI : Q;
  fr_ROI : Q;
  fr_CopyTradeROI : Q;
  fr_CopyCumulativeROI : Q;
  fr_CumulativeROI : Q
}.

(** [Series.pct_change()] without forward filling; [prev] is the previous
    cell, absent on the first row. *)
Fixpoint pct_change (prev : option cell) (l : list cell) : list cell :=
  match l with
  | [] => []
  | c :: l' =>
      match prev with
      | None => None
      | Some p => cell_sub (cell_div c p) (Some 1)
      end :: pct_change (Some c) l'
  end.

(** [left.merge(right, on="Date", how="left")] for a right table with one
    value column. *)
Definition merge_left {A : Type} (date_of : A -> Z) (left : list A)
    (right : list (Z * Q)) : list (A * cell) :=
  flat_map
    (fun a =>
       match filter (fun kv => Z.eqb (fst kv) (date_of a)) right with
       | [] => [(a, None)]
       | ms => map (fun kv => (a, Some (snd kv))) ms
       end)
    left.

Fixpoint final_rows (rows : list (Z * Q * Q * Q)) (copy_cum cum : list Q)
  : list final_row :=
  match rows, copy_cum, cum with
  | (d, spy, roi, copy) :: rows', cc :: copy_cum', c :: cum' =>
      mkFinalRow d spy roi copy cc c :: final_rows rows' copy_cum' cum'
  | _, _, _ => []
  end.

Definition assemble (spy_data : frame) (politician_holdings copytraded_holdings
    : list roi_row) : list final_row :=
  let closes := map (fun d => f_close spy_data d "SPY") (f_index spy_data) in
  let spy_roi := map (fun c => fillna 0 c + 1) (pct_change None closes) in
  let final := combine (f_index spy_data) (cumprod spy_roi) in
  let final := merge_left fst final (daily_returns politician_holdings) in
  let final := merge_left (fun r => fst (fst r)) final
                          (daily_returns copytraded_holdings) in
  let filled :=
    map (fun r => (fst (fst (fst r)), snd (fst (fst r)),
                   fillna 1 (snd (fst r)), fillna 1 (snd r))) final in
  final_rows filled
             (cumprod (map (fun r => snd r) filled))
             (cumprod (map (fun r => snd (fst r)) filled)).

(** ** Transaction normalisation *)

Definition renamed_stocks : list (string * string) := [("FB", "META")].

Fixpoint replace (table : list (string * string)) (s : string) : string :=
  match table with
  | [] => s
  | (k, v) :: table' => if String.eqb k s then v else replace table' s
  end.

(** [Series.str.contains(pat)] for a pattern without regex operators. *)
Definition contains (pat s : string) : bool :=
  match String.index 0 pat s with
  | Some _ => true
  | None => false
  end.

Definition clean_transactions (df : list transaction) (cutoff_date : Z)
    (renamed : list (string * string)) : list transaction :=
  let df := filter (fun t => Z.ltb cutoff_date (TransactionDate t)) df in
  let df :=
    map (fun t =>
           mkTransaction (Representative t) (replace renamed (Ticker t))
                         (Transaction t)
                         (if contains "Purchase" (Transaction t)
                          then Amount t else - Amount t)
                         (ReportDate t) (TransactionDate t)) df in
  sort_values (fun a b => Z.compare (TransactionDate a) (TransactionDate b)) df.

Definition choose_politician (df : list transaction) (politician : string)
  : list transaction :=
  filter (fun t => String.eqb (Representative t) politician) df.

(** ** The run, with its provider calls *)

Section Run.
Variable yf_download : request -> frame.

Definition download (tickers : list string) (start : Z) (end_date : option Z)
  : M frame :=
  fun log =>
    let rq := mkRequest tickers start end_date in
    (Ok (yf_download rq), log ++ [rq]).

Definition download_stock_data (politician_trades : list transaction)
    (cutoff_date : Z) (end_date : option Z) : M (list price) :=
  let tickers := unique String.eqb (map Ticker politician_trades) ++ ["SPY"] in
  stocks <- download tickers cutoff_date end_date ;;
  ret (build_stock_data stocks).

Definition holdings (trades : list trade) (cutoff_date : Z)
    (groupby_column : date_key) (end_date : option Z) : M (list snapshot) :=
  spy <- download ["SPY"] cutoff_date end_date ;;
  ret (holdings_on trades groupby_column (f_index spy)).

(** An empty ledger is a frame without columns: merging it on
    ['Date', 'Ticker'] raises KeyError. *)
Definition calculate_portfolio_roi (politician_trades : list trade)
    (cutoff_date : Z) (stock_data : list price) (groupby_column : date_key)
  : M (list roi_row) :=
  holding <- holdings politician_trades cutoff_date groupby_column None ;;
  match holding with
  | [] => raise KeyError
  | _ => ret (portfolio_rows holding stock_data)
  end.

Definition create_portfolio_roi (politician_trades : list trade)
    (stock_data : list price) (cutoff_date : Z) (end_date : option Z)
  : M (list final_row) :=
  politician_holdings <-
    calculate_portfolio_roi politician_trades cutoff_date stock_data
                            ByTransactionDate ;;
  copytraded_holdings <-
    calculate_portfolio_roi politician_trades cutoff_date stock_data
                            ByReportDate ;;
  spy_data <- download ["SPY"] cutoff_date end_date ;;
  ret (assemble spy_data politician_holdings copytraded_holdings).

(** [calculate_returns] on the rows of the transactions file. *)
Definition calculate_returns (politician_name : string)
    (file : list transaction) (cutoff_date : Z) : M (list final_row) :=
  let df := clean_transactions file cutoff_date renamed_stocks in
  let politician_trades := choose_politician df politician_name in
  match politician_trades with
  | [] => raise IndexError
  | first :: _ =>
      let cutoff_date := TransactionDate first in
      stock_data <- download_stock_data politician_trades cutoff_date None ;;
      let politician_trades :=
        add_stock_amount_column politician_trades stock_data in
      create_portfolio_roi politician_trades stock_data cutoff_date None
  end.
End Run.

(** ** Example runs *)

(** A provider over six trading days.  X is priced every day, Z has no
    close on day 2, Y is never priced. *)
Definition ex_provider (rq : request) : frame :=
  mkFrame [1; 2; 3; 4; 5; 6]%Z (rq_tickers rq)
    (fun d tk =>
       if String.eqb tk "SPY" then Some (100 + inject_Z d)
       else if String.eqb tk "X" then
         Some (if Z.leb d 1 then 50 else if Z.leb d 3 then 55
               else if Z.leb d 5 then 60 else 66)
       else if String.eqb tk "Z" then
         (if Z.eqb d 2 then None else Some 10)
       else None).

Definition ex_file : list transaction :=
  [ mkTransaction "A" "X" "Purchase" 1000 2 1;
    mkTransaction "A" "Z" "Purchase" 100 1 1;
    mkTransaction "A" "Y" "Purchase" 500 3 2;
    mkTransaction "B" "X" "Purchase" 700 2 2;
    mkTransaction "A" "X" "Sale (Full)" 1100 4 3;
    mkTransaction "A" "X" "Purchase" 600 6 5 ].

Definition ex_politician_trades : list transaction :=
  choose_politician (clean_transactions ex_file 0 renamed_stocks) "A".

Definition ex_stock_data : list price :=
  build_stock_data (ex_provider (mkRequest ["X"; "Z"; "Y"; "SPY"] 1 None)).

Definition ex_trades : list trade :=
  add_stock_amount_column ex_politician_trades ex_stock_data.

Definition ex_rows (col : date_key) : list roi_row :=
  portfolio_rows (holdings_on ex_trades col [1; 2; 3; 4; 5; 6]%Z) ex_stock_data.

Definition ex_final : list final_row :=
  assemble (ex_provider (mkRequest ["SPY"] 1 None))
           (ex_rows ByTransactionDate) (ex_rows ByReportDate).

Definition ex_spy : request := mkRequest ["SPY"] 1 None.

(** A sale before any purchase, then a purchase of the same size. *)
Definition sold_first : list trade :=
  add_stock_amount_column
    [ mkTransaction "A" "X" "Sale (Full)" (-500) 1 1;
      mkTransaction "A" "X" "Purchase" 500 2 2 ]
    [ mkPrice 1 "X" 50 1; mkPrice 2 "X" 50 1 ].

(** A purchase, then a sale disclosed on day 4, which is not a trading day. *)
Definition disclosed_off_calendar : list trade :=
  add_stock_amount_column
    [ mkTransaction "A" "X" "Purchase" 500 1 1;
      mkTransaction "A" "X" "Sale (Full)" (-500) 4 2 ]
    [ mkPrice 1 "X" 50 1; mkPrice 2 "X" 50 1; mkPrice 3 "X" 50 1;
      mkPrice 5 "X" 50 1 ].

(** One purchase of X on day 1, under a provider whose frame has the given
    closes of X, one per trading day. *)
Definition closes_provider (closes : list Q) (rq : request) : frame :=
  mkFrame (map Z.of_nat (seq 1 (List.length closes))) (rq_tickers rq)
    (fun d tk =>
       if String.eqb tk "SPY" then Some (100 + inject_Z d)
       else if String.eqb tk "X" then nth_error closes (Z.to_nat d - 1)
       else None).

Definition one_purchase_stock_data (closes : list Q) : list price :=
  build_stock_data (closes_provider closes (mkRequest ["X"; "SPY"] 1 None)).

Definition one_purchase_trades (closes : list Q) : list trade :=
  add_stock_amount_column [mkTransaction "A" "X" "Purchase" 1000 1 1]
                          (one_purchase_stock_data closes).

Definition one_purchase_rows (closes : list Q) : list roi_row :=
  portfolio_rows
    (holdings_on (one_purchase_trades closes) ByTransactionDate
                 (map Z.of_nat (seq 1 (List.length closes))))
    (one_purchase_stock_data closes).

(** The close of X falls to 0 on day 3. *)
Definition collapse : list Q := [50; 25; 0].

(** The close of X is negative on day 2. *)
Definition negative : list Q := [50; - (5)].

Definition no_row : roi_row := mkRoiRow 0 "" 0 0 0 0 0 None.

(** A file with a transaction in FB. *)
Definition fb_file : list transaction :=
  [ mkTransaction "A" "FB" "Purchase" 300 2 1;
    mkTransaction "A" "X" "Sale (Partial)" 200 3 2 ].

(** A politician who only sold. *)
Definition only_sales : list trade :=
  add_stock_amount_column
    [ mkTransaction "A" "X" "Sale (Full)" (-500) 1 1;
      mkTransaction "A" "X" "Sale (Partial)" (-100) 3 2 ]
    [ mkPrice 1 "X" 50 1; mkPrice 2 "X" 50 1; mkPrice 3 "X" 50 1 ].

(** The provider of the example with the calendar cut at the end date. *)
Definition bounded_provider (rq : request) : frame :=
  mkFrame
    (filter (fun d => match rq_end rq with
                      | Some e => Z.leb d e
                      | None => true
                      end) (f_index (ex_provider rq)))
    (f_columns (ex_provider rq)) (f_close (ex_provider rq)).

Definition ex_final_cut : list final_row :=
  assemble (bounded_provider (mkRequest ["SPY"] 1 (Some 3%Z)))
           (ex_rows ByTransactionDate) (ex_rows ByReportDate).

Definition no_final_row : final_row := mkFinalRow 0 0 0 0 0 0.

(** The transactions of the example, each disclosed on its execution
    date. *)
Definition disclosed_at_once : list trade :=
  add_stock_amount_column
    (map (fun t => mkTransaction (Representative t) (Ticker t) (Transaction t)
                                 (Amount t) (TransactionDate t)
                                 (TransactionDate t))
         ex_politician_trades)
    ex_stock_data.

Definition disclosed_at_once_final : list final_row :=
  match fst (create_portfolio_roi ex_provider disclosed_at_once ex_stock_data
                                  1 None []) with
  | Ok final => final
  | Raise _ => []
  end.

(** ** Vocabulary of the properties *)


(** The dictionary after the loop has processed [dates]. *)
Definition state_after (trades : list trade) (col : date_key) (dates : list Z)
  : dict :=
  fold_left (day_update trades col) dates [].

(** The entry of [day_sums] for one ticker: the sum of the share quantities
    of the day's transactions in that ticker. *)
Definition ticker_day_sum (trades : list trade) (col : date_key)
    (ticker : string) (date : Z) : Q :=
  nansum (map snd
    (filter (fun r => String.eqb (fst r) ticker)
       (map (fun t => (Ticker (tr_tx t), tr_StockAmount t))
            (day_transactions trades col date)))).

(** Net shares of a ticker over the transactions keyed on one of [dates]. *)
Definition net_shares (trades : list trade) (col : date_key) (ticker : string)
    (dates : list Z) : Q :=
  nansum (map tr_StockAmount
    (filter (fun t => String.eqb (Ticker (tr_tx t)) ticker
                      && existsb (Z.eqb (key_date col t)) dates) trades)).

(** Net shares of a ticker over the transactions keyed on a date up to [D]. *)
Definition net_shares_by (trades : list trade) (col : date_key)
    (ticker : string) (D : Z) : Q :=
  nansum (map tr_StockAmount
    (filter (fun t => String.eqb (Ticker (tr_tx t)) ticker
                      && Z.leb (key_date col t) D) trades)).

(** The running quantity [st] of a ticker agrees with its net shares [s]:
    absent when the net is zero, present and equal when it is positive. *)
Definition tracks (st : option Q) (s : Q) : Prop :=
  match st with
  | None => s == 0
  | Some q => q == s /\ 0 < s
  end.


(** The sum of a column without missing values. *)
Definition qsum (l : list Q) : Q := fold_right Qplus 0 l.

(** The rows of one date. *)
Definition rows_on (rows : list roi_row) (date : Z) : list roi_row :=
  filter (fun r => Z.eqb (r_Date r) date) rows.

(** The value weight of a row. *)
Definition weight (r : roi_row) : Q := r_StockValue r / r_TotalValue r.

(** A position has a price observation on its day. *)
Definition priced (stock_data : list price) (h : snapshot) : bool :=
  existsb (fun p => Z.eqb (h_Date h) (px_Date p)
                    && String.eqb (h_Ticker h) (px_Ticker p)) stock_data.

(** The (Date, Ticker, Close) columns of a price row. *)
Definition price_key (p : price) : Z * string * Q :=
  (px_Date p, px_Ticker p, px_Close p).

(** The previous closes after the rows [pre]. *)
Definition last_closes (last : dict) (pre : list (Z * string * Q)) : dict :=
  fold_left (fun l x => dict_set l (snd (fst x)) (snd x)) pre last.

(** The order of the price table: by ticker, then by date. *)
Definition price_le (a b : price) : Prop :=
  cmp_ticker_date (price_key a) (price_key b) <> Gt.

(** A frame restricted to the column of one ticker. *)
Definition only_column (f : frame) (ticker : string) : frame :=
  mkFrame (f_index f) (filter (String.eqb ticker) (f_columns f)) (f_close f).

(** One row as [clean_transactions] rewrites it: the ticker renamed, the
    amount negated unless the transaction type contains "Purchase". *)
Definition normalise (renamed : list (string * string)) (t : transaction)
  : transaction :=
  mkTransaction (Representative t) (replace renamed (Ticker t)) (Transaction t)
                (if contains "Purchase" (Transaction t)
                 then Amount t else - Amount t)
                (ReportDate t) (TransactionDate t).

(** The order of [sort_values("TransactionDate")]. *)
Definition cmp_transaction_date (a b : transaction) : comparison :=
  Z.compare (TransactionDate a) (TransactionDate b).

(** A cell that adds no shares or removes some. *)
Definition not_a_purchase (c : cell) : Prop :=
  match c with
  | None => True
  | Some q => q <= 0
  end.

(** The transactions in one ticker. *)
Definition of_ticker (k : string) (trades : list trade) : list trade :=
  filter (fun t => String.eqb (Ticker (tr_tx t)) k) trades.

(** The entries of the dictionary under one key. *)
Definition dict_only (k : string) (d : dict) : dict :=
  filter (fun kv => String.eqb (fst kv) k) d.

(** The (Date, Ticker) key of a ledger row, of a price row, of a row of the
    aggregated table. *)
Definition snapshot_key (r : snapshot) : Z * string := (h_Date r, h_Ticker r).

Definition price_date_ticker (p : price) : Z * string := (px_Date p, px_Ticker p).

Definition roi_row_key (r : roi_row) : Z * string := (r_Date r, r_Ticker r).

(** The daily return that the comparison table gives a date: the value of
    the aggregated series on that date, 1 when the date is absent. *)
Definition lookup_return (series : list (Z * Q)) (date : Z) : Q :=
  match filter (fun kv => Z.eqb (fst kv) date) series with
  | kv :: _ => snd kv
  | [] => 1
  end.

(** What every implementation of [sort_values("TransactionDate")]
    guarantees: the same rows, in ascending order of execution date.  The
    order of rows with equal dates is left to the implementation. *)
Definition date_le (a b : transaction) : Prop :=
  (TransactionDate a <= TransactionDate b)%Z.

Definition sorts_by_date (sort : list transaction -> list transaction) : Prop :=
  forall rows, Permutation (sort rows) rows /\ StronglySorted date_le (sort rows).

(** [clean_transactions] with the sort of its last line as a parameter. *)
Definition clean_transactions_with (sort : list transaction -> list transaction)
    (df : list transaction) (cutoff_date : Z) (renamed : list (string * string))
  : list transaction :=
  sort (map (normalise renamed)
            (filter (fun t => Z.ltb cutoff_date (TransactionDate t)) df)).

(** A file of one politician whose execution dates are all different. *)
Definition distinct_dates_file : list transaction :=
  [ mkTransaction "A" "X" "Purchase" 1000 2 1;
    mkTransaction "B" "X" "Purchase" 700 2 1;
    mkTransaction "A" "FB" "Sale (Full)" 200 3 2;
    mkTransaction "B" "Z" "Purchase" 100 3 2;
    mkTransaction "A" "Z" "Purchase" 100 4 3 ].

(** ** The ledger in binary64

    The share quantities of the program are float64 values.  Lines 105 and
    126-147 are embedded here a second time over IEEE 754 binary64
    (precision 53, exponents up to 1024, round to nearest even, as
    [SpecFloat] specifies it), with its infinities, its NaN and its
    rounding, so that the decisions of the day loop, which compare a
    quantity with 0, are those of the program also where exact arithmetic
    decides otherwise.

    The inputs are the tables of the exact model: an amount or a close [q]
    stands for the float64 nearest to it ([Float64.of_Q]). *)

Module Float64.

Definition float : Type := spec_float.

Definition prec : Z := 53.
Definition emax : Z := 1024.

Definition zero : float := S754_zero false.
Definition nan : float := S754_nan.

Definition add (x y : float) : float := SFadd prec emax x y.
Definition div (x y : float) : float := SFdiv prec emax x y.

(** [x <= y] and [x < y]: false as soon as one side is NaN. *)
Definition leb (x y : float) : bool := SFleb x y.
Definition ltb (x y : float) : bool := SFltb x y.

Definition is_nan (x : float) : bool :=
  match x with
  | S754_nan => true
  | _ => false
  end.

(** Neither NaN nor an infinity. *)
Definition is_finite (x : float) : bool :=
  match x with
  | S754_zero _ | S754_finite _ _ _ => true
  | _ => false
  end.

(** The float64 nearest to an integer, and to a rational whose numerator
    and denominator are below 2^53 (a decimal literal, a price rounded to
    cents). *)
Definition of_Z (z : Z) : float := binary_normalize prec emax z 0 false.

Definition of_Q (q : Q) : float := div (of_Z (Qnum q)) (of_Z (Zpos (Qden q))).

(** A transaction after [add_stock_amount_column]. *)
Record trade : Type := mkTrade {
  tr_tx : transaction;
  tr_Close : float;
  tr_StockAmount : float
}.

(** A row of the holdings ledger. *)
Record snapshot : Type := mkSnapshot {
  h_Date : Z;
  h_Ticker : string;
  h_StockAmount : float
}.

(** The left merge, then [StockAmount = Amount / Close]: NaN for a
    transaction without a price row, an infinity at a close of zero (NaN
    when the amount is zero too). *)
Definition add_stock_amount_column (politician_trades : list transaction)
    (stock_data : list price) : list trade :=
  flat_map
    (fun t =>
       match filter (fun p => Z.eqb (px_Date p) (TransactionDate t)
                              && String.eqb (px_Ticker p) (Ticker t))
                    stock_data with
       | [] => [mkTrade t nan (div (of_Q (Amount t)) nan)]
       | ms => map (fun p => mkTrade t (of_Q (px_Close p))
                                     (div (of_Q (Amount t)) (of_Q (px_Close p))))
                   ms
       end)
    politician_trades.

(** [cumulative_holdings]. *)
Definition dict : Type := list (string * float).

Fixpoint dict_get (d : dict) (k : string) : option float :=
  match d with
  | [] => None
  | (k', v) :: d' => if String.eqb k' k then Some v else dict_get d' k
  end.

Fixpoint dict_set (d : dict) (k : string) (v : float) : dict :=
  match d with
  | [] => [(k, v)]
  | (k', v') :: d' =>
      if String.eqb k' k then (k', v) :: d' else (k', v') :: dict_set d' k v
  end.

Definition dict_del (d : dict) (k : string) : dict :=
  filter (fun kv => negb (String.eqb (fst kv) k)) d.

Definition key_date (col : date_key) (t : trade) : Z :=
  match col with
  | ByTransactionDate => TransactionDate (tr_tx t)
  | ByReportDate => ReportDate (tr_tx t)
  end.

(** [get_group(date)]. *)
Definition day_transactions (trades : list trade) (col : date_key) (date : Z)
  : list trade :=
  filter (fun t => Z.eqb (key_date col t) date) trades.

(** The ticker has a transaction keyed on the date. *)
Definition traded (trades : list trade) (col : date_key) (ticker : string)
    (date : Z) : bool :=
  existsb (fun t => String.eqb (Ticker (tr_tx t)) ticker)
          (day_transactions trades col date).

Section Ledger.

(** The sum of the share quantities of one group of
    [groupby('Ticker')['StockAmount'].sum()], in row order.  How pandas adds
    the rows of a group (plain or compensated summation, what it does with
    NaN and with infinities) differs between its versions, so the sum is a
    parameter: the properties of the ledger hold for every such function. *)
Variable group_sum : list float -> float.

(** The group sum of one ticker on one day. *)
Definition ticker_day_sum (trades : list trade) (col : date_key)
    (ticker : string) (date : Z) : float :=
  group_sum
    (map tr_StockAmount
         (filter (fun t => String.eqb (Ticker (tr_tx t)) ticker)
                 (day_transactions trades col date))).

(** [day_transactions.groupby('Ticker')['StockAmount'].sum()]: one entry per
    ticker of the day, tickers in ascending order. *)
Definition day_sums (trades : list trade) (col : date_key) (date : Z)
  : list (string * float) :=
  map (fun k => (k, ticker_day_sum trades col k date))
      (sort_keys String.compare
         (unique String.eqb
            (map (fun t => Ticker (tr_tx t)) (day_transactions trades col date)))).

(** Lines 137-139: [cumulative_holdings[ticker] += stock_amount], from the
    integer 0 of the [defaultdict] for a ticker not held, then
    [del cumulative_holdings[ticker]] when the result is [<= 0]. *)
Definition update_holding (cumulative_holdings : dict) (item : string * float)
  : dict :=
  let (ticker, stock_amount) := item in
  let v := add (match dict_get cumulative_holdings ticker with
                | Some x => x
                | None => zero
                end) stock_amount in
  let d := dict_set cumulative_holdings ticker v in
  if leb v zero then dict_del d ticker else d.

Definition day_update (trades : list trade) (col : date_key)
    (cumulative_holdings : dict) (date : Z) : dict :=
  if existsb (fun t => Z.eqb (key_date col t) date) trades
  then fold_left update_holding (day_sums trades col date) cumulative_holdings
  else cumulative_holdings.

Fixpoint holdings_loop (trades : list trade) (col : date_key)
    (cumulative_holdings : dict) (dates : list Z) : list snapshot :=
  match dates with
  | [] => []
  | date :: dates' =>
      let d := day_update trades col cumulative_holdings date in
      map (fun kv => mkSnapshot date (fst kv) (snd kv)) d
        ++ holdings_loop trades col d dates'
  end.

(** The ledger over a trading calendar, from the empty dictionary. *)
Definition holdings_on (trades : list trade) (col : date_key) (dates : list Z)
  : list snapshot :=
  holdings_loop trades col [] dates.

(** The dictionary after the loop has processed [dates]. *)
Definition state_after (trades : list trade) (col : date_key) (dates : list Z)
  : dict :=
  fold_left (day_update trades col) dates [].

(** The quantity of a ticker in the dictionary after [dates]: what line 137
    adds the next day sum to. *)
Definition held (trades : list trade) (col : date_key) (dates : list Z)
    (ticker : string) : float :=
  match dict_get (state_after trades col dates) ticker with
  | Some x => x
  | None => zero
  end.

(** The net shares of a ticker over [dates] as the program accumulates
    them: its day sums on the dates on which it is traded, added in calendar
    order from 0. *)
Definition net_shares (trades : list trade) (col : date_key) (ticker : string)
    (dates : list Z) : float :=
  fold_left
    (fun acc date =>
       if traded trades col ticker date
       then add acc (ticker_day_sum trades col ticker date)
       else acc)
    dates zero.

End Ledger.

(** A group sum: the rows added from 0.0 in row order, NaN skipped.  On a
    group of one row every summation returns that row's quantity (0.0 for a
    NaN), which is all the examples below rely on. *)
Definition sum_in_order (l : list float) : float :=
  fold_left (fun acc x => if is_nan x then acc else add acc x) l zero.

End Float64.

(** The transactions of the example, valued in binary64. *)
Definition ex_trades_f64 : list Float64.trade :=
  Float64.add_stock_amount_column ex_politician_trades ex_stock_data.

(** A purchase and, a day later, a sale, both on days on which X closes at
    zero. *)
Definition zero_close : list Float64.trade :=
  Float64.add_stock_amount_column
    [ mkTransaction "A" "X" "Purchase" 1000 1 1;
      mkTransaction "A" "X" "Sale (Full)" (-1000) 2 2 ]
    [ mkPrice 1 "X" 0 1; mkPrice 2 "X" 0 1; mkPrice 3 "X" 0 1 ].

(** Three transactions in X at a close of 10: 0.1 and 0.2 shares bought,
    0.3 shares sold. *)
Definition dust_file : list transaction :=
  [ mkTransaction "A" "X" "Purchase" 1 1 1;
    mkTransaction "A" "X" "Purchase" 2 2 2;
    mkTransaction "A" "X" "Sale (Full)" 3 3 3 ].

Definition dust_stock_data : list price :=
  [ mkPrice 1 "X" 10 1; mkPrice 2 "X" 10 1; mkPrice 3 "X" 10 1;
    mkPrice 4 "X" 10 1 ].

Definition dust_politician_trades : list transaction :=
  choose_politician (clean_transactions dust_file 0 renamed_stocks) "A".







(** * Properties *)

(** ** Arithmetic on cells *)

Lemma Qle_bool_false_lt (x y : Q) : Qle_bool x y = false -> y < x.
Proof.
  intros H. apply Qnot_le_lt. intros Hle.
  apply Qle_bool_iff in Hle. congruence.
Qed.


Lemma nansum_from (l : list cell) (a : Q) :
  fold_left (fun acc c => match c with Some x => acc + x | None => acc end) l a
  == a + nansum l.
Proof.
  unfold nansum. revert a.
  induction l as [|c l IH]; intros a; simpl.
  - ring.
  - destruct c as [x|].
    + rewrite IH. rewrite (IH (0 + x)). ring.
    + apply IH.
Qed.

Lemma nansum_cons (c : cell) (l : list cell) :
  nansum (c :: l) == fillna 0 c + nansum l.
Proof.
  unfold nansum at 1. simpl. destruct c as [x|]; simpl.
  - rewrite nansum_from. ring.
  - rewrite nansum_from. reflexivity.
Qed.

(** ** Unique values, sorting and group-by *)

Section KeyedFacts.
Variable K : Type.
Variable eqb : K -> K -> bool.
Hypothesis eqb_eq : forall a b, eqb a b = true <-> a = b.

Lemma existsb_eqb_In (k : K) (l : list K) :
  existsb (eqb k) l = true <-> In k l.
Proof.
  rewrite existsb_exists. split.
  - intros [x [Hin Hx]]. apply eqb_eq in Hx. subst. exact Hin.
  - intros Hin. exists k. split; [exact Hin | apply eqb_eq; reflexivity].
Qed.

Lemma unique_acc (l acc : list K) :
  NoDup acc ->
  NoDup (fold_left (fun acc k => if existsb (eqb k) acc then acc else acc ++ [k])
                   l acc)
  /\ forall k,
      In k (fold_left (fun acc k => if existsb (eqb k) acc then acc else acc ++ [k])
                      l acc)
      <-> In k acc \/ In k l.
Proof.
  revert acc. induction l as [|x l IH]; intros acc Hnd; simpl.
  - split; [exact Hnd | intros k; tauto].
  - destruct (existsb (eqb x) acc) eqn:Hex.
    + apply existsb_eqb_In in Hex.
      destruct (IH acc Hnd) as [H1 H2]. split; [exact H1|].
      intros k. rewrite H2. intuition (subst; auto).
    + assert (Hnin : ~ In x acc).
      { intros Hin. apply existsb_eqb_In in Hin. congruence. }
      assert (Hnd' : NoDup (acc ++ [x])).
      { apply NoDup_app; [exact Hnd | repeat constructor; intros [] |].
        intros y Hy [Hy'|[]]. subst. contradiction. }
      destruct (IH _ Hnd') as [H1 H2]. split; [exact H1|].
      intros k. rewrite H2, in_app_iff. simpl. tauto.
Qed.

Lemma unique_NoDup (l : list K) : NoDup (unique eqb l).
Proof. apply (unique_acc l (acc:=[])). constructor. Qed.

Lemma unique_In (l : list K) (k : K) : In k (unique eqb l) <-> In k l.
Proof.
  destruct (unique_acc l (acc:=[])) as [_ H]; [constructor|].
  unfold unique. rewrite H. simpl. tauto.
Qed.

Variable cmp : K -> K -> comparison.

Lemma insert_sorted_perm (x : K) (l : list K) :
  Permutation (insert_sorted cmp x l) (x :: l).
Proof.
  induction l as [|y l IH]; simpl.
  - apply Permutation_refl.
  - destruct (cmp x y); try apply Permutation_refl.
    eapply Permutation_trans; [apply perm_skip, IH | apply perm_swap].
Qed.

Lemma sort_keys_perm (l : list K) : Permutation (sort_keys cmp l) l.
Proof.
  induction l as [|x l IH]; simpl.
  - constructor.
  - eapply Permutation_trans; [apply insert_sorted_perm|].
    apply perm_skip, IH.
Qed.

Lemma groupby_sum_keys (rows : list (K * cell)) :
  map fst (groupby_sum eqb cmp rows) = sort_keys cmp (unique eqb (map fst rows)).
Proof.
  unfold groupby_sum. rewrite map_map. simpl. apply map_id.
Qed.

Lemma groupby_sum_NoDup (rows : list (K * cell)) :
  NoDup (map fst (groupby_sum eqb cmp rows)).
Proof.
  rewrite groupby_sum_keys.
  eapply Permutation_NoDup; [apply Permutation_sym, sort_keys_perm|].
  apply unique_NoDup.
Qed.

Lemma groupby_sum_In (rows : list (K * cell)) (k : K) (s : Q) :
  In (k, s) (groupby_sum eqb cmp rows) <->
  In k (map fst rows)
  /\ s = nansum (map snd (filter (fun r => eqb (fst r) k) rows)).
Proof.
  unfold groupby_sum. rewrite in_map_iff. split.
  - intros [k' [Heq Hin]]. inversion Heq; subst. split; [|reflexivity].
    apply unique_In. eapply Permutation_in; [apply sort_keys_perm | exact Hin].
  - intros [Hin ->]. exists k. split; [reflexivity|].
    eapply Permutation_in; [apply Permutation_sym, sort_keys_perm|].
    apply unique_In. exact Hin.
Qed.
End KeyedFacts.

(** ** The dictionary *)

Lemma dict_set_In (d : dict) (k : string) (v : Q) (kv : string * Q) :
  In kv (dict_set d k v) -> kv = (k, v) \/ In kv d.
Proof.
  induction d as [|[k' v'] d IH]; simpl.
  - intros [H|[]]. left; congruence.
  - destruct (String.eqb_spec k' k) as [->|Hne]; simpl.
    + intros [H|H]; [left; congruence | right; right; exact H].
    + intros [H|H]; [right; left; exact H|].
      destruct (IH H) as [H1|H1]; [left; exact H1 | right; right; exact H1].
Qed.

Lemma dict_get_set_same (d : dict) (k : string) (v : Q) :
  dict_get (dict_set d k v) k = Some v.
Proof.
  induction d as [|[k' v'] d IH]; simpl.
  - rewrite String.eqb_refl. reflexivity.
  - destruct (String.eqb_spec k' k) as [->|Hne]; simpl.
    + rewrite String.eqb_refl. reflexivity.
    + destruct (String.eqb_spec k' k); [contradiction | exact IH].
Qed.

Lemma dict_get_set_other (d : dict) (k k' : string) (v : Q) :
  k <> k' -> dict_get (dict_set d k v) k' = dict_get d k'.
Proof.
  intros Hne. induction d as [|[k0 v0] d IH]; simpl.
  - destruct (String.eqb_spec k k'); [contradiction | reflexivity].
  - destruct (String.eqb_spec k0 k) as [->|Hn]; simpl.
    + destruct (String.eqb_spec k k'); [contradiction | reflexivity].
    + rewrite IH. reflexivity.
Qed.

Lemma dict_get_del_same (d : dict) (k : string) :
  dict_get (dict_del d k) k = None.
Proof.
  induction d as [|[k0 v0] d IH]; simpl; [reflexivity|].
  destruct (String.eqb_spec k0 k) as [->|Hn]; simpl; [exact IH|].
  destruct (String.eqb_spec k0 k); [contradiction | exact IH].
Qed.

Lemma dict_get_del_other (d : dict) (k k' : string) :
  k <> k' -> dict_get (dict_del d k) k' = dict_get d k'.
Proof.
  intros Hne. induction d as [|[k0 v0] d IH]; simpl; [reflexivity|].
  destruct (String.eqb_spec k0 k) as [->|Hn]; simpl.
  - destruct (String.eqb_spec k k'); [contradiction | exact IH].
  - rewrite IH. reflexivity.
Qed.

Lemma dict_get_In (d : dict) (k : string) (v : Q) :
  dict_get d k = Some v -> In (k, v) d.
Proof.
  induction d as [|[k0 v0] d IH]; simpl; [discriminate|].
  destruct (String.eqb_spec k0 k) as [->|Hn].
  - intros [= ->]. left; reflexivity.
  - intros H. right. exact (IH H).
Qed.

Lemma dict_set_keys_NoDup (d : dict) (k : string) (v : Q) :
  NoDup (map fst d) -> NoDup (map fst (dict_set d k v)).
Proof.
  induction d as [|[k0 v0] d IH]; simpl; intros Hnd.
  - repeat constructor. intros [].
  - inversion Hnd as [|? ? Hnin Hnd']; subst.
    destruct (String.eqb_spec k0 k) as [->|Hn]; simpl.
    + constructor; assumption.
    + constructor; [|exact (IH Hnd')].
      intros Hin. apply in_map_iff in Hin. destruct Hin as [[a b] [Ha Hb]].
      simpl in Ha. subst a. apply dict_set_In in Hb. destruct Hb as [Hb|Hb].
      * inversion Hb. congruence.
      * apply Hnin. apply in_map_iff. exists (k0, b). split; [reflexivity | exact Hb].
Qed.

Lemma dict_del_keys_NoDup (d : dict) (k : string) :
  NoDup (map fst d) -> NoDup (map fst (dict_del d k)).
Proof.
  induction d as [|[k0 v0] d IH]; simpl; intros Hnd; [constructor|].
  inversion Hnd as [|? ? Hnin Hnd']; subst.
  destruct (String.eqb k0 k); simpl; [exact (IH Hnd')|].
  constructor; [|exact (IH Hnd')].
  intros Hin. apply Hnin. apply in_map_iff in Hin.
  destruct Hin as [x [Hx Hin]]. apply filter_In in Hin.
  apply in_map_iff. exists x. tauto.
Qed.

Lemma dict_In_get (d : dict) (k : string) (v : Q) :
  NoDup (map fst d) -> In (k, v) d -> dict_get d k = Some v.
Proof.
  induction d as [|[k0 v0] d IH]; simpl; intros Hnd Hin; [contradiction|].
  inversion Hnd as [|? ? Hnin Hnd']; subst.
  destruct Hin as [Hin|Hin].
  - inversion Hin; subst. rewrite String.eqb_refl. reflexivity.
  - destruct (String.eqb_spec k0 k) as [->|Hn]; [|exact (IH Hnd' Hin)].
    exfalso. apply Hnin. apply in_map_iff. exists (k, v). split; [reflexivity | exact Hin].
Qed.

(** ** In exact arithmetic the day loop keeps every quantity positive *)


Lemma update_holding_keys (d : dict) (item : string * Q) :
  NoDup (map fst d) -> NoDup (map fst (update_holding d item)).
Proof.
  intros Hd. destruct item as [ticker stock_amount]. unfold update_holding.
  destruct (Qle_bool _ 0).
  - apply dict_del_keys_NoDup, dict_set_keys_NoDup, Hd.
  - apply dict_set_keys_NoDup, Hd.
Qed.

Lemma fold_update_holding_inv (P : dict -> Prop) (items : list (string * Q)) :
  (forall d item, P d -> P (update_holding d item)) ->
  forall d, P d -> P (fold_left update_holding items d).
Proof.
  intros Hstep. induction items as [|item items IH]; intros d Hd; simpl.
  - exact Hd.
  - apply IH, Hstep, Hd.
Qed.


Lemma day_update_keys (trades : list trade) (col : date_key) (d : dict) (date : Z) :
  NoDup (map fst d) -> NoDup (map fst (day_update trades col d date)).
Proof.
  intros Hd. unfold day_update. destruct (existsb _ trades); [|exact Hd].
  apply fold_update_holding_inv; [apply update_holding_keys | exact Hd].
Qed.


(** ** One ticker through the day loop *)

Lemma update_holding_get_same (d : dict) (k : string) (s : Q) :
  dict_get (update_holding d (k, s)) k =
  if Qle_bool (fillna 0 (dict_get d k) + s) 0 then None
  else Some (fillna 0 (dict_get d k) + s).
Proof.
  unfold update_holding. destruct (Qle_bool _ 0).
  - apply dict_get_del_same.
  - apply dict_get_set_same.
Qed.

Lemma update_holding_get_other (d : dict) (k k' : string) (s : Q) :
  k <> k' -> dict_get (update_holding d (k, s)) k' = dict_get d k'.
Proof.
  intros Hne. unfold update_holding. destruct (Qle_bool _ 0).
  - rewrite dict_get_del_other by exact Hne. apply dict_get_set_other, Hne.
  - apply dict_get_set_other, Hne.
Qed.

Lemma fold_update_get_other (items : list (string * Q)) (k : string) :
  ~ In k (map fst items) ->
  forall d, dict_get (fold_left update_holding items d) k = dict_get d k.
Proof.
  induction items as [|[k0 s0] items IH]; intros Hnin d; cbn [fold_left].
  - reflexivity.
  - rewrite IH.
    + apply update_holding_get_other. intros ->. apply Hnin. left; reflexivity.
    + intros Hin. apply Hnin. right. exact Hin.
Qed.

Lemma fold_update_get_same (items : list (string * Q)) (k : string) (s : Q) :
  NoDup (map fst items) -> In (k, s) items ->
  forall d,
    dict_get (fold_left update_holding items d) k =
    if Qle_bool (fillna 0 (dict_get d k) + s) 0 then None
    else Some (fillna 0 (dict_get d k) + s).
Proof.
  induction items as [|[k0 s0] items IH]; intros Hnd Hin d; cbn [fold_left].
  - contradiction.
  - simpl in Hnd. inversion Hnd as [|? ? Hnin Hnd']; subst.
    destruct Hin as [Heq|Hin].
    + inversion Heq; subst.
      rewrite fold_update_get_other by exact Hnin.
      apply update_holding_get_same.
    + rewrite (IH Hnd' Hin).
      assert (Hne : k0 <> k).
      { intros ->. apply Hnin. apply in_map_iff. exists (k, s). split; [reflexivity | exact Hin]. }
      rewrite update_holding_get_other by exact Hne. reflexivity.
Qed.

Lemma day_sums_In (trades : list trade) (col : date_key) (date : Z)
    (k : string) (s : Q) :
  In (k, s) (day_sums trades col date) <->
  In k (map (fun t => Ticker (tr_tx t)) (day_transactions trades col date))
  /\ s = ticker_day_sum trades col k date.
Proof.
  unfold day_sums, ticker_day_sum.
  rewrite (@groupby_sum_In _ String.eqb String.eqb_eq String.compare).
  rewrite map_map. simpl. reflexivity.
Qed.

Lemma ticker_day_sum_untraded (trades : list trade) (col : date_key)
    (k : string) (date : Z) :
  ~ In k (map (fun t => Ticker (tr_tx t)) (day_transactions trades col date)) ->
  ticker_day_sum trades col k date = 0.
Proof.
  intros Hnin. unfold ticker_day_sum.
  replace (filter _ _) with (@nil (string * cell)); [reflexivity|].
  symmetry.
  induction (day_transactions trades col date) as [|t l IH]; simpl in *.
  - reflexivity.
  - destruct (String.eqb_spec (Ticker (tr_tx t)) k) as [He|Hn].
    + exfalso. apply Hnin. left. exact He.
    + apply IH. intros H. apply Hnin. right. exact H.
Qed.

(** The effect of one day on one ticker. *)
Lemma day_update_get (trades : list trade) (col : date_key) (d : dict)
    (date : Z) (k : string) :
  dict_get (day_update trades col d date) k =
  if existsb (fun t => String.eqb (Ticker (tr_tx t)) k)
             (day_transactions trades col date)
  then if Qle_bool (fillna 0 (dict_get d k) + ticker_day_sum trades col k date) 0
       then None
       else Some (fillna 0 (dict_get d k) + ticker_day_sum trades col k date)
  else dict_get d k.
Proof.
  unfold day_update.
  destruct (existsb (fun t => String.eqb (Ticker (tr_tx t)) k)
                    (day_transactions trades col date)) eqn:Htr.
  - apply existsb_exists in Htr. destruct Htr as [t [Hin Ht]].
    apply String.eqb_eq in Ht.
    assert (Hex : existsb (fun t => Z.eqb (key_date col t) date) trades = true).
    { apply existsb_exists. exists t. unfold day_transactions in Hin.
      apply filter_In in Hin. exact Hin. }
    rewrite Hex.
    apply fold_update_get_same.
    + apply (@groupby_sum_NoDup _ String.eqb String.eqb_eq String.compare).
    + apply day_sums_In. split; [|reflexivity].
      apply in_map_iff. exists t. split; assumption.
  - assert (Hnin : ~ In k (map (fun t => Ticker (tr_tx t))
                               (day_transactions trades col date))).
    { intros Hin. apply in_map_iff in Hin. destruct Hin as [t [Ht Hin]].
      assert (H : existsb (fun t => String.eqb (Ticker (tr_tx t)) k)
                          (day_transactions trades col date) = true).
      { apply existsb_exists. exists t. split; [exact Hin|].
        apply String.eqb_eq. exact Ht. }
      congruence. }
    destruct (existsb _ trades); [|reflexivity].
    apply fold_update_get_other.
    intros Hin. apply Hnin.
    apply in_map_iff in Hin. destruct Hin as [[k' s] [Hk Hin]]. simpl in Hk. subst k'.
    apply day_sums_In in Hin. tauto.
Qed.

(** ** Rows of the ledger and states of the loop *)

Lemma state_after_snoc (trades : list trade) (col : date_key) (dates : list Z)
    (date : Z) :
  state_after trades col (dates ++ [date])
  = day_update trades col (state_after trades col dates) date.
Proof. unfold state_after. rewrite fold_left_app. reflexivity. Qed.

Lemma state_after_keys (trades : list trade) (col : date_key) (dates : list Z) :
  NoDup (map fst (state_after trades col dates)).
Proof.
  induction dates as [|date dates IH] using rev_ind.
  - constructor.
  - rewrite state_after_snoc. apply day_update_keys, IH.
Qed.

Lemma holdings_loop_In (trades : list trade) (col : date_key) (dates : list Z) :
  forall (d : dict) (r : snapshot),
    In r (holdings_loop trades col d dates) <->
    exists pre post,
      dates = pre ++ h_Date r :: post
      /\ In (h_Ticker r, h_StockAmount r)
            (fold_left (day_update trades col) (pre ++ [h_Date r]) d).
Proof.
  induction dates as [|date dates IH]; intros d r; simpl.
  - split; [intros [] | intros [pre [post [H _]]]].
    destruct pre; discriminate.
  - rewrite in_app_iff, in_map_iff, IH. split.
    + intros [[kv [Hr Hin]] | [pre [post [Hd Hin]]]].
      * exists [], dates. subst r. simpl. split; [reflexivity|].
        destruct kv; exact Hin.
      * exists (date :: pre), post. subst dates. split; [reflexivity | exact Hin].
    + intros [pre [post [Hd Hin]]]. destruct pre as [|x pre]; simpl in *.
      * inversion Hd; subst. left.
        exists (h_Ticker r, h_StockAmount r). split; [|exact Hin].
        destruct r; reflexivity.
      * inversion Hd; subst. right. exists pre, post. split; [reflexivity | exact Hin].
Qed.

Lemma NoDup_split_unique (A : Type) (x : A) (a b a' b' : list A) :
  NoDup (a ++ x :: b) -> a ++ x :: b = a' ++ x :: b' -> a = a' /\ b = b'.
Proof.
  revert a'. induction a as [|y a IH]; intros a' Hnd Heq.
  - destruct a' as [|z a']; simpl in *.
    + injection Heq as Hb. split; [reflexivity | exact Hb].
    + injection Heq as Hz Hb. subst z.
      inversion Hnd as [|? ? Hnin _]; subst.
      exfalso. apply Hnin. apply in_or_app. right. left. reflexivity.
  - destruct a' as [|z a']; simpl in *.
    + injection Heq as Hy Hb. subst y.
      inversion Hnd as [|? ? Hnin _]; subst.
      exfalso. apply Hnin. apply in_or_app. right. left. reflexivity.
    + injection Heq as Hy Hb. subst z.
      inversion Hnd as [|? ? _ Hnd']; subst.
      destruct (IH a' Hnd' Hb) as [-> ->]. split; reflexivity.
Qed.

(** On a calendar without repeated dates, the rows of a date are the
    entries of the dictionary after that date. *)
Lemma holdings_on_In (trades : list trade) (col : date_key)
    (pre post : list Z) (date : Z) (k : string) (q : Q) :
  NoDup (pre ++ date :: post) ->
  In (mkSnapshot date k q) (holdings_on trades col (pre ++ date :: post)) <->
  dict_get (state_after trades col (pre ++ [date])) k = Some q.
Proof.
  intros Hnd. unfold holdings_on. rewrite holdings_loop_In. simpl. split.
  - intros [pre' [post' [Hd Hin]]].
    destruct (NoDup_split_unique _ _ _ _ _ Hnd Hd) as [<- _].
    apply dict_In_get; [apply state_after_keys | exact Hin].
  - intros Hget. exists pre, post. split; [reflexivity|].
    apply dict_get_In. exact Hget.
Qed.

(** ** Net shares and the running quantity *)

Lemma net_shares_nil (trades : list trade) (col : date_key) (k : string) :
  net_shares trades col k [] = 0.
Proof.
  unfold net_shares.
  replace (filter _ trades) with (@nil trade); [reflexivity|].
  induction trades as [|t trades IH]; simpl; [reflexivity|].
  rewrite andb_false_r. exact IH.
Qed.

Lemma net_shares_snoc (trades : list trade) (col : date_key) (k : string)
    (dates : list Z) (date : Z) :
  ~ In date dates ->
  net_shares trades col k (dates ++ [date])
  == net_shares trades col k dates + ticker_day_sum trades col k date.
Proof.
  intros Hnin. unfold net_shares, ticker_day_sum, day_transactions.
  induction trades as [|t trades IH]; simpl.
  - unfold nansum. simpl. ring.
  - rewrite existsb_app. simpl. rewrite orb_false_r.
    destruct (String.eqb (Ticker (tr_tx t)) k) eqn:Hk; simpl.
    + destruct (existsb (Z.eqb (key_date col t)) dates) eqn:Hex; simpl.
      * assert (Hd : (key_date col t =? date)%Z = false).
        { apply Z.eqb_neq. intros <-. apply Hnin.
          apply existsb_exists in Hex. destruct Hex as [x [Hx Hxe]].
          apply Z.eqb_eq in Hxe. subst x. exact Hx. }
        rewrite Hd. simpl. rewrite !nansum_cons, IH. ring.
      * destruct (key_date col t =? date)%Z; simpl.
        -- rewrite Hk. simpl. rewrite !nansum_cons, IH. ring.
        -- exact IH.
    + destruct (key_date col t =? date)%Z; simpl; [rewrite Hk|]; exact IH.
Qed.

Lemma tracks_eq (st : option Q) (s s' : Q) : s == s' -> tracks st s -> tracks st s'.
Proof.
  intros He. destruct st as [q|]; simpl.
  - intros [H1 H2]. split; rewrite <- He; assumption.
  - intros H. rewrite <- He. exact H.
Qed.

Lemma tracks_step (trades : list trade) (col : date_key) (d : dict) (date : Z)
    (k : string) (s : Q) :
  tracks (dict_get d k) s ->
  0 <= s + ticker_day_sum trades col k date ->
  tracks (dict_get (day_update trades col d date) k)
         (s + ticker_day_sum trades col k date).
Proof.
  intros Htr Hge. rewrite day_update_get.
  destruct (existsb _ (day_transactions trades col date)) eqn:Hex.
  - assert (Hv : fillna 0 (dict_get d k) + ticker_day_sum trades col k date
                 == s + ticker_day_sum trades col k date).
    { destruct (dict_get d k) as [q|]; simpl in *.
      - destruct Htr as [-> _]. reflexivity.
      - rewrite Htr. reflexivity. }
    destruct (Qle_bool _ 0) eqn:Hle; simpl.
    + apply Qle_bool_iff in Hle. rewrite Hv in Hle.
      apply Qle_antisym; assumption.
    + apply Qle_bool_false_lt in Hle. rewrite Hv in Hle. split; assumption.
  - assert (Hz : ticker_day_sum trades col k date = 0).
    { apply ticker_day_sum_untraded. intros Hin.
      apply in_map_iff in Hin. destruct Hin as [t [Ht Hin]].
      assert (H : existsb (fun t => String.eqb (Ticker (tr_tx t)) k)
                          (day_transactions trades col date) = true).
      { apply existsb_exists. exists t. split; [exact Hin|].
        apply String.eqb_eq. exact Ht. }
      congruence. }
    rewrite Hz. eapply tracks_eq; [|exact Htr]. ring.
Qed.

Lemma tracks_run (trades : list trade) (col : date_key) (k : string)
    (q : list Z) :
  forall p,
    NoDup (p ++ q) ->
    tracks (dict_get (state_after trades col p) k) (net_shares trades col k p) ->
    (forall q1 q2, q = q1 ++ q2 -> 0 <= net_shares trades col k (p ++ q1)) ->
    tracks (dict_get (state_after trades col (p ++ q)) k)
           (net_shares trades col k (p ++ q)).
Proof.
  induction q as [|date q IH]; intros p Hnd Htr Hge.
  - rewrite app_nil_r. exact Htr.
  - replace (p ++ date :: q) with ((p ++ [date]) ++ q) in *
      by (rewrite <- app_assoc; reflexivity).
    assert (Hnin : ~ In date p).
    { rewrite <- app_assoc in Hnd. simpl in Hnd.
      apply NoDup_remove_2 in Hnd. intros Hin. apply Hnd.
      apply in_or_app. left. exact Hin. }
    apply IH.
    + exact Hnd.
    + rewrite state_after_snoc.
      eapply tracks_eq; [symmetry; apply net_shares_snoc, Hnin|].
      apply tracks_step; [exact Htr|].
      rewrite <- net_shares_snoc by exact Hnin.
      apply (Hge [date] q). reflexivity.
    + intros q1 q2 Hq. rewrite <- app_assoc. simpl.
      apply (Hge (date :: q1) q2). simpl. rewrite Hq. reflexivity.
Qed.

(** ** Sorting is determined by the set of keys *)

Section SortFacts.
Variable K : Type.
Variable cmp : K -> K -> comparison.
Hypothesis cmp_antisym : forall a b, cmp a b = CompOpp (cmp b a).
Hypothesis cmp_le_trans :
  forall a b c, cmp a b <> Gt -> cmp b c <> Gt -> cmp a c <> Gt.

Lemma cmp_Gt_le (a b : K) : cmp a b = Gt -> cmp b a <> Gt.
Proof.
  intros H. rewrite cmp_antisym, H. discriminate.
Qed.

Lemma insert_sorted_sorted (x : K) (l : list K) :
  StronglySorted (fun a b => cmp a b <> Gt) l ->
  StronglySorted (fun a b => cmp a b <> Gt) (insert_sorted cmp x l).
Proof.
  induction l as [|y l IH]; intros Hs; simpl.
  - repeat constructor.
  - inversion Hs as [|? ? Hs' Hall]; subst.
    assert (Hle : cmp x y <> Gt ->
                  StronglySorted (fun a b => cmp a b <> Gt) (x :: y :: l)).
    { intros Hxy. constructor; [exact Hs|]. constructor; [exact Hxy|].
      eapply Forall_impl; [|exact Hall]. intros z Hz.
      exact (cmp_le_trans Hxy Hz). }
    destruct (cmp x y) eqn:Hc.
    + apply Hle. discriminate.
    + apply Hle. discriminate.
    + constructor; [exact (IH Hs')|].
      apply Forall_forall. intros z Hz.
      apply (Permutation_in _ (insert_sorted_perm cmp x l)) in Hz.
      destruct Hz as [<-|Hz]; [exact (cmp_Gt_le Hc)|].
      revert z Hz. apply Forall_forall. exact Hall.
Qed.

Lemma sort_keys_sorted (l : list K) :
  StronglySorted (fun a b => cmp a b <> Gt) (sort_keys cmp l).
Proof.
  induction l as [|x l IH]; simpl.
  - constructor.
  - apply insert_sorted_sorted, IH.
Qed.

Hypothesis cmp_eq : forall a b, cmp a b = Eq -> a = b.




End SortFacts.

Lemma string_cmp_le_trans (a b c : string) :
  String.compare a b <> Gt -> String.compare b c <> Gt ->
  String.compare a c <> Gt.
Proof.
  intros H1 H2.
  destruct (String.compare a b) eqn:Hab; [| |congruence].
  - apply String.compare_eq_iff in Hab. subst. exact H2.
  - destruct (String.compare b c) eqn:Hbc; [| |congruence].
    + apply String.compare_eq_iff in Hbc. subst. rewrite Hab. discriminate.
    + apply String_as_OT.cmp_lt in Hab. apply String_as_OT.cmp_lt in Hbc.
      pose proof (String_as_OT.lt_trans _ _ _ Hab Hbc) as Hac.
      apply String_as_OT.cmp_lt in Hac. unfold String_as_OT.cmp in Hac.
      rewrite Hac. discriminate.
Qed.

Lemma Z_cmp_le_trans (a b c : Z) :
  Z.compare a b <> Gt -> Z.compare b c <> Gt -> Z.compare a c <> Gt.
Proof.
  rewrite !Z.compare_le_iff. lia.
Qed.

(** ** A transaction without shares leaves the ledger unchanged *)


Lemma string_unique_NoDup (l : list string) : NoDup (unique String.eqb l).
Proof. apply (@unique_NoDup _ String.eqb String.eqb_eq). Qed.

Lemma string_unique_In (l : list string) (k : string) :
  In k (unique String.eqb l) <-> In k l.
Proof. apply (@unique_In _ String.eqb String.eqb_eq). Qed.


















(** ** Value weights *)

Lemma nansum_Some (A : Type) (f : A -> Q) (l : list A) :
  nansum (map (fun x => Some (f x)) l) == qsum (map f l).
Proof.
  induction l as [|x l IH]; simpl.
  - reflexivity.
  - rewrite nansum_cons, IH. simpl. reflexivity.
Qed.

Lemma qsum_div (A : Type) (f : A -> Q) (T : Q) (l : list A) :
  qsum (map (fun x => f x / T) l) == qsum (map f l) / T.
Proof.
  induction l as [|x l IH]; simpl.
  - unfold Qdiv. ring.
  - rewrite IH. unfold Qdiv. ring.
Qed.

Lemma filter_map_comm (A B : Type) (f : A -> B) (p : B -> bool) (l : list A) :
  filter p (map f l) = map f (filter (fun x => p (f x)) l).
Proof.
  induction l as [|x l IH]; simpl; [reflexivity|].
  destruct (p (f x)); simpl; rewrite IH; reflexivity.
Qed.

(** The rows of a date are the merged rows of that date, each with the
    date's total. *)
Lemma rows_on_portfolio_rows (holding : list snapshot) (stock_data : list price)
    (date : Z) :
  rows_on (portfolio_rows holding stock_data) date
  = map (fun hp =>
           let sv := stock_value hp in
           let tv := total_value (merge_prices holding stock_data) date in
           mkRoiRow (h_Date (fst hp)) (h_Ticker (fst hp))
                    (h_StockAmount (fst hp)) (px_Close (snd hp))
                    (px_DailyROI (snd hp)) sv tv
                    (cell_mul (fdiv sv tv) (Some (px_DailyROI (snd hp)))))
        (filter (fun hp => Z.eqb (h_Date (fst hp)) date)
                (merge_prices holding stock_data)).
Proof.
  unfold rows_on, portfolio_rows.
  set (merged := merge_prices holding stock_data).
  rewrite filter_map_comm. simpl.
  apply map_ext_in. intros hp Hin. apply filter_In in Hin.
  destruct Hin as [_ Hd]. apply Z.eqb_eq in Hd. rewrite Hd. reflexivity.
Qed.

Lemma fdiv_nonzero (a b : Q) : ~ b == 0 -> fdiv a b = Some (a / b).
Proof.
  intros Hb. unfold fdiv. destruct (Qeq_bool b 0) eqn:He; [|reflexivity].
  apply Qeq_bool_iff in He. contradiction.
Qed.

Lemma fdiv_zero (a b : Q) : b == 0 -> fdiv a b = None.
Proof.
  intros Hb. unfold fdiv. apply Qeq_bool_iff in Hb. rewrite Hb. reflexivity.
Qed.

(** On a date whose total value is not zero the weights sum to 1 and the
    row contributions are the weighted return factors. *)
Lemma weights_on_date (holding : list snapshot) (stock_data : list price)
    (date : Z) :
  let T := total_value (merge_prices holding stock_data) date in
  let rows := rows_on (portfolio_rows holding stock_data) date in
  ~ T == 0 ->
  Forall (fun r => r_TotalValue r = T
                   /\ r_ROI r = Some (weight r * r_DailyROI r)) rows
  /\ qsum (map weight rows) == 1
  /\ nansum (map r_ROI rows) == qsum (map (fun r => weight r * r_DailyROI r) rows).
Proof.
  intros T rows HT. unfold rows. rewrite rows_on_portfolio_rows. fold T.
  set (day := filter _ (merge_prices holding stock_data)).
  split; [|split].
  - apply Forall_map. apply Forall_forall. intros hp _. simpl.
    split; [reflexivity|]. rewrite (fdiv_nonzero _ HT). reflexivity.
  - rewrite map_map. unfold weight. simpl.
    rewrite (qsum_div stock_value T day).
    assert (HTs : T == qsum (map stock_value day)).
    { unfold T, total_value. fold day. apply nansum_Some. }
    rewrite <- HTs. field. exact HT.
  - rewrite !map_map. simpl.
    rewrite (map_ext _ (fun hp => Some (stock_value hp / T * px_DailyROI (snd hp)))).
    + rewrite nansum_Some. reflexivity.
    + intros hp. rewrite (fdiv_nonzero _ HT). reflexivity.
Qed.

(** The return of a date in the aggregated series is the sum of the
    contributions of the date's rows. *)
Lemma daily_returns_In (rows : list roi_row) (date : Z) (ret : Q) :
  In (date, ret) (daily_returns rows) <->
  In date (map r_Date rows) /\ ret = nansum (map r_ROI (rows_on rows date)).
Proof.
  unfold daily_returns.
  rewrite (@groupby_sum_In _ Z.eqb Z.eqb_eq Z.compare).
  rewrite map_map. simpl.
  rewrite filter_map_comm, map_map. simpl. unfold rows_on. reflexivity.
Qed.

Lemma daily_returns_NoDup (rows : list roi_row) :
  NoDup (map fst (daily_returns rows)).
Proof. apply (@groupby_sum_NoDup _ Z.eqb Z.eqb_eq Z.compare). Qed.

(** ** What the run computes *)

Lemma holdings_Ok (yf_download : request -> frame) (trades : list trade)
    (cutoff_date : Z) (col : date_key) (end_date : option Z)
    (log : list request) :
  holdings yf_download trades cutoff_date col end_date log
  = (Ok (holdings_on trades col
           (f_index (yf_download (mkRequest ["SPY"] cutoff_date end_date)))),
     log ++ [mkRequest ["SPY"] cutoff_date end_date]).
Proof. reflexivity. Qed.

Lemma calculate_portfolio_roi_Ok (yf_download : request -> frame)
    (trades : list trade) (cutoff_date : Z) (stock_data : list price)
    (col : date_key) (log log' : list request) (rows : list roi_row) :
  calculate_portfolio_roi yf_download trades cutoff_date stock_data col log
  = (Ok rows, log') ->
  rows = portfolio_rows
           (holdings_on trades col
              (f_index (yf_download (mkRequest ["SPY"] cutoff_date None))))
           stock_data
  /\ log' = log ++ [mkRequest ["SPY"] cutoff_date None].
Proof.
  unfold calculate_portfolio_roi, bind. rewrite holdings_Ok.
  destruct (holdings_on trades col _) as [|h hs]; unfold raise, ret.
  - discriminate.
  - intros [= <- <-]. split; reflexivity.
Qed.

Lemma merge_prices_In (holding : list snapshot) (stock_data : list price)
    (h : snapshot) (p : price) :
  In (h, p) (merge_prices holding stock_data) <->
  In h holding /\ In p stock_data
  /\ h_Date h = px_Date p /\ h_Ticker h = px_Ticker p.
Proof.
  unfold merge_prices. rewrite in_flat_map. split.
  - intros [h' [Hh Hin]]. apply in_map_iff in Hin.
    destruct Hin as [p' [Heq Hp]]. inversion Heq; subst.
    apply filter_In in Hp. destruct Hp as [Hp Hm].
    apply andb_true_iff in Hm. destruct Hm as [Hd Hk].
    apply Z.eqb_eq in Hd. apply String.eqb_eq in Hk. tauto.
  - intros [Hh [Hp [Hd Hk]]]. exists h. split; [exact Hh|].
    apply in_map_iff. exists p. split; [reflexivity|].
    apply filter_In. split; [exact Hp|].
    apply andb_true_iff. split; [apply Z.eqb_eq | apply String.eqb_eq]; assumption.
Qed.

Lemma portfolio_rows_In (holding : list snapshot) (stock_data : list price)
    (r : roi_row) :
  In r (portfolio_rows holding stock_data) ->
  exists h p,
    In h holding /\ In p stock_data
    /\ r_Date r = h_Date h /\ r_Ticker r = h_Ticker h
    /\ h_Date h = px_Date p /\ h_Ticker h = px_Ticker p
    /\ r_StockValue r = h_StockAmount h * px_Close p
    /\ r_TotalValue r
       = total_value (merge_prices holding stock_data) (r_Date r).
Proof.
  unfold portfolio_rows. intros Hin. apply in_map_iff in Hin.
  destruct Hin as [[h p] [Hr Hin]]. apply merge_prices_In in Hin.
  exists h, p. subst r. simpl. intuition.
Qed.



(** C5, amended.  No date is excluded on account of its total value: every
    date with a row in the table returned by [calculate_portfolio_roi] has
    exactly one return in the aggregated daily series, whatever the sign of
    its total.  With a negative total the rows are still weighted by
    StockValue / TotalValue, the weights sum to 1 and the date's return is
    the weighted sum of the return factors; with a total of zero the
    division is carried out and no row of the date gets a finite
    contribution. *)
Theorem degenerate_total_not_excluded
    (yf_download : request -> frame) (trades : list trade) (cutoff_date : Z)
    (stock_data : list price) (col : date_key) (log log' : list request)
    (all_rows : list roi_row) (r0 : roi_row) :
  calculate_portfolio_roi yf_download trades cutoff_date stock_data col log
  = (Ok all_rows, log') ->
  In r0 all_rows ->
  let rows := rows_on all_rows (r_Date r0) in
  (exists ret,
     In (r_Date r0, ret) (daily_returns all_rows)
     /\ forall ret', In (r_Date r0, ret') (daily_returns all_rows) -> ret' = ret)
  /\ (r_TotalValue r0 < 0 ->
      Forall (fun r => r_TotalValue r = r_TotalValue r0
                       /\ r_ROI r = Some (weight r * r_DailyROI r)) rows
      /\ qsum (map weight rows) == 1
      /\ nansum (map r_ROI rows)
         == qsum (map (fun r => weight r * r_DailyROI r) rows))
  /\ (r_TotalValue r0 == 0 ->
      Forall (fun r => r_TotalValue r = r_TotalValue r0 /\ r_ROI r = None) rows).
Proof.
  intros Hrun Hr0 rows.
  apply calculate_portfolio_roi_Ok in Hrun. destruct Hrun as [Hrows _].
  set (holding := holdings_on trades col
         (f_index (yf_download (mkRequest ["SPY"] cutoff_date None)))) in *.
  assert (HT : r_TotalValue r0
               = total_value (merge_prices holding stock_data) (r_Date r0)).
  { rewrite Hrows in Hr0. apply portfolio_rows_In in Hr0.
    destruct Hr0 as [h [p H]]. apply H. }
  split; [|split].
  - exists (nansum (map r_ROI rows)). split.
    + apply daily_returns_In. split; [apply in_map, Hr0 | reflexivity].
    + intros ret' Hin. apply daily_returns_In in Hin. apply Hin.
  - intros Hneg.
    assert (Hnz : ~ total_value (merge_prices holding stock_data) (r_Date r0) == 0).
    { rewrite <- HT. intros Hz. rewrite Hz in Hneg. exact (Qlt_irrefl 0 Hneg). }
    destruct (weights_on_date holding stock_data (r_Date r0) Hnz) as [H1 [H2 H3]].
    rewrite <- Hrows, <- HT in H1. rewrite <- Hrows in H2, H3.
    split; [exact H1|]. split; [exact H2 | exact H3].
  - intros Hz. unfold rows. rewrite Hrows, rows_on_portfolio_rows.
    apply Forall_map. apply Forall_forall. intros hp _. simpl.
    rewrite <- HT. split; [reflexivity|].
    rewrite (fdiv_zero _ Hz). reflexivity.
Qed.

Lemma merge_prices_priced (holding : list snapshot) (stock_data : list price) :
  merge_prices (filter (priced stock_data) holding) stock_data
  = merge_prices holding stock_data.
Proof.
  unfold merge_prices. induction holding as [|h holding IH]; simpl.
  - reflexivity.
  - destruct (priced stock_data h) eqn:Hp; simpl.
    + rewrite IH. reflexivity.
    + rewrite IH. unfold priced in Hp.
      replace (filter _ stock_data) with (@nil price); [reflexivity|].
      symmetry. clear - Hp.
      induction stock_data as [|p sd IHsd]; simpl in *; [reflexivity|].
      apply orb_false_iff in Hp. destruct Hp as [-> Hp]. exact (IHsd Hp).
Qed.

(** C10.  The table returned by [calculate_portfolio_roi] is the one
    computed from the priced positions alone: a position whose (day, ticker)
    has no price observation has no row, so no weight, and adds nothing to
    the day's total; on a date with a non-zero total, the total is the sum
    of the values of the rows present and their weights sum to 1. *)
Theorem unpriced_positions_dropped
    (yf_download : request -> frame) (trades : list trade) (cutoff_date : Z)
    (stock_data : list price) (col : date_key) (log log' : list request)
    (all_rows : list roi_row) :
  calculate_portfolio_roi yf_download trades cutoff_date stock_data col log
  = (Ok all_rows, log') ->
  let holding :=
    holdings_on trades col
      (f_index (yf_download (mkRequest ["SPY"] cutoff_date None))) in
  all_rows = portfolio_rows (filter (priced stock_data) holding) stock_data
  /\ (forall h, In h holding -> priced stock_data h = false ->
        forall r, In r all_rows ->
                  ~ (r_Date r = h_Date h /\ r_Ticker r = h_Ticker h))
  /\ (forall r0, In r0 all_rows -> ~ r_TotalValue r0 == 0 ->
        r_TotalValue r0
        == qsum (map r_StockValue (rows_on all_rows (r_Date r0)))
        /\ qsum (map weight (rows_on all_rows (r_Date r0))) == 1).
Proof.
  intros Hrun holding.
  apply calculate_portfolio_roi_Ok in Hrun. destruct Hrun as [Hrows _].
  fold holding in Hrows.
  split; [|split].
  - rewrite Hrows. unfold portfolio_rows. rewrite merge_prices_priced.
    reflexivity.
  - intros h Hh Hunpriced r Hr [Hd Hk].
    rewrite Hrows in Hr. apply portfolio_rows_In in Hr.
    destruct Hr as [h' [p [_ [Hp [Hd' [Hk' [Hdp [Hkp _]]]]]]]].
    assert (Hpr : priced stock_data h = true).
    { unfold priced. apply existsb_exists. exists p. split; [exact Hp|].
      apply andb_true_iff. split.
      - apply Z.eqb_eq. congruence.
      - apply String.eqb_eq. congruence. }
    congruence.
  - intros r0 Hr0 Hnz.
    assert (HT : r_TotalValue r0
                 = total_value (merge_prices holding stock_data) (r_Date r0)).
    { rewrite Hrows in Hr0. apply portfolio_rows_In in Hr0.
      destruct Hr0 as [h [p H]]. apply H. }
    rewrite HT in Hnz.
    destruct (weights_on_date holding stock_data (r_Date r0) Hnz) as [_ [H2 _]].
    rewrite <- Hrows in H2. split; [|exact H2].
    rewrite HT, Hrows, rows_on_portfolio_rows, map_map. simpl.
    unfold total_value. apply nansum_Some.
Qed.

(** ** The comparison table *)

Lemma cumprod_from_length (l : list Q) :
  forall acc, List.length (cumprod_from acc l) = List.length l.
Proof.
  induction l as [|x l IH]; intros acc; simpl; [reflexivity|].
  rewrite IH. reflexivity.
Qed.

Lemma cumprod_length (l : list Q) : List.length (cumprod l) = List.length l.
Proof.
  destruct l as [|x l]; simpl; [reflexivity|].
  rewrite cumprod_from_length. reflexivity.
Qed.

Lemma pct_change_length (l : list cell) :
  forall prev, List.length (pct_change prev l) = List.length l.
Proof.
  induction l as [|c l IH]; intros prev; simpl; [reflexivity|].
  rewrite IH. reflexivity.
Qed.

Lemma cumprod_from_chain (l : list Q) :
  forall acc t x y,
    nth_error (acc :: cumprod_from acc l) t = Some x ->
    nth_error (cumprod_from acc l) t = Some y ->
    exists d, nth_error l t = Some d /\ y = x * d.
Proof.
  induction l as [|d l IH]; intros acc t x y Hx Hy.
  - destruct t; discriminate.
  - destruct t as [|t]; simpl in *.
    + injection Hx as <-. injection Hy as <-. exists d. split; reflexivity.
    + exact (IH _ _ _ _ Hx Hy).
Qed.

(** The chaining law of [cumprod]. *)
Lemma cumprod_chain (l : list Q) :
  nth_error (cumprod l) 0 = nth_error l 0
  /\ forall t x y,
       nth_error (cumprod l) t = Some x ->
       nth_error (cumprod l) (S t) = Some y ->
       exists d, nth_error l (S t) = Some d /\ y = x * d.
Proof.
  destruct l as [|a l]; simpl.
  - split; [reflexivity|]. intros t x y H. destruct t; discriminate.
  - split; [reflexivity|]. intros t x y Hx Hy.
    exact (cumprod_from_chain l a t Hx Hy).
Qed.

Lemma filter_key_unique (right : list (Z * Q)) (d : Z) :
  NoDup (map fst right) ->
  (List.length (filter (fun kv => Z.eqb (fst kv) d) right) <= 1)%nat.
Proof.
  induction right as [|[k v] right IH]; simpl; intros Hnd; [lia|].
  inversion Hnd as [|? ? Hnin Hnd']; subst.
  destruct (Z.eqb_spec k d) as [->|Hne]; [|exact (IH Hnd')].
  replace (filter _ right) with (@nil (Z * Q)); [simpl; lia|].
  symmetry. clear - Hnin.
  induction right as [|[k v] right IH]; simpl in *; [reflexivity|].
  destruct (Z.eqb_spec k d) as [->|Hne].
  - exfalso. apply Hnin. left; reflexivity.
  - apply IH. intros H. apply Hnin. right; exact H.
Qed.

(** A left merge with a right table whose dates are distinct keeps the
    rows of the left table, one for one and in order. *)
Lemma merge_left_rows (A : Type) (date_of : A -> Z) (left : list A)
    (right : list (Z * Q)) :
  NoDup (map fst right) ->
  map fst (merge_left date_of left right) = left.
Proof.
  intros Hnd. unfold merge_left.
  induction left as [|a left IH]; [reflexivity|].
  cbn [flat_map]. rewrite map_app.
  change (a :: left) with ([a] ++ left). f_equal; [|exact IH].
  pose proof (filter_key_unique right (date_of a) Hnd) as Hlen.
  destruct (filter _ right) as [|kv [|kv' ms]]; simpl in *; try reflexivity.
  lia.
Qed.

Lemma merge_left_cells (A : Type) (date_of : A -> Z) (left : list A)
    (right : list (Z * Q)) (a : A) (c : cell) :
  In (a, c) (merge_left date_of left right) ->
  match c with
  | None => ~ In (date_of a) (map fst right)
  | Some v => In (date_of a, v) right
  end.
Proof.
  unfold merge_left. rewrite in_flat_map. intros [a' [_ Hin]].
  destruct (filter (fun kv => Z.eqb (fst kv) (date_of a')) right)
    as [|kv ms] eqn:Hf.
  - destruct Hin as [Heq|[]]. inversion Heq; subst.
    intros Hd. apply in_map_iff in Hd. destruct Hd as [[k v] [Hk Hkv]].
    simpl in Hk. subst k.
    assert (H : In (date_of a, v)
                   (filter (fun kv => Z.eqb (fst kv) (date_of a)) right)).
    { apply filter_In. split; [exact Hkv | apply Z.eqb_refl]. }
    rewrite Hf in H. exact H.
  - apply in_map_iff in Hin. destruct Hin as [[k v] [Heq Hkv]].
    inversion Heq; subst. rewrite <- Hf in Hkv. apply filter_In in Hkv.
    destruct Hkv as [Hkv Hk]. simpl in Hk. apply Z.eqb_eq in Hk. subst k.
    exact Hkv.
Qed.

Lemma final_rows_columns (rows : list (Z * Q * Q * Q)) :
  forall copy_cum cum,
    List.length copy_cum = List.length rows -> List.length cum = List.length rows ->
    let final := final_rows rows copy_cum cum in
    map fr_Date final = map (fun r => fst (fst (fst r))) rows
    /\ map fr_ROI final = map (fun r => snd (fst r)) rows
    /\ map fr_CopyTradeROI final = map (fun r => snd r) rows
    /\ map fr_CopyCumulativeROI final = copy_cum
    /\ map fr_CumulativeROI final = cum.
Proof.
  induction rows as [|[[[d spy] roi] copy] rows IH]; intros copy_cum cum H1 H2.
  - destruct copy_cum; [|discriminate]. destruct cum; [|discriminate].
    simpl. repeat split; reflexivity.
  - destruct copy_cum as [|cc copy_cum]; [discriminate|].
    destruct cum as [|c cum]; [discriminate|].
    simpl in H1, H2. injection H1 as H1. injection H2 as H2.
    destruct (IH copy_cum cum H1 H2) as [Ha [Hb [Hc [Hd He]]]].
    simpl. rewrite Ha, Hb, Hc, Hd, He. repeat split; reflexivity.
Qed.

Lemma final_rows_In (rows : list (Z * Q * Q * Q)) :
  forall copy_cum cum r,
    In r (final_rows rows copy_cum cum) ->
    exists x, In x rows
              /\ fr_Date r = fst (fst (fst x))
              /\ fr_ROI r = snd (fst x)
              /\ fr_CopyTradeROI r = snd x.
Proof.
  induction rows as [|[[[d spy] roi] copy] rows IH]; intros copy_cum cum r Hin.
  - destruct Hin.
  - destruct copy_cum as [|cc copy_cum]; [destruct Hin|].
    destruct cum as [|c cum]; [destruct Hin|].
    destruct Hin as [<-|Hin].
    + exists (d, spy, roi, copy). simpl. repeat split. left; reflexivity.
    + destruct (IH _ _ _ Hin) as [x [Hx H]]. exists x. split; [right; exact Hx | exact H].
Qed.

Lemma combine_fst (A B : Type) (l : list A) (l' : list B) :
  List.length l' = List.length l -> map fst (combine l l') = l.
Proof.
  revert l'. induction l as [|a l IH]; intros l' Hlen; simpl; [reflexivity|].
  destruct l' as [|b l']; [discriminate|]. simpl.
  rewrite IH; [reflexivity|]. simpl in Hlen. lia.
Qed.

Lemma filled_absent (right : list (Z * Q)) (d : Z) (c : cell) :
  match c with
  | None => ~ In d (map fst right)
  | Some v => In (d, v) right
  end ->
  ~ In d (map fst right) -> fillna 1 c = 1.
Proof.
  destruct c as [v|]; simpl; [|reflexivity].
  intros Hin Hnin. exfalso. apply Hnin. apply in_map_iff.
  exists (d, v). split; [reflexivity | exact Hin].
Qed.

(** The columns of the comparison table. *)
Lemma assemble_columns (spy_data : frame)
    (politician_holdings copytraded_holdings : list roi_row) :
  let final := assemble spy_data politician_holdings copytraded_holdings in
  map fr_Date final = f_index spy_data
  /\ map fr_CumulativeROI final = cumprod (map fr_ROI final)
  /\ map fr_CopyCumulativeROI final = cumprod (map fr_CopyTradeROI final)
  /\ (forall r, In r final ->
        ~ In (fr_Date r) (map fst (daily_returns politician_holdings)) ->
        fr_ROI r = 1)
  /\ (forall r, In r final ->
        ~ In (fr_Date r) (map fst (daily_returns copytraded_holdings)) ->
        fr_CopyTradeROI r = 1).
Proof.
  unfold assemble.
  set (closes := map (fun d => f_close spy_data d "SPY") (f_index spy_data)).
  set (spy_roi := map (fun c => fillna 0 c + 1) (pct_change None closes)).
  set (final0 := combine (f_index spy_data) (cumprod spy_roi)).
  set (m1 := merge_left fst final0 (daily_returns politician_holdings)).
  set (m2 := merge_left (fun r => fst (fst r)) m1
                        (daily_returns copytraded_holdings)).
  set (filled := map (fun r => (fst (fst (fst r)), snd (fst (fst r)),
                                fillna 1 (snd (fst r)), fillna 1 (snd r))) m2).
  assert (Hm2 : map fst m2 = m1)
    by (apply merge_left_rows, daily_returns_NoDup).
  assert (Hm1 : map fst m1 = final0)
    by (apply merge_left_rows, daily_returns_NoDup).
  assert (H0 : map fst final0 = f_index spy_data).
  { apply combine_fst. rewrite cumprod_length. unfold spy_roi, closes.
    rewrite length_map, pct_change_length, length_map. reflexivity. }
  destruct (final_rows_columns filled
              (cumprod (map (fun r => snd r) filled))
              (cumprod (map (fun r => snd (fst r)) filled)))
    as [Ha [Hb [Hc [Hd He]]]].
  { rewrite cumprod_length, length_map. reflexivity. }
  { rewrite cumprod_length, length_map. reflexivity. }
  split; [|split; [|split; [|split]]].
  - rewrite Ha. unfold filled. rewrite map_map. simpl.
    rewrite <- H0, <- Hm1, <- Hm2. rewrite !map_map. reflexivity.
  - rewrite He, Hb. reflexivity.
  - rewrite Hd, Hc. reflexivity.
  - intros r Hr Hnin. apply final_rows_In in Hr.
    destruct Hr as [x [Hx [Hdate [Hroi _]]]].
    unfold filled in Hx. apply in_map_iff in Hx.
    destruct Hx as [[[a c1] c2] [Hx Hin]]. subst x. simpl in *.
    assert (Hin1 : In (a, c1) m1).
    { rewrite <- Hm2. apply in_map_iff. exists (a, c1, c2). split; [reflexivity | exact Hin]. }
    apply merge_left_cells in Hin1. rewrite Hroi.
    rewrite Hdate in Hnin.
    exact (@filled_absent (daily_returns politician_holdings) (fst a) c1 Hin1 Hnin).
  - intros r Hr Hnin. apply final_rows_In in Hr.
    destruct Hr as [x [Hx [Hdate [_ Hcopy]]]].
    unfold filled in Hx. apply in_map_iff in Hx.
    destruct Hx as [[[a c1] c2] [Hx Hin]]. subst x. simpl in *.
    apply merge_left_cells in Hin. simpl in Hin. rewrite Hcopy.
    rewrite Hdate in Hnin.
    exact (@filled_absent (daily_returns copytraded_holdings) (fst a) c2 Hin Hnin).
Qed.

Lemma create_portfolio_roi_Ok (yf_download : request -> frame)
    (trades : list trade) (stock_data : list price) (cutoff_date : Z)
    (end_date : option Z) (log log' : list request) (final : list final_row) :
  create_portfolio_roi yf_download trades stock_data cutoff_date end_date log
  = (Ok final, log') ->
  exists politician_holdings copytraded_holdings log1 log2,
    calculate_portfolio_roi yf_download trades cutoff_date stock_data
                            ByTransactionDate log
    = (Ok politician_holdings, log1)
    /\ calculate_portfolio_roi yf_download trades cutoff_date stock_data
                               ByReportDate log1
       = (Ok copytraded_holdings, log2)
    /\ final = assemble (yf_download (mkRequest ["SPY"] cutoff_date end_date))
                        politician_holdings copytraded_holdings
    /\ log' = log2 ++ [mkRequest ["SPY"] cutoff_date end_date].
Proof.
  unfold create_portfolio_roi, bind.
  destruct (calculate_portfolio_roi yf_download trades cutoff_date stock_data
              ByTransactionDate log) as [[ph|e] log1]; [|discriminate].
  destruct (calculate_portfolio_roi yf_download trades cutoff_date stock_data
              ByReportDate log1) as [[ch|e] log2] eqn:Hch; [|discriminate].
  unfold download, ret. intros [= <- <-].
  exists ph, ch, log1, log2. rewrite Hch. repeat split; reflexivity.
Qed.

Lemma chain_rows (A : Type) (cum daily : A -> Q) (l : list A) :
  map cum l = cumprod (map daily l) ->
  (forall r, nth_error l 0 = Some r -> cum r = daily r)
  /\ (forall t r r',
        nth_error l t = Some r -> nth_error l (S t) = Some r' ->
        cum r' = cum r * daily r').
Proof.
  intros Hmap. destruct (cumprod_chain (map daily l)) as [H0 Hstep].
  rewrite <- Hmap in H0, Hstep. split.
  - intros r Hr.
    rewrite (map_nth_error cum _ _ Hr), (map_nth_error daily _ _ Hr) in H0.
    congruence.
  - intros t r r' Hr Hr'.
    destruct (Hstep t (cum r) (cum r')
                (map_nth_error cum _ _ Hr) (map_nth_error cum _ _ Hr'))
      as [d [Hd Heq]].
    rewrite (map_nth_error daily _ _ Hr') in Hd. congruence.
Qed.

(** C6.  In the table returned by [create_portfolio_roi], for the actual
    and for the copy-trade portfolio: a date absent from the portfolio's
    aggregated daily-return series carries daily return 1; the cumulative
    column is the running product of the daily column, so that its first
    entry is the first daily return and every later entry is the previous
    cumulative entry times the day's return. *)
Theorem chaining_round_trip
    (yf_download : request -> frame) (trades : list trade)
    (stock_data : list price) (cutoff_date : Z) (end_date : option Z)
    (log log' : list request) (final : list final_row) :
  create_portfolio_roi yf_download trades stock_data cutoff_date end_date log
  = (Ok final, log') ->
  exists politician_holdings copytraded_holdings log1 log2,
    calculate_portfolio_roi yf_download trades cutoff_date stock_data
                            ByTransactionDate log
    = (Ok politician_holdings, log1)
    /\ calculate_portfolio_roi yf_download trades cutoff_date stock_data
                               ByReportDate log1
       = (Ok copytraded_holdings, log2)
    /\ (forall r, In r final ->
          ~ In (fr_Date r) (map fst (daily_returns politician_holdings)) ->
          fr_ROI r = 1)
    /\ (forall r, In r final ->
          ~ In (fr_Date r) (map fst (daily_returns copytraded_holdings)) ->
          fr_CopyTradeROI r = 1)
    /\ map fr_CumulativeROI final = cumprod (map fr_ROI final)
    /\ map fr_CopyCumulativeROI final = cumprod (map fr_CopyTradeROI final)
    /\ (forall r, nth_error final 0 = Some r ->
          fr_CumulativeROI r = fr_ROI r
          /\ fr_CopyCumulativeROI r = fr_CopyTradeROI r)
    /\ (forall t r r',
          nth_error final t = Some r -> nth_error final (S t) = Some r' ->
          fr_CumulativeROI r' = fr_CumulativeROI r * fr_ROI r'
          /\ fr_CopyCumulativeROI r'
             = fr_CopyCumulativeROI r * fr_CopyTradeROI r').
Proof.
  intros Hrun. apply create_portfolio_roi_Ok in Hrun.
  destruct Hrun as [ph [ch [log1 [log2 [H1 [H2 [Hfinal _]]]]]]].
  exists ph, ch, log1, log2.
  destruct (assemble_columns
              (yf_download (mkRequest ["SPY"] cutoff_date end_date)) ph ch)
    as [_ [Hcum [Hcopy [Ha Hc]]]].
  rewrite <- Hfinal in Hcum, Hcopy, Ha, Hc.
  destruct (chain_rows fr_CumulativeROI fr_ROI final Hcum) as [Hc0 Hcs].
  destruct (chain_rows fr_CopyCumulativeROI fr_CopyTradeROI final Hcopy)
    as [Hk0 Hks].
  repeat split; try assumption.
  - apply Hc0. assumption.
  - apply Hk0. assumption.
  - eapply Hcs; eassumption.
  - eapply Hks; eassumption.
Qed.

Lemma filter_sorted_head (A : Type) (R : A -> A -> Prop) (P : A -> bool)
    (l : list A) (x : A) (rest : list A) :
  StronglySorted R l -> filter P l = x :: rest -> Forall (R x) rest.
Proof.
  induction l as [|a l IH]; simpl; intros Hs Hf; [discriminate|].
  inversion Hs as [|? ? Hs' Hall]; subst.
  destruct (P a); [|exact (IH Hs' Hf)].
  injection Hf as <- <-. apply Forall_forall. intros y Hy.
  apply filter_In in Hy.
  exact (proj1 (Forall_forall _ _) Hall y (proj1 Hy)).
Qed.

(** The politician's transactions start with the earliest execution date. *)
Lemma choose_politician_first (file : list transaction) (cutoff_date : Z)
    (politician_name : string) (first : transaction) (rest : list transaction) :
  choose_politician (clean_transactions file cutoff_date renamed_stocks)
                    politician_name = first :: rest ->
  forall t, In t rest -> (TransactionDate first <= TransactionDate t)%Z.
Proof.
  unfold choose_politician, clean_transactions, sort_values. intros Hp.
  set (cmp := fun a b => Z.compare (TransactionDate a) (TransactionDate b)).
  assert (Hs : StronglySorted (fun a b => cmp a b <> Gt)
                 (sort_keys cmp
                    (map (fun t =>
                            mkTransaction (Representative t)
                              (replace renamed_stocks (Ticker t)) (Transaction t)
                              (if contains "Purchase" (Transaction t)
                               then Amount t else - Amount t)
                              (ReportDate t) (TransactionDate t))
                         (filter (fun t => Z.ltb cutoff_date (TransactionDate t))
                                 file)))).
  { apply sort_keys_sorted.
    - intros a b. apply Z.compare_antisym.
    - intros a b c. apply Z_cmp_le_trans. }
  pose proof (filter_sorted_head _ Hs Hp) as Hall.
  intros t Ht. apply Z.compare_le_iff.
  exact (proj1 (Forall_forall _ _) Hall t Ht).
Qed.

(** C7.  The table returned by [create_portfolio_roi] has the dates of the
    benchmark calendar requested over [cutoff_date, end_date], one row per
    calendar day and in calendar order, so that no calendar day is missing
    and, the calendar having no repeated day, no date appears twice; the run
    returns such a table whenever both ledgers are non-empty.  In a run of
    [calculate_returns] the calendar is the one requested from the earliest
    execution date of the politician's transactions. *)
Theorem calendar_completeness
    (yf_download : request -> frame) (trades : list trade)
    (stock_data : list price) (cutoff_date : Z) (end_date : option Z)
    (log : list request) :
  let calendar :=
    f_index (yf_download (mkRequest ["SPY"] cutoff_date end_date)) in
  let ledger_days :=
    f_index (yf_download (mkRequest ["SPY"] cutoff_date None)) in
  (forall final log',
     create_portfolio_roi yf_download trades stock_data cutoff_date end_date log
     = (Ok final, log') ->
     map fr_Date final = calendar
     /\ (NoDup calendar -> NoDup (map fr_Date final)))
  /\ (holdings_on trades ByTransactionDate ledger_days <> [] ->
      holdings_on trades ByReportDate ledger_days <> [] ->
      exists final log',
        create_portfolio_roi yf_download trades stock_data cutoff_date
                             end_date log
        = (Ok final, log'))
  /\ (forall politician_name file cutoff final log',
        calculate_returns yf_download politician_name file cutoff log
        = (Ok final, log') ->
        exists first rest,
          choose_politician (clean_transactions file cutoff renamed_stocks)
                            politician_name = first :: rest
          /\ (forall t, In t rest ->
                        (TransactionDate first <= TransactionDate t)%Z)
          /\ map fr_Date final
             = f_index (yf_download
                          (mkRequest ["SPY"] (TransactionDate first) None))).
Proof.
  intros calendar ledger_days.
  assert (Hdates : forall tr sd cut e lg final log',
            create_portfolio_roi yf_download tr sd cut e lg = (Ok final, log') ->
            map fr_Date final = f_index (yf_download (mkRequest ["SPY"] cut e))).
  { intros tr sd cut e lg final log' Hrun.
    apply create_portfolio_roi_Ok in Hrun.
    destruct Hrun as [ph [ch [log1 [log2 [_ [_ [Hfinal _]]]]]]].
    destruct (assemble_columns (yf_download (mkRequest ["SPY"] cut e)) ph ch)
      as [Hd _].
    rewrite <- Hfinal in Hd. exact Hd. }
  split; [|split].
  - intros final log' Hrun. apply Hdates in Hrun. fold calendar in Hrun.
    split; [exact Hrun | rewrite Hrun; trivial].
  - intros Hne1 Hne2.
    unfold create_portfolio_roi, calculate_portfolio_roi, bind.
    rewrite !holdings_Ok. fold ledger_days.
    destruct (holdings_on trades ByTransactionDate ledger_days) as [|h1 l1];
      [contradiction|].
    unfold ret at 1.
    rewrite !holdings_Ok. fold ledger_days.
    destruct (holdings_on trades ByReportDate ledger_days) as [|h2 l2];
      [contradiction|].
    unfold ret, download. eexists. eexists. reflexivity.
  - intros politician_name file cutoff final log'. unfold calculate_returns.
    destruct (choose_politician _ politician_name) as [|first rest] eqn:Hp;
      [discriminate|].
    unfold download_stock_data, bind at 1, download, ret. intros Hrun.
    exists first, rest. split; [reflexivity|]. split.
    + exact (choose_politician_first _ _ _ Hp).
    + exact (Hdates _ _ _ _ _ _ _ Hrun).
Qed.

(** ** Provider requests of a run *)

Lemma create_portfolio_roi_log (yf_download : request -> frame)
    (trades : list trade) (stock_data : list price) (cutoff_date : Z)
    (end_date : option Z) (log log' : list request) (final : list final_row) :
  create_portfolio_roi yf_download trades stock_data cutoff_date end_date log
  = (Ok final, log') ->
  log' = log ++ [mkRequest ["SPY"] cutoff_date None;
                 mkRequest ["SPY"] cutoff_date None;
                 mkRequest ["SPY"] cutoff_date end_date].
Proof.
  intros Hrun. apply create_portfolio_roi_Ok in Hrun.
  destruct Hrun as [ph [ch [log1 [log2 [H1 [H2 [_ Hlog]]]]]]].
  apply calculate_portfolio_roi_Ok in H1. destruct H1 as [_ ->].
  apply calculate_portfolio_roi_Ok in H2. destruct H2 as [_ ->].
  rewrite Hlog, <- !app_assoc. reflexivity.
Qed.

(** C9, amended.  A run of [calculate_returns] that returns a table makes
    exactly four provider requests, in this order: one combined request for
    the politician's distinct tickers plus the benchmark, then three
    requests for the benchmark alone, one by each of the two holdings
    reconstructions and one for the benchmark's own series.  There is no
    request per ticker. *)
Theorem provider_requests
    (yf_download : request -> frame) (politician_name : string)
    (file : list transaction) (cutoff_date : Z) (log log' : list request)
    (final : list final_row) :
  calculate_returns yf_download politician_name file cutoff_date log
  = (Ok final, log') ->
  exists first rest,
    choose_politician (clean_transactions file cutoff_date renamed_stocks)
                      politician_name = first :: rest
    /\ log' = log ++
         [mkRequest (unique String.eqb (map Ticker (first :: rest)) ++ ["SPY"])
                    (TransactionDate first) None;
          mkRequest ["SPY"] (TransactionDate first) None;
          mkRequest ["SPY"] (TransactionDate first) None;
          mkRequest ["SPY"] (TransactionDate first) None]
    /\ List.length log' = (List.length log + 4)%nat.
Proof.
  unfold calculate_returns.
  destruct (choose_politician _ politician_name) as [|first rest] eqn:Hp.
  - discriminate.
  - unfold download_stock_data, bind at 1, download, ret.
    intros Hrun. apply create_portfolio_roi_log in Hrun.
    exists first, rest. split; [reflexivity|].
    rewrite Hrun, <- app_assoc. split; [reflexivity|].
    rewrite length_app. reflexivity.
Qed.

(** ** The price table *)

Lemma melt_In (f : frame) (d : Z) (tk : string) (c : cell) :
  In (d, tk, c) (melt f) <->
  In d (f_index f) /\ In tk (f_columns f) /\ f_close f d tk = c.
Proof.
  unfold melt. rewrite in_flat_map. split.
  - intros [tk' [Htk Hin]]. apply in_map_iff in Hin.
    destruct Hin as [d' [Heq Hd]]. inversion Heq; subst. tauto.
  - intros [Hd [Htk Hc]]. exists tk. split; [exact Htk|].
    apply in_map_iff. exists d. split; [rewrite Hc; reflexivity | exact Hd].
Qed.

Lemma dropna_close_In (rows : list (Z * string * cell)) (d : Z) (tk : string)
    (c : Q) :
  In (d, tk, c) (dropna_close rows) <-> In (d, tk, Some c) rows.
Proof.
  induction rows as [|[[d' tk'] [c'|]] rows IH]; simpl.
  - tauto.
  - rewrite IH. split; intros [H|H]; try (right; exact H); left.
    + injection H as -> -> ->. reflexivity.
    + injection H as -> -> ->. reflexivity.
  - rewrite IH. split; [intros H; right; exact H | intros [H|H]; [discriminate | exact H]].
Qed.

Lemma daily_roi_keys (rows : list (Z * string * Q)) :
  forall last, map price_key (daily_roi last rows) = rows.
Proof.
  induction rows as [|[[d tk] c] rows IH]; intros last; simpl.
  - reflexivity.
  - rewrite IH. reflexivity.
Qed.

Lemma build_stock_data_keys (f : frame) :
  map price_key (build_stock_data f)
  = sort_values cmp_ticker_date (dropna_close (melt f)).
Proof. apply daily_roi_keys. Qed.

(** The factor of a row, from the closes of the rows before it. *)
Lemma daily_roi_at (pre : list price) :
  forall rows last r post,
    daily_roi last rows = pre ++ r :: post ->
    px_DailyROI r
    = fillna 0
        match dict_get (last_closes last (map price_key pre)) (px_Ticker r) with
        | None => None
        | Some p => cell_sub (fdiv (px_Close r) p) (Some 1)
        end + 1.
Proof.
  induction pre as [|a pre IH]; intros rows last r post Heq.
  - destruct rows as [|[[d tk] c] rows]; [discriminate|].
    simpl in Heq. injection Heq as <- _. reflexivity.
  - destruct rows as [|[[d tk] c] rows]; [discriminate|].
    simpl in Heq. injection Heq as <- Heq.
    apply IH in Heq. exact Heq.
Qed.

Lemma last_closes_get_other (pre : list (Z * string * Q)) (tk : string) :
  (forall x, In x pre -> snd (fst x) <> tk) ->
  forall last, dict_get (last_closes last pre) tk = dict_get last tk.
Proof.
  induction pre as [|x pre IH]; intros Hno last; simpl.
  - reflexivity.
  - unfold last_closes in *. simpl. rewrite IH.
    + apply dict_get_set_other. apply Hno. left; reflexivity.
    + intros y Hy. apply Hno. right; exact Hy.
Qed.

Lemma last_closes_get_previous (pre mid : list (Z * string * Q)) (d : Z)
    (tk : string) (c : Q) (last : dict) :
  (forall x, In x mid -> snd (fst x) <> tk) ->
  dict_get (last_closes last (pre ++ (d, tk, c) :: mid)) tk = Some c.
Proof.
  intros Hno. unfold last_closes. rewrite fold_left_app. simpl.
  fold (last_closes (dict_set (fold_left (fun l x => dict_set l (snd (fst x)) (snd x))
                                          pre last) tk c) mid).
  rewrite last_closes_get_other by exact Hno.
  apply dict_get_set_same.
Qed.

Lemma cmp_ticker_date_antisym (a b : Z * string * Q) :
  cmp_ticker_date a b = CompOpp (cmp_ticker_date b a).
Proof.
  unfold cmp_ticker_date.
  rewrite String.compare_antisym.
  destruct (String.compare (snd (fst b)) (snd (fst a))); simpl; try reflexivity.
  apply Z.compare_antisym.
Qed.

Lemma cmp_ticker_date_le (a b : Z * string * Q) :
  cmp_ticker_date a b <> Gt <->
  String.compare (snd (fst a)) (snd (fst b)) = Lt
  \/ (snd (fst a) = snd (fst b) /\ (fst (fst a) <= fst (fst b))%Z).
Proof.
  unfold cmp_ticker_date.
  destruct (String.compare (snd (fst a)) (snd (fst b))) eqn:Hc.
  - apply String.compare_eq_iff in Hc. rewrite Z.compare_le_iff.
    split; [intros H; right; split; assumption|].
    intros [H|[_ H]]; [discriminate | exact H].
  - split; [intros _; left; reflexivity | intros _; discriminate].
  - split; [intros H; exfalso; apply H; reflexivity|].
    intros [H|[H _]]; [discriminate|].
    rewrite H in Hc.
    assert (Hr : String.compare (snd (fst b)) (snd (fst b)) = Eq).
    { pose proof (String.compare_antisym (snd (fst b)) (snd (fst b))) as Ha.
      destruct (String.compare (snd (fst b)) (snd (fst b))); simpl in Ha;
        [reflexivity | discriminate | discriminate]. }
    congruence.
Qed.

Lemma cmp_ticker_date_le_trans (a b c : Z * string * Q) :
  cmp_ticker_date a b <> Gt -> cmp_ticker_date b c <> Gt ->
  cmp_ticker_date a c <> Gt.
Proof.
  rewrite !cmp_ticker_date_le.
  intros [H1|[H1 H1']] [H2|[H2 H2']].
  - left. assert (Hle : String.compare (snd (fst a)) (snd (fst c)) <> Gt).
    { apply (string_cmp_le_trans (snd (fst a)) (snd (fst b)) (snd (fst c)));
        congruence. }
    destruct (String.compare (snd (fst a)) (snd (fst c))) eqn:Hc;
      [|reflexivity|congruence].
    apply String.compare_eq_iff in Hc. rewrite Hc in H1.
    rewrite String.compare_antisym, H2 in H1. discriminate.
  - left. rewrite <- H2. exact H1.
  - left. rewrite H1. exact H2.
  - right. split; [congruence | lia].
Qed.

Lemma build_stock_data_sorted (f : frame) :
  StronglySorted price_le (build_stock_data f).
Proof.
  pose proof (@sort_keys_sorted _ cmp_ticker_date cmp_ticker_date_antisym
                cmp_ticker_date_le_trans (dropna_close (melt f))) as Hs.
  fold (sort_values cmp_ticker_date (dropna_close (melt f))) in Hs.
  rewrite <- build_stock_data_keys in Hs.
  induction (build_stock_data f) as [|a l IH]; [constructor|].
  simpl in Hs. inversion Hs as [|? ? Hs' Hall]; subst.
  constructor; [exact (IH Hs')|].
  apply Forall_forall. intros b Hb.
  exact (proj1 (Forall_forall _ _) Hall (price_key b) (in_map price_key l b Hb)).
Qed.

Section FilterSort.
Variable K : Type.
Variable cmp : K -> K -> comparison.
Hypothesis cmp_antisym : forall a b, cmp a b = CompOpp (cmp b a).
Hypothesis cmp_le_trans :
  forall a b c, cmp a b <> Gt -> cmp b c <> Gt -> cmp a c <> Gt.
Variable P : K -> bool.

Lemma insert_sorted_front (x : K) (l : list K) :
  Forall (fun z => cmp x z <> Gt) l -> insert_sorted cmp x l = x :: l.
Proof.
  destruct l as [|y l]; simpl; [reflexivity|].
  intros Hall. inversion Hall as [|? ? Hy _]; subst.
  destruct (cmp x y); [reflexivity | reflexivity | contradiction Hy; reflexivity].
Qed.

Lemma filter_insert_sorted (x : K) (l : list K) :
  StronglySorted (fun a b => cmp a b <> Gt) l ->
  filter P (insert_sorted cmp x l)
  = if P x then insert_sorted cmp x (filter P l) else filter P l.
Proof.
  induction l as [|y l IH]; intros Hs.
  - simpl. destruct (P x); reflexivity.
  - inversion Hs as [|? ? Hs' Hall]; subst.
    assert (Hfront : cmp x y <> Gt ->
              filter P (x :: y :: l)
              = if P x then insert_sorted cmp x (filter P (y :: l))
                else filter P (y :: l)).
    { intros Hxy. cbn [filter]. destruct (P x); [|reflexivity].
      rewrite insert_sorted_front; [reflexivity|].
      apply Forall_forall. intros z Hz.
      assert (Hin : In z (y :: l)).
      { destruct (P y); [|right; apply filter_In in Hz; apply Hz].
        destruct Hz as [<-|Hz]; [left; reflexivity|].
        right. apply filter_In in Hz. apply Hz. }
      destruct Hin as [<-|Hin]; [exact Hxy|].
      apply (cmp_le_trans Hxy).
      exact (proj1 (Forall_forall _ _) Hall z Hin). }
    cbn [insert_sorted]. destruct (cmp x y) eqn:Hc.
    + apply Hfront. discriminate.
    + apply Hfront. discriminate.
    + cbn [filter]. rewrite (IH Hs').
      destruct (P x), (P y); try reflexivity.
      cbn [insert_sorted]. rewrite Hc. reflexivity.
Qed.

Lemma filter_sort_keys (l : list K) :
  filter P (sort_keys cmp l) = sort_keys cmp (filter P l).
Proof.
  induction l as [|x l IH]; simpl; [reflexivity|].
  rewrite filter_insert_sorted
    by (apply sort_keys_sorted; assumption).
  rewrite IH. destruct (P x); reflexivity.
Qed.
End FilterSort.

Lemma sorted_pair (A : Type) (R : A -> A -> Prop) (pre mid post : list A)
    (p r : A) :
  StronglySorted R (pre ++ p :: mid ++ r :: post) -> R p r.
Proof.
  induction pre as [|a pre IH]; simpl; intros Hs.
  - inversion Hs as [|? ? _ Hall]; subst.
    apply (proj1 (Forall_forall _ _) Hall). apply in_or_app. right. left. reflexivity.
  - inversion Hs; subst. apply IH. assumption.
Qed.

Lemma filter_column (f : frame) (tk col : string) (index : list Z) :
  filter (fun x : Z * string * cell => String.eqb tk (snd (fst x)))
         (map (fun d => (d, col, f_close f d col)) index)
  = if String.eqb tk col then map (fun d => (d, col, f_close f d col)) index
    else [].
Proof.
  induction index as [|d ds IH]; simpl.
  - destruct (String.eqb tk col); reflexivity.
  - rewrite IH. destruct (String.eqb tk col); reflexivity.
Qed.

Lemma melt_only_column (f : frame) (tk : string) :
  melt (only_column f tk)
  = filter (fun x => String.eqb tk (snd (fst x))) (melt f).
Proof.
  unfold melt, only_column. simpl.
  induction (f_columns f) as [|col cols IH]; simpl; [reflexivity|].
  rewrite filter_app, <- IH, filter_column.
  destruct (String.eqb tk col); reflexivity.
Qed.

Lemma dropna_close_filter (rows : list (Z * string * cell)) (tk : string) :
  dropna_close (filter (fun x => String.eqb tk (snd (fst x))) rows)
  = filter (fun x => String.eqb tk (snd (fst x))) (dropna_close rows).
Proof.
  induction rows as [|[[d tk'] [c|]] rows IH]; simpl; [reflexivity| |].
  - destruct (String.eqb tk tk'); simpl; rewrite IH; reflexivity.
  - destruct (String.eqb tk tk'); simpl; rewrite IH; reflexivity.
Qed.

Lemma daily_roi_filter (tk : string) (rows : list (Z * string * Q)) :
  forall last last',
    dict_get last tk = dict_get last' tk ->
    filter (fun p => String.eqb tk (px_Ticker p)) (daily_roi last rows)
    = daily_roi last' (filter (fun x => String.eqb tk (snd (fst x))) rows).
Proof.
  induction rows as [|[[d tk'] c] rows IH]; intros last last' Hget; simpl.
  - reflexivity.
  - destruct (String.eqb_spec tk tk') as [<-|Hne]; simpl.
    + rewrite Hget. f_equal. apply IH.
      rewrite !dict_get_set_same. reflexivity.
    + apply IH. rewrite dict_get_set_other by congruence. exact Hget.
Qed.

(** Each ticker's rows are those computed from its own column alone. *)
Lemma build_stock_data_only_column (f : frame) (tk : string) :
  filter (fun p => String.eqb tk (px_Ticker p)) (build_stock_data f)
  = build_stock_data (only_column f tk).
Proof.
  unfold build_stock_data.
  rewrite (@daily_roi_filter tk _ [] [] eq_refl).
  unfold sort_values.
  rewrite (@filter_sort_keys _ cmp_ticker_date cmp_ticker_date_antisym
                             cmp_ticker_date_le_trans).
  rewrite <- dropna_close_filter, <- melt_only_column. reflexivity.
Qed.

Lemma build_stock_data_In (f : frame) (d : Z) (tk : string) (c : Q) :
  (exists roi, In (mkPrice d tk c roi) (build_stock_data f)) <->
  In d (f_index f) /\ In tk (f_columns f) /\ f_close f d tk = Some c.
Proof.
  rewrite <- melt_In, <- dropna_close_In.
  assert (Hperm : Permutation (map price_key (build_stock_data f))
                              (dropna_close (melt f))).
  { rewrite build_stock_data_keys. apply sort_keys_perm. }
  split.
  - intros [roi Hin]. eapply Permutation_in; [exact Hperm|].
    apply in_map_iff. exists (mkPrice d tk c roi). split; [reflexivity | exact Hin].
  - intros Hin.
    apply (Permutation_in _ (Permutation_sym Hperm)) in Hin.
    apply in_map_iff in Hin. destruct Hin as [[d' tk' c' roi] [Hk Hin]].
    unfold price_key in Hk. simpl in Hk. injection Hk as -> -> ->.
    exists roi. exact Hin.
Qed.

(** C8.  [download_stock_data] returns the table built from the provider's
    frame, in which: (1) a row (date, ticker, close) is present exactly when
    the frame has that close, so a cell without a close gives no row;
    (2) a row with no earlier row of its ticker has return factor 1;
    (3) any other row follows the nearest earlier row of its ticker in date
    order, and its factor is its close divided by that row's close;
    (4) the rows of a ticker are those built from that ticker's column
    alone. *)
Theorem price_series_construction
    (yf_download : request -> frame) (politician_trades : list transaction)
    (cutoff_date : Z) (end_date : option Z) (log : list request) :
  let rq := mkRequest (unique String.eqb (map Ticker politician_trades)
                         ++ ["SPY"]) cutoff_date end_date in
  let f := yf_download rq in
  exists out,
    download_stock_data yf_download politician_trades cutoff_date end_date log
    = (Ok out, log ++ [rq])
    /\ (forall d tk c,
          (exists roi, In (mkPrice d tk c roi) out) <->
          In d (f_index f) /\ In tk (f_columns f) /\ f_close f d tk = Some c)
    /\ (forall pre r post,
          out = pre ++ r :: post ->
          (forall x, In x pre -> px_Ticker x <> px_Ticker r) ->
          px_DailyROI r = 1)
    /\ (forall pre p mid r post,
          out = pre ++ p :: mid ++ r :: post ->
          px_Ticker p = px_Ticker r ->
          (forall x, In x mid -> px_Ticker x <> px_Ticker r) ->
          (px_Date p <= px_Date r)%Z
          /\ (~ px_Close p == 0 ->
              px_DailyROI r == px_Close r / px_Close p))
    /\ (forall tk,
          filter (fun p => String.eqb tk (px_Ticker p)) out
          = build_stock_data (only_column f tk)).
Proof.
  intros rq f. exists (build_stock_data f).
  split; [reflexivity|]. split; [|split; [|split]].
  - intros d tk c. apply build_stock_data_In.
  - intros pre r post Hout Hno.
    unfold build_stock_data in Hout. apply daily_roi_at in Hout.
    rewrite Hout. rewrite last_closes_get_other; [reflexivity|].
    intros x Hx. apply in_map_iff in Hx. destruct Hx as [y [<- Hy]].
    simpl. apply Hno, Hy.
  - intros pre p mid r post Hout Htk Hno. split.
    + pose proof (build_stock_data_sorted f) as Hs. fold f in Hs.
      rewrite Hout in Hs. apply sorted_pair in Hs.
      apply cmp_ticker_date_le in Hs. simpl in Hs.
      destruct Hs as [Hlt|[_ Hle]]; [|exact Hle].
      rewrite Htk in Hlt.
      pose proof (String.compare_antisym (px_Ticker r) (px_Ticker r)) as Ha.
      rewrite Hlt in Ha. discriminate.
    + intros Hnz.
      replace (pre ++ p :: mid ++ r :: post)
        with ((pre ++ p :: mid) ++ r :: post) in Hout
        by (rewrite <- app_assoc; reflexivity).
      unfold build_stock_data in Hout. apply daily_roi_at in Hout.
      rewrite Hout, map_app. simpl. unfold price_key at 2. rewrite Htk.
      rewrite last_closes_get_previous.
      * rewrite (fdiv_nonzero _ Hnz). simpl. ring.
      * intros x Hx. apply in_map_iff in Hx. destruct Hx as [y [<- Hy]].
        simpl. apply Hno, Hy.
  - intros tk. apply build_stock_data_only_column.
Qed.

(** * The properties on the example runs *)

Ltac q_compute := vm_compute; first [reflexivity | discriminate].

Ltac in_list H := vm_compute in H; repeat (destruct H as [<-|H]); [..|destruct H].

Lemma ex_calendar_NoDup : NoDup [1; 2; 3; 4; 5; 6]%Z.
Proof.
  repeat (constructor; [simpl; intuition discriminate|]). constructor.
Defined.

Lemma ex_run_rows (col : date_key) :
  calculate_portfolio_roi ex_provider ex_trades 1 ex_stock_data col []
  = (Ok (ex_rows col), [ex_spy]).
Proof. destruct col; vm_compute; reflexivity. Defined.

Lemma ex_run_final :
  create_portfolio_roi ex_provider ex_trades ex_stock_data 1 None []
  = (Ok ex_final, [ex_spy; ex_spy; ex_spy]).
Proof. vm_compute. reflexivity. Defined.

Lemma ex_run_returns :
  calculate_returns ex_provider "A" ex_file 0 []
  = (Ok ex_final,
     [mkRequest ["X"; "Z"; "Y"; "SPY"] 1 None; ex_spy; ex_spy; ex_spy]).
Proof. vm_compute. reflexivity. Defined.

(** C2 as stated fails: net shares are zero at a date on which the ticker
    is held, after a sale that came before any purchase, and when the sale
    is keyed on a day outside the trading calendar. *)
Lemma net_zero_but_held :
  (net_shares_by sold_first ByTransactionDate "X" 2 == 0
   /\ exists q, In (mkSnapshot 2 "X" q)
                   (holdings_on sold_first ByTransactionDate [1; 2]%Z)
                /\ q == 10)
  /\ (net_shares_by disclosed_off_calendar ByReportDate "X" 5 == 0
      /\ exists q, In (mkSnapshot 5 "X" q)
                      (holdings_on disclosed_off_calendar ByReportDate
                                   [1; 2; 3; 5]%Z)
                   /\ q == 10).
Proof.
  split; (split; [q_compute|]).
  - exists (500 # 50). split; [vm_compute; left; reflexivity | q_compute].
  - exists (500 # 50). split; [vm_compute; do 3 right; left; reflexivity | q_compute].
Qed.





Lemma collapse_run :
  calculate_portfolio_roi (closes_provider collapse)
                          (one_purchase_trades collapse) 1
                          (one_purchase_stock_data collapse)
                          ByTransactionDate []
  = (Ok (one_purchase_rows collapse), [ex_spy]).
Proof. vm_compute. reflexivity. Defined.

Lemma negative_run :
  calculate_portfolio_roi (closes_provider negative)
                          (one_purchase_trades negative) 1
                          (one_purchase_stock_data negative)
                          ByTransactionDate []
  = (Ok (one_purchase_rows negative), [ex_spy]).
Proof. vm_compute. reflexivity. Defined.

(** C5 on the examples: a negative total on day 2 of one run, a total of
    zero on day 3 of the other. *)
Lemma degenerate_total_not_excluded_witness :
  (exists ret, In (2%Z, ret) (daily_returns (one_purchase_rows negative)))
  /\ qsum (map weight (rows_on (one_purchase_rows negative) 2)) == 1
  /\ (exists ret, In (3%Z, ret) (daily_returns (one_purchase_rows collapse)))
  /\ Forall (fun r => r_ROI r = None) (rows_on (one_purchase_rows collapse) 3).
Proof.
  assert (Hin2 : In (nth 1 (one_purchase_rows negative) no_row)
                    (one_purchase_rows negative))
    by (vm_compute; right; left; reflexivity).
  assert (Hin3 : In (nth 2 (one_purchase_rows collapse) no_row)
                    (one_purchase_rows collapse))
    by (vm_compute; do 2 right; left; reflexivity).
  destruct (@degenerate_total_not_excluded (closes_provider negative)
              (one_purchase_trades negative) 1%Z
              (one_purchase_stock_data negative) ByTransactionDate
              [] [ex_spy] (one_purchase_rows negative)
              (nth 1 (one_purchase_rows negative) no_row)
              negative_run Hin2)
    as [[ret2 [Hret2 _]] [Hneg _]].
  destruct (@degenerate_total_not_excluded (closes_provider collapse)
              (one_purchase_trades collapse) 1%Z
              (one_purchase_stock_data collapse) ByTransactionDate
              [] [ex_spy] (one_purchase_rows collapse)
              (nth 2 (one_purchase_rows collapse) no_row)
              collapse_run Hin3)
    as [[ret3 [Hret3 _]] [_ Hzero]].
  split; [exists ret2; exact Hret2|].
  split; [apply Hneg; q_compute|].
  split; [exists ret3; exact Hret3|].
  eapply Forall_impl; [|apply Hzero; q_compute].
  intros r [_ H]. exact H.
Defined.

(** C5 as stated fails.  When the close of X falls to 0 on day 3, the total
    value of day 3 is zero, the row's contribution is the result of dividing
    by it, and the date still gets a portfolio return, 0, which the
    comparison table carries into the cumulative return.  When the close is
    negative on day 2, the total of day 2 is negative and the date gets a
    return as well. *)
Lemma zero_total_gets_a_return :
  (exists r, In r (one_purchase_rows collapse) /\ r_Date r = 3%Z
             /\ r_TotalValue r == 0 /\ r_ROI r = None)
  /\ In (3%Z, 0) (daily_returns (one_purchase_rows collapse))
  /\ (exists r, In r (assemble (closes_provider collapse ex_spy)
                               (one_purchase_rows collapse)
                               (one_purchase_rows collapse))
                /\ fr_Date r = 3%Z /\ fr_ROI r = 0
                /\ fr_CumulativeROI r == 0)
  /\ (exists r, In r (one_purchase_rows negative) /\ r_Date r = 2%Z
                /\ r_TotalValue r < 0)
  /\ (exists ret, In (2%Z, ret) (daily_returns (one_purchase_rows negative))).
Proof.
  split.
  { exists (nth 2 (one_purchase_rows collapse) no_row).
    split; [vm_compute; do 2 right; left; reflexivity|].
    split; [reflexivity|]. split; q_compute. }
  split; [vm_compute; do 2 right; left; reflexivity|].
  split.
  - exists (nth 2 (assemble (closes_provider collapse ex_spy)
                            (one_purchase_rows collapse)
                            (one_purchase_rows collapse))
                (mkFinalRow 0 0 0 0 0 0)).
    split; [vm_compute; do 2 right; left; reflexivity|].
    split; [reflexivity|]. split; q_compute.
  - split.
    + exists (nth 1 (one_purchase_rows negative) no_row).
      split; [vm_compute; right; left; reflexivity|].
      split; q_compute.
    + eexists. vm_compute. right. left. reflexivity.
Qed.

(** C6 on the example run. *)
Lemma chaining_round_trip_witness :
  map fr_CumulativeROI ex_final = cumprod (map fr_ROI ex_final)
  /\ map fr_CopyCumulativeROI ex_final = cumprod (map fr_CopyTradeROI ex_final)
  /\ (forall r, In r ex_final ->
        ~ In (fr_Date r) (map fst (daily_returns (ex_rows ByReportDate))) ->
        fr_CopyTradeROI r = 1).
Proof.
  destruct (@chaining_round_trip ex_provider ex_trades ex_stock_data 1%Z None
              [] [ex_spy; ex_spy; ex_spy] ex_final ex_run_final)
    as [ph [ch [log1 [log2 [H1 [H2 [_ [Hcopy [Hcum [Hccum _]]]]]]]]]].
  rewrite (ex_run_rows ByTransactionDate) in H1. injection H1 as <- <-.
  assert (H2' : calculate_portfolio_roi ex_provider ex_trades 1 ex_stock_data
                  ByReportDate [ex_spy]
                = (Ok (ex_rows ByReportDate), [ex_spy; ex_spy]))
    by (vm_compute; reflexivity).
  rewrite H2' in H2. injection H2 as <- <-.
  split; [exact Hcum|]. split; [exact Hccum | exact Hcopy].
Defined.

(** C7 on the example run: six trading days, six rows. *)
Lemma calendar_completeness_witness :
  map fr_Date ex_final = [1; 2; 3; 4; 5; 6]%Z
  /\ NoDup (map fr_Date ex_final)
  /\ (exists final log',
        create_portfolio_roi ex_provider ex_trades ex_stock_data 1 None []
        = (Ok final, log'))
  /\ (exists first rest,
        choose_politician (clean_transactions ex_file 0 renamed_stocks) "A"
        = first :: rest
        /\ map fr_Date ex_final
           = f_index (ex_provider
                        (mkRequest ["SPY"] (TransactionDate first) None))).
Proof.
  destruct (@calendar_completeness ex_provider ex_trades ex_stock_data 1%Z None
              []) as [Hdates [Hruns Hreturns]].
  destruct (Hdates ex_final [ex_spy; ex_spy; ex_spy] ex_run_final)
    as [Hcal Hnodup].
  split; [exact Hcal|]. split; [exact (Hnodup ex_calendar_NoDup)|].
  split; [apply Hruns; vm_compute; discriminate|].
  destruct (Hreturns "A" ex_file 0%Z ex_final _ ex_run_returns)
    as [first [rest [Hp [_ Hd]]]].
  exists first, rest. split; [exact Hp | exact Hd].
Defined.

(** C8 on the example frame: the rows of X on days 1 and 2. *)
Lemma price_series_construction_witness :
  px_DailyROI (nth 6 ex_stock_data (mkPrice 0 "" 0 0)) = 1
  /\ px_DailyROI (nth 7 ex_stock_data (mkPrice 0 "" 0 0)) == 55 / 50
  /\ ~ (exists roi, In (mkPrice 2 "Z" 10 roi) ex_stock_data).
Proof.
  destruct (@price_series_construction ex_provider ex_politician_trades
              1%Z None [])
    as [out [Hout [Hrows [Hfirst [Hnext _]]]]].
  injection Hout as <-.
  split; [|split].
  - apply (Hfirst (firstn 6 ex_stock_data) _ (skipn 7 ex_stock_data)).
    + vm_compute. reflexivity.
    + intros x Hx. in_list Hx; vm_compute; discriminate.
  - apply (Hnext (firstn 6 ex_stock_data)
                 (nth 6 ex_stock_data (mkPrice 0 "" 0 0)) []
                 (nth 7 ex_stock_data (mkPrice 0 "" 0 0))
                 (skipn 8 ex_stock_data)).
    + vm_compute. reflexivity.
    + reflexivity.
    + intros x [].
    + q_compute.
  - intros [roi Hin].
    assert (H : exists roi, In (mkPrice 2 "Z" 10 roi) ex_stock_data)
      by (exists roi; exact Hin).
    apply Hrows in H. destruct H as [_ [_ H]]. vm_compute in H. discriminate.
Defined.

(** C9 on the example run. *)
Lemma provider_requests_witness :
  List.length (snd (calculate_returns ex_provider "A" ex_file 0 [])) = 4%nat.
Proof.
  destruct (@provider_requests ex_provider "A" ex_file 0%Z []
              [mkRequest ["X"; "Z"; "Y"; "SPY"] 1 None; ex_spy; ex_spy; ex_spy]
              ex_final ex_run_returns)
    as [first [rest [_ [_ Hlen]]]].
  rewrite ex_run_returns. exact Hlen.
Defined.

(** C9 as stated fails: the example run makes four requests, three of them
    for the benchmark alone. *)
Lemma four_requests_not_two :
  calculate_returns ex_provider "A" ex_file 0 []
  = (Ok ex_final,
     [mkRequest ["X"; "Z"; "Y"; "SPY"] 1 None;
      mkRequest ["SPY"] 1 None; mkRequest ["SPY"] 1 None;
      mkRequest ["SPY"] 1 None])
  /\ List.length (snd (calculate_returns ex_provider "A" ex_file 0 []))
     <> 2%nat
  /\ List.length
       (filter (fun rq => match rq_tickers rq with
                          | ["SPY"] => true
                          | _ => false
                          end)
               (snd (calculate_returns ex_provider "A" ex_file 0 [])))
     = 3%nat.
Proof.
  split; [exact ex_run_returns|].
  rewrite ex_run_returns. split; [simpl; discriminate | reflexivity].
Qed.

(** C10 on the example: Z is held on day 2 and has no close that day. *)
Lemma unpriced_positions_dropped_witness :
  In (mkSnapshot 2 "Z" (100 # 10)) (holdings_on ex_trades ByTransactionDate
                                        [1; 2; 3; 4; 5; 6]%Z)
  /\ (forall r, In r (ex_rows ByTransactionDate) ->
                ~ (r_Date r = 2%Z /\ r_Ticker r = "Z"))
  /\ qsum (map weight (rows_on (ex_rows ByTransactionDate) 2)) == 1.
Proof.
  assert (Hheld : In (mkSnapshot 2 "Z" (100 # 10))
                     (holdings_on ex_trades ByTransactionDate
                                  [1; 2; 3; 4; 5; 6]%Z))
    by (vm_compute; do 3 right; left; reflexivity).
  destruct (@unpriced_positions_dropped ex_provider ex_trades 1%Z ex_stock_data
              ByTransactionDate [] [ex_spy] (ex_rows ByTransactionDate)
              (ex_run_rows ByTransactionDate))
    as [_ [Hdrop Hrenorm]].
  split; [exact Hheld|]. split.
  - exact (Hdrop (mkSnapshot 2 "Z" (100 # 10)) Hheld eq_refl).
  - assert (Hin : In (nth 2 (ex_rows ByTransactionDate) no_row)
                     (ex_rows ByTransactionDate))
      by (vm_compute; do 2 right; left; reflexivity).
    assert (Hnz : ~ r_TotalValue (nth 2 (ex_rows ByTransactionDate) no_row) == 0)
      by q_compute.
    exact (proj2 (Hrenorm _ Hin Hnz)).
Defined.

(** * Further properties of the pipeline *)

(** ** Transaction normalisation *)

Lemma clean_transactions_eq (file : list transaction) (cutoff_date : Z)
    (renamed : list (string * string)) :
  clean_transactions file cutoff_date renamed
  = sort_keys cmp_transaction_date
      (map (normalise renamed)
           (filter (fun t => Z.ltb cutoff_date (TransactionDate t)) file)).
Proof. reflexivity. Qed.

Lemma cmp_transaction_date_antisym (a b : transaction) :
  cmp_transaction_date a b = CompOpp (cmp_transaction_date b a).
Proof. apply Z.compare_antisym. Qed.

Lemma cmp_transaction_date_le_trans (a b c : transaction) :
  cmp_transaction_date a b <> Gt -> cmp_transaction_date b c <> Gt ->
  cmp_transaction_date a c <> Gt.
Proof. apply Z_cmp_le_trans. Qed.

(** X1.  [clean_transactions] keeps exactly the rows executed strictly after
    the cutoff date, each rewritten once (no row is lost or repeated), and
    returns them in ascending order of execution date. *)
Theorem clean_transactions_sorted_after_cutoff
    (file : list transaction) (cutoff_date : Z)
    (renamed : list (string * string)) :
  let out := clean_transactions file cutoff_date renamed in
  Forall (fun t => (cutoff_date < TransactionDate t)%Z) out
  /\ StronglySorted
       (fun a b => (TransactionDate a <= TransactionDate b)%Z) out
  /\ Permutation out
       (map (normalise renamed)
            (filter (fun t => Z.ltb cutoff_date (TransactionDate t)) file)).
Proof.
  intros out. unfold out. rewrite clean_transactions_eq.
  set (rows := map (normalise renamed)
                   (filter (fun t => Z.ltb cutoff_date (TransactionDate t)) file)).
  pose proof (sort_keys_perm cmp_transaction_date rows) as Hperm.
  split; [|split; [|exact Hperm]].
  - apply Forall_forall. intros t Ht.
    apply (Permutation_in _ Hperm) in Ht. unfold rows in Ht.
    apply in_map_iff in Ht. destruct Ht as [t0 [<- Ht0]].
    apply filter_In in Ht0. destruct Ht0 as [_ Hlt].
    apply Z.ltb_lt in Hlt. exact Hlt.
  - pose proof (@sort_keys_sorted _ cmp_transaction_date
                  cmp_transaction_date_antisym cmp_transaction_date_le_trans
                  rows) as Hs.
    clear Hperm.
    induction Hs as [|a l Hs IH Hall]; [constructor|].
    constructor; [exact IH|].
    eapply Forall_impl; [|exact Hall].
    intros b Hb. apply Z.compare_le_iff. exact Hb.
Qed.

Lemma replace_spec (table : list (string * string)) (s : string) :
  (replace table s = s /\ forall k v, In (k, v) table -> k <> s)
  \/ (exists v, In (s, v) table /\ replace table s = v).
Proof.
  induction table as [|[k v] table IH]; simpl.
  - left. split; [reflexivity | intros k v []].
  - destruct (String.eqb_spec k s) as [->|Hne].
    + right. exists v. split; [left; reflexivity | reflexivity].
    + destruct IH as [[Heq Hno]|[v' [Hin Heq]]].
      * left. split; [exact Heq|].
        intros k' v' [H|H]; [injection H as <- _; exact Hne | exact (Hno k' v' H)].
      * right. exists v'. split; [right; exact Hin | exact Heq].
Qed.

(** X2.  When no new name of the rename table is itself an old name, no row
    returned by [clean_transactions] carries an old name as its ticker. *)
Theorem clean_transactions_no_old_ticker
    (file : list transaction) (cutoff_date : Z)
    (renamed : list (string * string)) :
  (forall k v k' v', In (k, v) renamed -> In (k', v') renamed -> v <> k') ->
  forall t, In t (clean_transactions file cutoff_date renamed) ->
  forall k v, In (k, v) renamed -> Ticker t <> k.
Proof.
  intros Hfresh t Ht k v Hk.
  rewrite clean_transactions_eq in Ht.
  apply (Permutation_in _ (sort_keys_perm cmp_transaction_date _)) in Ht.
  apply in_map_iff in Ht. destruct Ht as [t0 [<- _]]. simpl.
  destruct (replace_spec renamed (Ticker t0)) as [[Heq Hno]|[v' [Hin Heq]]].
  - rewrite Heq. intros H. exact (Hno k v Hk (eq_sym H)).
  - rewrite Heq. exact (Hfresh _ _ _ _ Hin Hk).
Qed.

(** X2 on the table of the program: FB never comes out. *)
Lemma clean_transactions_no_old_ticker_witness :
  Forall (fun t => Ticker t <> "FB") (clean_transactions fb_file 0 renamed_stocks).
Proof.
  apply Forall_forall. intros t Ht.
  apply (@clean_transactions_no_old_ticker fb_file 0%Z renamed_stocks)
    with (t := t) (k := "FB") (v := "META").
  - intros k v k' v' [H|[]] [H'|[]].
    injection H as <- <-. injection H' as <- <-. discriminate.
  - exact Ht.
  - left. reflexivity.
Defined.

Lemma filter_perm (A : Type) (p : A -> bool) (l1 l2 : list A) :
  Permutation l1 l2 -> Permutation (filter p l1) (filter p l2).
Proof.
  intros H. induction H as [|x l1 l2 _ IH|x y l|l1 l2 l3 _ IH1 _ IH2]; cbn.
  - constructor.
  - destruct (p x); [apply perm_skip|]; exact IH.
  - destruct (p x), (p y); try apply Permutation_refl. apply perm_swap.
  - exact (Permutation_trans IH1 IH2).
Qed.

Lemma filter_keeps_sorted (A : Type) (R : A -> A -> Prop) (p : A -> bool)
    (l : list A) :
  StronglySorted R l -> StronglySorted R (filter p l).
Proof.
  intros H. induction H as [|x l _ IH Hx]; cbn; [constructor|].
  destruct (p x); [|exact IH]. constructor; [exact IH|].
  apply Forall_forall. intros y Hy. apply filter_In in Hy.
  exact (proj1 (Forall_forall _ _) Hx y (proj1 Hy)).
Qed.

(** Rows in ascending order of a key that no two of them share are in one
    order only. *)
Lemma sorted_distinct_dates_eq (l1 : list transaction) :
  forall l2,
    StronglySorted date_le l1 -> StronglySorted date_le l2 ->
    Permutation l1 l2 -> NoDup (map TransactionDate l1) -> l1 = l2.
Proof.
  induction l1 as [|a l1 IH]; intros l2 H1 H2 Hperm Hnd.
  - symmetry. apply Permutation_nil. exact Hperm.
  - destruct l2 as [|b l2].
    + apply Permutation_sym, Permutation_nil in Hperm. discriminate.
    + apply StronglySorted_inv in H1. destruct H1 as [H1 Ha].
      apply StronglySorted_inv in H2. destruct H2 as [H2 Hb].
      cbn in Hnd. apply NoDup_cons_iff in Hnd. destruct Hnd as [Hfresh Hnd].
      assert (Hab : a = b).
      { pose proof (Permutation_in a Hperm (or_introl eq_refl)) as Hin_a.
        pose proof (Permutation_in b (Permutation_sym Hperm) (or_introl eq_refl))
          as Hin_b.
        destruct Hin_a as [Heq|Hin_a]; [symmetry; exact Heq|].
        destruct Hin_b as [Heq|Hin_b]; [exact Heq|].
        exfalso. apply Hfresh.
        pose proof (proj1 (Forall_forall _ _) Hb a Hin_a) as Hba.
        pose proof (proj1 (Forall_forall _ _) Ha b Hin_b) as Hab.
        unfold date_le in Hba, Hab.
        replace (TransactionDate a) with (TransactionDate b) by lia.
        apply in_map. exact Hin_b. }
      subst b. f_equal. apply IH; try assumption.
      exact (Permutation_cons_inv Hperm).
Qed.

(** The insertion sort of the model is one sort by execution date. *)
Lemma sort_values_sorts_by_date :
  sorts_by_date (sort_values cmp_transaction_date).
Proof.
  intros rows. unfold sort_values. split; [apply sort_keys_perm|].
  pose proof (@sort_keys_sorted _ cmp_transaction_date
                cmp_transaction_date_antisym
                cmp_transaction_date_le_trans rows) as H.
  induction H as [|a l _ IH Ha]; constructor; [exact IH|].
  apply Forall_forall. intros b Hb.
  pose proof (proj1 (Forall_forall _ _) Ha b Hb) as Hle.
  unfold cmp_transaction_date in Hle. unfold date_le.
  apply Z.compare_le_iff. exact Hle.
Qed.

(** X3.  Selecting a politician commutes with cleaning up to the order of
    rows with equal execution dates, whatever sort the last line of
    [clean_transactions] uses on the whole file and on the politician's rows:
    both ways give the same rows in ascending order of execution date, and
    the same table when no two of the politician's rows after the cutoff
    share an execution date. *)
Theorem choose_politician_clean_commute
    (sort_file sort_rows : list transaction -> list transaction)
    (file : list transaction) (cutoff_date : Z)
    (renamed : list (string * string)) (politician : string) :
  sorts_by_date sort_file -> sorts_by_date sort_rows ->
  let chosen :=
    choose_politician
      (clean_transactions_with sort_file file cutoff_date renamed) politician in
  let cleaned :=
    clean_transactions_with sort_rows (choose_politician file politician)
                            cutoff_date renamed in
  Permutation chosen cleaned
  /\ StronglySorted date_le chosen
  /\ StronglySorted date_le cleaned
  /\ (NoDup (map TransactionDate cleaned) -> chosen = cleaned).
Proof.
  intros Hfile Hrows chosen cleaned.
  assert (Hperm : Permutation chosen cleaned).
  { unfold chosen, cleaned, clean_transactions_with, choose_politician.
    eapply Permutation_trans; [apply filter_perm, (proj1 (Hfile _))|].
    eapply Permutation_trans; [|apply Permutation_sym, (proj1 (Hrows _))].
    rewrite filter_map_comm. cbn [normalise Representative].
    replace (filter (fun t => Z.ltb cutoff_date (TransactionDate t))
                    (filter (fun t => String.eqb (Representative t) politician)
                            file))
      with (filter (fun t => String.eqb (Representative t) politician)
                   (filter (fun t => Z.ltb cutoff_date (TransactionDate t))
                           file)); [apply Permutation_refl|].
    induction file as [|t file IH]; cbn; [reflexivity|].
    destruct (Z.ltb cutoff_date (TransactionDate t)) eqn:Hc;
      destruct (String.eqb (Representative t) politician) eqn:Hp;
      cbn; rewrite ?Hc, ?Hp; rewrite IH; reflexivity. }
  assert (Hchosen : StronglySorted date_le chosen).
  { apply filter_keeps_sorted, (proj2 (Hfile _)). }
  assert (Hcleaned : StronglySorted date_le cleaned).
  { apply (proj2 (Hrows _)). }
  split; [exact Hperm|]. split; [exact Hchosen|]. split; [exact Hcleaned|].
  intros Hnd. apply sorted_distinct_dates_eq; try assumption.
  eapply Permutation_NoDup; [|exact Hnd].
  apply Permutation_map, Permutation_sym, Hperm.
Qed.

(** X3 on a file in which politician A trades on days 1, 2 and 3, with the
    sort of the model on both sides. *)
Lemma choose_politician_clean_commute_witness :
  choose_politician (clean_transactions distinct_dates_file 0 renamed_stocks) "A"
  = clean_transactions (choose_politician distinct_dates_file "A") 0
                       renamed_stocks.
Proof.
  apply (@choose_politician_clean_commute
           (sort_values cmp_transaction_date) (sort_values cmp_transaction_date)
           distinct_dates_file 0%Z renamed_stocks "A"
           sort_values_sorts_by_date sort_values_sorts_by_date).
  assert (Hdates :
            map TransactionDate
                (clean_transactions_with (sort_values cmp_transaction_date)
                   (choose_politician distinct_dates_file "A") 0 renamed_stocks)
            = [1; 2; 3]%Z) by (vm_compute; reflexivity).
  rewrite Hdates.
  repeat (constructor; [cbn; intuition discriminate|]). constructor.
Defined.

(** ** Failures of a run *)

Lemma create_portfolio_roi_raises (yf_download : request -> frame)
    (trades : list trade) (stock_data : list price) (cutoff_date : Z)
    (end_date : option Z) (log log' : list request) (e : exn) :
  create_portfolio_roi yf_download trades stock_data cutoff_date end_date log
  = (Raise e, log') -> e = KeyError.
Proof.
  unfold create_portfolio_roi, calculate_portfolio_roi, bind.
  rewrite !holdings_Ok.
  destruct (holdings_on trades ByTransactionDate _) as [|h1 l1].
  - unfold raise. intros [= <- _]. reflexivity.
  - unfold ret at 1. rewrite !holdings_Ok.
    destruct (holdings_on trades ByReportDate _) as [|h2 l2].
    + unfold raise. intros [= <- _]. reflexivity.
    + unfold ret, download. discriminate.
Qed.

(** X4.  [calculate_returns] raises IndexError exactly when the politician
    has no transaction after the cutoff date, and then before any request
    to the price provider. *)
Theorem calculate_returns_index_error
    (yf_download : request -> frame) (politician_name : string)
    (file : list transaction) (cutoff_date : Z) (log : list request) :
  (choose_politician (clean_transactions file cutoff_date renamed_stocks)
                     politician_name = []
   <-> exists log',
         calculate_returns yf_download politician_name file cutoff_date log
         = (Raise IndexError, log'))
  /\ (forall log',
        calculate_returns yf_download politician_name file cutoff_date log
        = (Raise IndexError, log') -> log' = log).
Proof.
  unfold calculate_returns.
  destruct (choose_politician _ politician_name) as [|first rest] eqn:Hp.
  - split.
    + split; [intros _; exists log; reflexivity | reflexivity].
    + unfold raise. intros log' [= <-]. reflexivity.
  - assert (Hno : forall log',
              (stock_data <-
                 download_stock_data yf_download (first :: rest)
                                     (TransactionDate first) None ;;
               create_portfolio_roi yf_download
                 (add_stock_amount_column (first :: rest) stock_data)
                 stock_data (TransactionDate first) None) log
              <> (Raise IndexError, log')).
    { intros log'. unfold download_stock_data, bind at 1, download, ret.
      intros H. apply create_portfolio_roi_raises in H. discriminate. }
    split.
    + split; [discriminate|]. intros [log' H]. exfalso. exact (Hno log' H).
    + intros log' H. exfalso. exact (Hno log' H).
Qed.

Lemma nansum_nonpos (l : list cell) :
  Forall not_a_purchase l -> nansum l <= 0.
Proof.
  induction l as [|c l IH]; intros Hall.
  - apply Qle_refl.
  - inversion Hall as [|? ? Hc Hl]; subst. rewrite nansum_cons.
    specialize (IH Hl). destruct c as [q|]; simpl in *.
    + apply (Qplus_le_compat q 0 (nansum l) 0); assumption.
    + rewrite Qplus_0_l. exact IH.
Qed.

Lemma update_holding_empty (k : string) (s : Q) :
  s <= 0 -> update_holding [] (k, s) = [].
Proof.
  intros Hs. unfold update_holding. simpl.
  assert (H : Qle_bool (0 + s) 0 = true).
  { apply Qle_bool_iff. rewrite Qplus_0_l. exact Hs. }
  rewrite H. unfold dict_del. simpl. rewrite String.eqb_refl. reflexivity.
Qed.

Lemma day_update_no_purchase (trades : list trade) (col : date_key) (date : Z) :
  Forall (fun t => not_a_purchase (tr_StockAmount t)) trades ->
  day_update trades col [] date = [].
Proof.
  intros Hall. unfold day_update. destruct (existsb _ trades); [|reflexivity].
  assert (Hitems : Forall (fun item => snd item <= 0) (day_sums trades col date)).
  { apply Forall_forall. intros [k s] Hin. simpl.
    apply day_sums_In in Hin. destruct Hin as [_ ->].
    unfold ticker_day_sum. apply nansum_nonpos.
    apply Forall_forall. intros c Hc.
    apply in_map_iff in Hc. destruct Hc as [[k' c'] [<- Hc]].
    apply filter_In in Hc. destruct Hc as [Hc _].
    apply in_map_iff in Hc. destruct Hc as [t [Ht Hin]].
    injection Ht as _ <-.
    unfold day_transactions in Hin. apply filter_In in Hin.
    exact (proj1 (Forall_forall _ _) Hall t (proj1 Hin)). }
  induction Hitems as [|[k s] items Hs _ IH]; cbn [fold_left].
  - reflexivity.
  - simpl in Hs. rewrite (update_holding_empty k Hs). exact IH.
Qed.

Lemma holdings_on_no_purchase (trades : list trade) (col : date_key)
    (dates : list Z) :
  Forall (fun t => not_a_purchase (tr_StockAmount t)) trades ->
  holdings_on trades col dates = [].
Proof.
  intros Hall. unfold holdings_on.
  induction dates as [|date dates IH]; simpl; [reflexivity|].
  rewrite (day_update_no_purchase col date Hall). simpl. exact IH.
Qed.

(** X5.  When no transaction adds shares (every quantity is missing, zero or
    negative), the ledger is empty for either date key and any calendar, and
    the run fails with KeyError in the first merge, after a single request
    for the calendar. *)
Theorem no_purchase_raises_key_error
    (yf_download : request -> frame) (trades : list trade)
    (stock_data : list price) (cutoff_date : Z) (end_date : option Z)
    (log : list request) :
  Forall (fun t => not_a_purchase (tr_StockAmount t)) trades ->
  (forall col dates, holdings_on trades col dates = [])
  /\ (forall col,
        calculate_portfolio_roi yf_download trades cutoff_date stock_data col log
        = (Raise KeyError, log ++ [mkRequest ["SPY"] cutoff_date None]))
  /\ create_portfolio_roi yf_download trades stock_data cutoff_date end_date log
     = (Raise KeyError, log ++ [mkRequest ["SPY"] cutoff_date None]).
Proof.
  intros Hall.
  assert (Hcalc : forall col,
            calculate_portfolio_roi yf_download trades cutoff_date stock_data
                                    col log
            = (Raise KeyError, log ++ [mkRequest ["SPY"] cutoff_date None])).
  { intros col. unfold calculate_portfolio_roi, bind. rewrite holdings_Ok.
    rewrite (holdings_on_no_purchase col _ Hall). reflexivity. }
  split; [intros col dates; apply holdings_on_no_purchase, Hall|].
  split; [exact Hcalc|].
  unfold create_portfolio_roi, bind. rewrite Hcalc. reflexivity.
Qed.

(** X5 on a politician who only sold. *)
Lemma no_purchase_raises_key_error_witness :
  create_portfolio_roi ex_provider only_sales [] 1 None []
  = (Raise KeyError, [mkRequest ["SPY"] 1 None]).
Proof.
  assert (Hall : Forall (fun t => not_a_purchase (tr_StockAmount t)) only_sales).
  { repeat constructor; vm_compute; discriminate. }
  exact (proj2 (proj2 (@no_purchase_raises_key_error ex_provider only_sales []
                         1%Z None [] Hall))).
Defined.

(** ** The ledger day by day *)

Lemma day_update_off_date (A B : list trade) (T : trade) (col : date_key)
    (d : dict) (date : Z) :
  key_date col T <> date ->
  day_update (A ++ T :: B) col d date = day_update (A ++ B) col d date.
Proof.
  intros Hne. unfold day_update, day_sums, day_transactions.
  rewrite !existsb_app, !filter_app. simpl.
  apply Z.eqb_neq in Hne. rewrite Hne. reflexivity.
Qed.

(** X6.  A transaction keyed on a day that is not in the trading calendar is
    never applied: the ledger is the one obtained without it. *)
Theorem holdings_ignores_off_calendar
    (A B : list trade) (T : trade) (col : date_key) (dates : list Z) :
  ~ In (key_date col T) dates ->
  holdings_on (A ++ T :: B) col dates = holdings_on (A ++ B) col dates.
Proof.
  unfold holdings_on. generalize (@nil (string * Q)).
  induction dates as [|date dates IH]; intros d Hnin; simpl.
  - reflexivity.
  - rewrite day_update_off_date
      by (intros H; apply Hnin; left; symmetry; exact H).
    rewrite IH by (intros H; apply Hnin; right; exact H). reflexivity.
Qed.

(** X6 on a sale disclosed on day 4, which is not a trading day. *)
Lemma holdings_ignores_off_calendar_witness :
  holdings_on disclosed_off_calendar ByReportDate [1; 2; 3; 5]%Z
  = holdings_on (firstn 1 disclosed_off_calendar) ByReportDate [1; 2; 3; 5]%Z.
Proof.
  apply (@holdings_ignores_off_calendar (firstn 1 disclosed_off_calendar) []
           (nth 1 disclosed_off_calendar (mkTrade (mkTransaction "" "" "" 0 0 0)
                                                  None None))
           ByReportDate [1; 2; 3; 5]%Z).
  vm_compute. intuition discriminate.
Defined.

(** X7.  On a trading day without transactions the positions of the day
    before are carried forward unchanged. *)
Theorem holdings_carried_forward
    (trades : list trade) (col : date_key) (pre post : list Z) (d1 d2 : Z) :
  NoDup (pre ++ d1 :: d2 :: post) ->
  (forall t, In t trades -> key_date col t <> d2) ->
  forall k q,
    In (mkSnapshot d2 k q) (holdings_on trades col (pre ++ d1 :: d2 :: post))
    <-> In (mkSnapshot d1 k q)
           (holdings_on trades col (pre ++ d1 :: d2 :: post)).
Proof.
  intros Hnd Hno k q.
  rewrite (holdings_on_In trades col pre (d2 :: post) d1 k q Hnd).
  assert (Hcal : pre ++ d1 :: d2 :: post = (pre ++ [d1]) ++ d2 :: post)
    by (rewrite <- app_assoc; reflexivity).
  rewrite Hcal in Hnd |- *.
  rewrite (holdings_on_In trades col (pre ++ [d1]) post d2 k q Hnd).
  rewrite state_after_snoc.
  assert (Hday : day_update trades col
                   (state_after trades col (pre ++ [d1])) d2
                 = state_after trades col (pre ++ [d1])).
  { unfold day_update.
    replace (existsb (fun t => (key_date col t =? d2)%Z) trades) with false;
      [reflexivity|].
    symmetry. apply not_true_is_false. intros Hex.
    apply existsb_exists in Hex. destruct Hex as [t [Ht He]].
    apply Z.eqb_eq in He. exact (Hno t Ht He). }
  rewrite Hday. reflexivity.
Qed.

(** X7 on the example: no transaction is executed on day 4, and Z is held
    on day 3. *)
Lemma holdings_carried_forward_witness :
  In (mkSnapshot 4 "Z" (100 # 10))
     (holdings_on ex_trades ByTransactionDate [1; 2; 3; 4; 5; 6]%Z).
Proof.
  apply (@holdings_carried_forward ex_trades ByTransactionDate
           [1; 2]%Z [5; 6]%Z 3%Z 4%Z ex_calendar_NoDup).
  - assert (Hall : forallb (fun t => negb (Z.eqb (key_date ByTransactionDate t) 4))
                           ex_trades = true) by (vm_compute; reflexivity).
    intros t Ht He.
    pose proof (proj1 (forallb_forall _ _) Hall t Ht) as Hp.
    cbv beta in Hp. rewrite He in Hp. discriminate.
  - vm_compute. do 4 right. left. reflexivity.
Defined.

(** X8.  As long as the running net total of a ticker over the calendar
    dates has never been negative and is positive at a calendar date, the
    ledger has a row for the ticker on that date, and its quantity is the
    net total of the shares traded so far. *)
Theorem holdings_accumulates_net_shares
    (trades : list trade) (col : date_key) (k : string)
    (pre post : list Z) (D : Z) :
  NoDup (pre ++ D :: post) ->
  (forall p q, pre = p ++ q -> 0 <= net_shares trades col k p) ->
  0 < net_shares trades col k (pre ++ [D]) ->
  exists q,
    In (mkSnapshot D k q) (holdings_on trades col (pre ++ D :: post))
    /\ q == net_shares trades col k (pre ++ [D]).
Proof.
  intros Hnd Hge Hpos.
  assert (HndD : NoDup (pre ++ [D])).
  { replace (pre ++ D :: post) with ((pre ++ [D]) ++ post) in Hnd
      by (rewrite <- app_assoc; reflexivity).
    apply NoDup_app_remove_r in Hnd. exact Hnd. }
  assert (Htr : tracks (dict_get (state_after trades col ([] ++ (pre ++ [D]))) k)
                       (net_shares trades col k ([] ++ (pre ++ [D])))).
  { apply tracks_run.
    - exact HndD.
    - simpl. rewrite net_shares_nil. reflexivity.
    - intros q1 q2 Hq. simpl.
      destruct q2 as [|x q2] using rev_ind.
      + rewrite app_nil_r in Hq. subst q1. apply Qlt_le_weak. exact Hpos.
      + clear IHq2. rewrite app_assoc in Hq. apply app_inj_tail in Hq.
        destruct Hq as [Hq _]. apply (Hge q1 q2). exact Hq. }
  simpl in Htr.
  destruct (dict_get (state_after trades col (pre ++ [D])) k) as [q|] eqn:Hget.
  - exists q. split; [|exact (proj1 Htr)].
    apply (holdings_on_In trades col pre post D k q Hnd). exact Hget.
  - simpl in Htr. rewrite Htr in Hpos. exfalso. exact (Qlt_irrefl 0 Hpos).
Qed.

(** X8 on the example: 20 shares of X on day 2. *)
Lemma holdings_accumulates_net_shares_witness :
  exists q,
    In (mkSnapshot 2 "X" q)
       (holdings_on ex_trades ByTransactionDate [1; 2; 3; 4; 5; 6]%Z)
    /\ q == 20.
Proof.
  destruct (@holdings_accumulates_net_shares ex_trades ByTransactionDate "X"
              [1]%Z [3; 4; 5; 6]%Z 2%Z ex_calendar_NoDup) as [q [Hin Hq]].
  - intros p q H. destruct p as [|a [|b p]]; simpl in H.
    + q_compute.
    + injection H as <- _. q_compute.
    + destruct p; discriminate.
  - q_compute.
  - exists q. split; [exact Hin|]. rewrite Hq. q_compute.
Defined.

(** ** Tickers do not interfere *)

Lemma dict_only_set_same (d : dict) (k : string) (v : Q) :
  dict_only k (dict_set d k v) = dict_set (dict_only k d) k v.
Proof.
  unfold dict_only. induction d as [|[k0 v0] d IH]; simpl.
  - rewrite String.eqb_refl. reflexivity.
  - destruct (String.eqb k0 k) eqn:Hk; simpl; rewrite Hk.
    + reflexivity.
    + exact IH.
Qed.

Lemma dict_only_set_other (d : dict) (k k' : string) (v : Q) :
  k' <> k -> dict_only k (dict_set d k' v) = dict_only k d.
Proof.
  intros Hne. unfold dict_only. induction d as [|[k0 v0] d IH]; simpl.
  - destruct (String.eqb_spec k' k); [contradiction | reflexivity].
  - destruct (String.eqb_spec k0 k') as [->|Hn]; simpl.
    + destruct (String.eqb_spec k' k); [contradiction | reflexivity].
    + rewrite IH. reflexivity.
Qed.

Lemma dict_only_del_same (d : dict) (k : string) :
  dict_only k (dict_del d k) = dict_del (dict_only k d) k.
Proof.
  unfold dict_only, dict_del. induction d as [|[k0 v0] d IH]; simpl.
  - reflexivity.
  - destruct (String.eqb k0 k) eqn:Hk; simpl; rewrite ?Hk; simpl; exact IH.
Qed.

Lemma dict_only_del_other (d : dict) (k k' : string) :
  k' <> k -> dict_only k (dict_del d k') = dict_only k d.
Proof.
  intros Hne. unfold dict_only, dict_del.
  induction d as [|[k0 v0] d IH]; simpl; [reflexivity|].
  destruct (String.eqb_spec k0 k') as [->|Hn]; simpl.
  - destruct (String.eqb_spec k' k); [contradiction | exact IH].
  - rewrite IH. reflexivity.
Qed.

Lemma dict_get_only (d : dict) (k : string) :
  dict_get (dict_only k d) k = dict_get d k.
Proof.
  unfold dict_only. induction d as [|[k0 v0] d IH]; simpl; [reflexivity|].
  destruct (String.eqb k0 k) eqn:Hk; simpl; rewrite ?Hk; [reflexivity | exact IH].
Qed.

Lemma update_holding_only_same (d : dict) (k : string) (s : Q) :
  dict_only k (update_holding d (k, s)) = update_holding (dict_only k d) (k, s).
Proof.
  unfold update_holding. rewrite dict_get_only.
  destruct (Qle_bool _ 0).
  - rewrite dict_only_del_same, dict_only_set_same. reflexivity.
  - apply dict_only_set_same.
Qed.

Lemma update_holding_only_other (d : dict) (k k' : string) (s : Q) :
  k' <> k -> dict_only k (update_holding d (k', s)) = dict_only k d.
Proof.
  intros Hne. unfold update_holding. destruct (Qle_bool _ 0).
  - rewrite dict_only_del_other by exact Hne. apply dict_only_set_other, Hne.
  - apply dict_only_set_other, Hne.
Qed.

Lemma fold_update_only_other (items : list (string * Q)) (k : string) :
  ~ In k (map fst items) ->
  forall d, dict_only k (fold_left update_holding items d) = dict_only k d.
Proof.
  induction items as [|[k0 s0] items IH]; intros Hnin d; cbn [fold_left].
  - reflexivity.
  - rewrite IH by (intros H; apply Hnin; right; exact H).
    apply update_holding_only_other. intros ->. apply Hnin. left; reflexivity.
Qed.

Lemma fold_update_only_same (items : list (string * Q)) (k : string) (s : Q) :
  NoDup (map fst items) -> In (k, s) items ->
  forall d,
    dict_only k (fold_left update_holding items d)
    = update_holding (dict_only k d) (k, s).
Proof.
  induction items as [|[k0 s0] items IH]; intros Hnd Hin d; cbn [fold_left].
  - contradiction.
  - simpl in Hnd. inversion Hnd as [|? ? Hnin Hnd']; subst.
    destruct Hin as [Heq|Hin].
    + injection Heq as -> ->.
      rewrite fold_update_only_other by exact Hnin.
      apply update_holding_only_same.
    + rewrite (IH Hnd' Hin).
      rewrite update_holding_only_other; [reflexivity|].
      intros ->. apply Hnin. apply in_map_iff.
      exists (k, s). split; [reflexivity | exact Hin].
Qed.

Lemma unique_constant (k : string) (l : list string) :
  Forall (fun x => x = k) l -> l <> [] -> unique String.eqb l = [k].
Proof.
  intros Hall Hne. destruct l as [|x l]; [contradiction|].
  inversion Hall as [|? ? Hx Hl]; subst. unfold unique. simpl.
  clear Hall Hne. induction l as [|y l IH]; simpl; [reflexivity|].
  inversion Hl as [|? ? Hy Hl']; subst.
  rewrite String.eqb_refl. simpl. exact (IH Hl').
Qed.

Lemma day_transactions_of_ticker (trades : list trade) (col : date_key)
    (date : Z) (k : string) :
  day_transactions (of_ticker k trades) col date
  = of_ticker k (day_transactions trades col date).
Proof.
  unfold day_transactions, of_ticker.
  induction trades as [|t trades IH]; simpl; [reflexivity|].
  destruct (String.eqb (Ticker (tr_tx t)) k) eqn:Hk;
    destruct (key_date col t =? date)%Z eqn:Hd; simpl;
    rewrite ?Hk, ?Hd, IH; reflexivity.
Qed.

Lemma ticker_rows_of_ticker (l : list trade) (k : string) :
  filter (fun r : string * cell => String.eqb (fst r) k)
         (map (fun t => (Ticker (tr_tx t), tr_StockAmount t)) (of_ticker k l))
  = filter (fun r : string * cell => String.eqb (fst r) k)
           (map (fun t => (Ticker (tr_tx t), tr_StockAmount t)) l).
Proof.
  unfold of_ticker. induction l as [|t l IH]; simpl; [reflexivity|].
  destruct (String.eqb (Ticker (tr_tx t)) k) eqn:Hk; simpl; rewrite ?Hk, IH;
    reflexivity.
Qed.

(** The day's sums of the transactions in one ticker. *)
Lemma day_sums_of_ticker (trades : list trade) (col : date_key) (date : Z)
    (k : string) :
  day_sums (of_ticker k trades) col date
  = if existsb (fun t => String.eqb (Ticker (tr_tx t)) k)
               (day_transactions trades col date)
    then [(k, ticker_day_sum trades col k date)]
    else [].
Proof.
  unfold day_sums, ticker_day_sum. rewrite day_transactions_of_ticker.
  set (l := day_transactions trades col date).
  destruct (existsb (fun t => String.eqb (Ticker (tr_tx t)) k) l) eqn:Hex.
  - unfold groupby_sum.
    rewrite (unique_constant (k:=k)).
    + simpl. rewrite ticker_rows_of_ticker. reflexivity.
    + apply Forall_forall. intros x Hx. rewrite map_map in Hx.
      apply in_map_iff in Hx. destruct Hx as [t [<- Ht]]. simpl.
      unfold of_ticker in Ht. apply filter_In in Ht.
      apply String.eqb_eq. apply Ht.
    + apply existsb_exists in Hex. destruct Hex as [t [Ht Hk]].
      intros Hnil.
      assert (Hin : In (Ticker (tr_tx t))
                       (map fst (map (fun t => (Ticker (tr_tx t), tr_StockAmount t))
                                     (of_ticker k l)))).
      { rewrite map_map. apply in_map_iff. exists t. split; [reflexivity|].
        apply filter_In. split; assumption. }
      rewrite Hnil in Hin. exact Hin.
  - replace (of_ticker k l) with (@nil trade); [reflexivity|].
    symmetry. unfold of_ticker. clear - Hex.
    induction l as [|t l IH]; simpl in *; [reflexivity|].
    apply orb_false_iff in Hex. destruct Hex as [-> Hex]. exact (IH Hex).
Qed.

Lemma day_update_of_ticker (trades : list trade) (col : date_key) (d : dict)
    (date : Z) (k : string) :
  day_update (of_ticker k trades) col (dict_only k d) date
  = dict_only k (day_update trades col d date).
Proof.
  assert (Hleft : day_update (of_ticker k trades) col (dict_only k d) date
                  = fold_left update_holding
                      (day_sums (of_ticker k trades) col date) (dict_only k d)).
  { unfold day_update. destruct (existsb _ (of_ticker k trades)) eqn:Hex;
      [reflexivity|].
    rewrite day_sums_of_ticker.
    destruct (existsb _ (day_transactions trades col date)) eqn:Htr;
      [|reflexivity].
    exfalso. apply existsb_exists in Htr. destruct Htr as [t [Ht Hk]].
    unfold day_transactions in Ht. apply filter_In in Ht.
    assert (H : existsb (fun t => (key_date col t =? date)%Z)
                        (of_ticker k trades) = true).
    { apply existsb_exists. exists t. split; [|apply Ht].
      apply filter_In. split; [apply Ht | exact Hk]. }
    congruence. }
  rewrite Hleft, day_sums_of_ticker. unfold day_update.
  destruct (existsb (fun t => String.eqb (Ticker (tr_tx t)) k)
                    (day_transactions trades col date)) eqn:Htr.
  - apply existsb_exists in Htr. destruct Htr as [t [Ht Hk]].
    apply String.eqb_eq in Hk.
    assert (Hex : existsb (fun t => (key_date col t =? date)%Z) trades = true).
    { apply existsb_exists. exists t. unfold day_transactions in Ht.
      apply filter_In in Ht. exact Ht. }
    rewrite Hex. cbn [fold_left]. symmetry.
    apply fold_update_only_same.
    + apply (@groupby_sum_NoDup _ String.eqb String.eqb_eq String.compare).
    + apply day_sums_In. split; [|reflexivity].
      apply in_map_iff. exists t. split; assumption.
  - cbn [fold_left].
    destruct (existsb (fun t => (key_date col t =? date)%Z) trades);
      [|reflexivity].
    symmetry. apply fold_update_only_other.
    intros Hin. apply in_map_iff in Hin. destruct Hin as [[k' s] [Hk Hin]].
    simpl in Hk. subst k'. apply day_sums_In in Hin. destruct Hin as [Hin _].
    apply in_map_iff in Hin. destruct Hin as [t [Ht Hin]].
    assert (H : existsb (fun t => String.eqb (Ticker (tr_tx t)) k)
                        (day_transactions trades col date) = true).
    { apply existsb_exists. exists t. split; [exact Hin|].
      apply String.eqb_eq. exact Ht. }
    congruence.
Qed.

Lemma holdings_loop_of_ticker (trades : list trade) (col : date_key)
    (k : string) (dates : list Z) :
  forall d,
    filter (fun r => String.eqb (h_Ticker r) k) (holdings_loop trades col d dates)
    = holdings_loop (of_ticker k trades) col (dict_only k d) dates.
Proof.
  induction dates as [|date dates IH]; intros d; simpl; [reflexivity|].
  rewrite filter_app, IH, day_update_of_ticker. f_equal.
  unfold dict_only. rewrite filter_map_comm. reflexivity.
Qed.

(** X9.  The rows of a ticker in the ledger are the ledger of that ticker's
    transactions alone: what is traded in other tickers never changes them. *)
Theorem holdings_ticker_independent
    (trades : list trade) (col : date_key) (k : string) (dates : list Z) :
  filter (fun r => String.eqb (h_Ticker r) k) (holdings_on trades col dates)
  = holdings_on (of_ticker k trades) col dates.
Proof.
  unfold holdings_on. rewrite holdings_loop_of_ticker. reflexivity.
Qed.

(** ** Keys of the tables *)

Lemma holdings_loop_dates (trades : list trade) (col : date_key)
    (dates : list Z) :
  forall d r, In r (holdings_loop trades col d dates) -> In (h_Date r) dates.
Proof.
  intros d r Hin. apply holdings_loop_In in Hin.
  destruct Hin as [pre [post [-> _]]]. apply in_or_app. right. left. reflexivity.
Qed.

Lemma holdings_loop_keys_NoDup (trades : list trade) (col : date_key)
    (dates : list Z) :
  NoDup dates ->
  forall d, NoDup (map fst d) ->
  NoDup (map snapshot_key (holdings_loop trades col d dates)).
Proof.
  induction dates as [|date dates IH]; intros Hnd d Hd; simpl; [constructor|].
  inversion Hnd as [|? ? Hnin Hnd']; subst.
  pose proof (@day_update_keys trades col d date Hd) as Hd'.
  rewrite map_app. apply NoDup_app.
  - rewrite map_map. unfold snapshot_key. simpl.
    clear - Hd'. induction (day_update trades col d date) as [|[k v] l IHl];
      simpl in *; [constructor|].
    inversion Hd' as [|? ? Hk Hl]; subst.
    constructor; [|exact (IHl Hl)].
    intros Hin. apply Hk. apply in_map_iff in Hin.
    destruct Hin as [[k' v'] [Heq Hin]]. injection Heq as <-.
    apply in_map_iff. exists (k', v'). split; [reflexivity | exact Hin].
  - exact (IH Hnd' _ Hd').
  - intros key Hin1 Hin2.
    apply in_map_iff in Hin1. destruct Hin1 as [r1 [<- Hr1]].
    apply in_map_iff in Hr1. destruct Hr1 as [kv [<- _]].
    apply in_map_iff in Hin2. destruct Hin2 as [r2 [Hkey Hr2]].
    apply holdings_loop_dates in Hr2.
    unfold snapshot_key in Hkey. simpl in Hkey. injection Hkey as Hdate _.
    rewrite Hdate in Hr2. exact (Hnin Hr2).
Qed.

Lemma update_holding_key_In (d : dict) (item : string * Q) (k : string) :
  In k (map fst (update_holding d item)) -> k = fst item \/ In k (map fst d).
Proof.
  destruct item as [k0 s]. unfold update_holding. simpl.
  intros Hin. apply in_map_iff in Hin. destruct Hin as [[k' v] [<- Hin]].
  simpl. destruct (Qle_bool _ 0).
  - unfold dict_del in Hin. apply filter_In in Hin. destruct Hin as [Hin _].
    apply dict_set_In in Hin. destruct Hin as [Heq|Hin].
    + injection Heq as -> _. left; reflexivity.
    + right. apply in_map_iff. exists (k', v). split; [reflexivity | exact Hin].
  - apply dict_set_In in Hin. destruct Hin as [Heq|Hin].
    + injection Heq as -> _. left; reflexivity.
    + right. apply in_map_iff. exists (k', v). split; [reflexivity | exact Hin].
Qed.

Lemma fold_update_key_In (items : list (string * Q)) (k : string) :
  forall d,
    In k (map fst (fold_left update_holding items d)) ->
    In k (map fst items) \/ In k (map fst d).
Proof.
  induction items as [|item items IH]; intros d Hin; cbn [fold_left] in Hin.
  - right. exact Hin.
  - apply IH in Hin. destruct Hin as [Hin|Hin].
    + left. right. exact Hin.
    + apply update_holding_key_In in Hin. destruct Hin as [->|Hin].
      * left. left. reflexivity.
      * right. exact Hin.
Qed.

Lemma day_update_key_In (trades : list trade) (col : date_key) (d : dict)
    (date : Z) (k : string) :
  In k (map fst (day_update trades col d date)) ->
  (exists t, In t trades /\ Ticker (tr_tx t) = k /\ key_date col t = date)
  \/ In k (map fst d).
Proof.
  unfold day_update. destruct (existsb _ trades); [|intros H; right; exact H].
  intros Hin. apply fold_update_key_In in Hin.
  destruct Hin as [Hin|Hin]; [left | right; exact Hin].
  apply in_map_iff in Hin. destruct Hin as [[k' s] [Hk Hin]]. simpl in Hk.
  subst k'. apply day_sums_In in Hin. destruct Hin as [Hin _].
  apply in_map_iff in Hin. destruct Hin as [t [Ht Hin]].
  unfold day_transactions in Hin. apply filter_In in Hin.
  destruct Hin as [Hin Hd]. apply Z.eqb_eq in Hd.
  exists t. split; [exact Hin|]. split; assumption.
Qed.

Lemma state_after_key_In (trades : list trade) (col : date_key)
    (dates : list Z) (k : string) :
  In k (map fst (state_after trades col dates)) ->
  exists t, In t trades /\ Ticker (tr_tx t) = k /\ In (key_date col t) dates.
Proof.
  induction dates as [|date dates IH] using rev_ind.
  - intros [].
  - rewrite state_after_snoc. intros Hin.
    apply day_update_key_In in Hin.
    destruct Hin as [[t [Ht [Hk Hd]]]|Hin].
    + exists t. split; [exact Ht|]. split; [exact Hk|].
      apply in_or_app. right. left. symmetry. exact Hd.
    + destruct (IH Hin) as [t [Ht [Hk Hd]]].
      exists t. split; [exact Ht|]. split; [exact Hk|].
      apply in_or_app. left. exact Hd.
Qed.

(** X10.  On a calendar without repeated dates the ledger has at most one
    row per (date, ticker); every row is dated on a calendar day, and its
    ticker has a transaction keyed on a calendar day. *)
Theorem holdings_rows_keyed
    (trades : list trade) (col : date_key) (dates : list Z) :
  NoDup dates ->
  NoDup (map snapshot_key (holdings_on trades col dates))
  /\ Forall (fun r =>
               In (h_Date r) dates
               /\ exists t, In t trades /\ Ticker (tr_tx t) = h_Ticker r
                            /\ In (key_date col t) dates)
            (holdings_on trades col dates).
Proof.
  intros Hnd. split.
  - apply holdings_loop_keys_NoDup; [exact Hnd | constructor].
  - apply Forall_forall. intros r Hin. split.
    + exact (@holdings_loop_dates trades col dates [] r Hin).
    + unfold holdings_on in Hin. apply holdings_loop_In in Hin.
      destruct Hin as [pre [post [Hd Hin]]].
      assert (Hk : In (h_Ticker r)
                      (map fst (state_after trades col (pre ++ [h_Date r])))).
      { apply in_map_iff. exists (h_Ticker r, h_StockAmount r).
        split; [reflexivity | exact Hin]. }
      apply state_after_key_In in Hk. destruct Hk as [t [Ht [Hk Hdt]]].
      exists t. split; [exact Ht|]. split; [exact Hk|].
      rewrite Hd. apply in_app_iff in Hdt. apply in_or_app.
      destruct Hdt as [Hdt|[Hdt|[]]]; [left; exact Hdt | right; left; exact Hdt].
Qed.

(** X10 on the example run. *)
Lemma holdings_rows_keyed_witness :
  NoDup (map snapshot_key
             (holdings_on ex_trades ByReportDate [1; 2; 3; 4; 5; 6]%Z)).
Proof.
  exact (proj1 (@holdings_rows_keyed ex_trades ByReportDate
                  [1; 2; 3; 4; 5; 6]%Z ex_calendar_NoDup)).
Defined.

Lemma melt_keys_NoDup (f : frame) :
  NoDup (f_index f) -> NoDup (f_columns f) -> NoDup (map fst (melt f)).
Proof.
  intros Hi Hc. unfold melt.
  induction (f_columns f) as [|tk cols IH]; simpl; [constructor|].
  inversion Hc as [|? ? Hnin Hc']; subst.
  rewrite map_app. apply NoDup_app.
  - rewrite map_map. simpl. clear - Hi.
    induction (f_index f) as [|d ds IHd]; simpl; [constructor|].
    inversion Hi as [|? ? Hd Hds]; subst.
    constructor; [|exact (IHd Hds)].
    intros Hin. apply in_map_iff in Hin. destruct Hin as [d' [Heq Hin]].
    injection Heq as <-. exact (Hd Hin).
  - exact (IH Hc').
  - intros key Hin1 Hin2.
    apply in_map_iff in Hin1. destruct Hin1 as [x [<- Hx]].
    apply in_map_iff in Hx. destruct Hx as [d [<- _]]. simpl in Hin2.
    apply in_map_iff in Hin2. destruct Hin2 as [[[d' tk'] c'] [Heq Hin]].
    simpl in Heq. injection Heq as -> ->.
    apply in_flat_map in Hin. destruct Hin as [tk' [Htk Hin]].
    apply in_map_iff in Hin. destruct Hin as [d' [Heq _]].
    injection Heq as _ -> _. exact (Hnin Htk).
Qed.

Lemma dropna_close_keys_NoDup (rows : list (Z * string * cell)) :
  NoDup (map fst rows) -> NoDup (map fst (dropna_close rows)).
Proof.
  induction rows as [|[[d tk] [c|]] rows IH]; simpl; intros Hnd.
  - constructor.
  - inversion Hnd as [|? ? Hnin Hnd']; subst.
    constructor; [|exact (IH Hnd')].
    intros Hin. apply Hnin. apply in_map_iff in Hin.
    destruct Hin as [[[d' tk'] c'] [Heq Hin]]. simpl in Heq.
    injection Heq as -> ->. apply dropna_close_In in Hin.
    apply in_map_iff. exists (d, tk, Some c'). split; [reflexivity | exact Hin].
  - inversion Hnd; subst. apply IH. assumption.
Qed.

(** X11.  When the provider's frame has no repeated day and no repeated
    column, the price table has at most one row per (date, ticker). *)
Theorem build_stock_data_keys_NoDup (f : frame) :
  NoDup (f_index f) -> NoDup (f_columns f) ->
  NoDup (map price_date_ticker (build_stock_data f)).
Proof.
  intros Hi Hc.
  assert (Heq : map price_date_ticker (build_stock_data f)
                = map fst (map price_key (build_stock_data f))).
  { rewrite map_map. reflexivity. }
  rewrite Heq, build_stock_data_keys.
  eapply Permutation_NoDup.
  - apply Permutation_map. apply Permutation_sym. apply sort_keys_perm.
  - apply dropna_close_keys_NoDup, melt_keys_NoDup; assumption.
Qed.

(** X11 on the example frame. *)
Lemma build_stock_data_keys_NoDup_witness :
  NoDup (map price_date_ticker ex_stock_data).
Proof.
  apply build_stock_data_keys_NoDup.
  - exact ex_calendar_NoDup.
  - repeat (constructor; [simpl; intuition discriminate|]). constructor.
Defined.

Lemma filter_price_unique (stock_data : list price) (d : Z) (tk : string) :
  NoDup (map price_date_ticker stock_data) ->
  (List.length (filter (fun p => Z.eqb (px_Date p) d
                                 && String.eqb (px_Ticker p) tk) stock_data)
   <= 1)%nat.
Proof.
  induction stock_data as [|p sd IH]; simpl; intros Hnd; [lia|].
  inversion Hnd as [|? ? Hnin Hnd']; subst.
  destruct (Z.eqb (px_Date p) d && String.eqb (px_Ticker p) tk) eqn:Hm;
    [|exact (IH Hnd')].
  apply andb_true_iff in Hm. destruct Hm as [Hd Hk].
  apply Z.eqb_eq in Hd. apply String.eqb_eq in Hk.
  replace (filter _ sd) with (@nil price); [simpl; lia|].
  symmetry. clear IH Hnd Hnd'.
  induction sd as [|p' sd IH]; simpl in *; [reflexivity|].
  destruct (Z.eqb (px_Date p') d && String.eqb (px_Ticker p') tk) eqn:Hm'.
  - exfalso. apply Hnin. left.
    apply andb_true_iff in Hm'. destruct Hm' as [Hd' Hk'].
    apply Z.eqb_eq in Hd'. apply String.eqb_eq in Hk'.
    unfold price_date_ticker. congruence.
  - apply IH. intros H. apply Hnin. right. exact H.
Qed.

(** X12.  Trade valuation.  Every valued row is either unmatched, with
    missing close and quantity, or carries the close of a price row of its
    execution date and ticker, and then (the close not being zero) its
    quantity times the close gives back the amount.  When the price table
    has at most one row per (date, ticker), there is exactly one valued row
    per transaction, in the order of the transactions. *)
Theorem add_stock_amount_column_rows
    (politician_trades : list transaction) (stock_data : list price) :
  Forall (fun v =>
            (tr_Close v = None /\ tr_StockAmount v = None
             /\ forall p, In p stock_data ->
                  ~ (px_Date p = TransactionDate (tr_tx v)
                     /\ px_Ticker p = Ticker (tr_tx v)))
            \/ (exists p,
                  In p stock_data
                  /\ px_Date p = TransactionDate (tr_tx v)
                  /\ px_Ticker p = Ticker (tr_tx v)
                  /\ tr_Close v = Some (px_Close p)
                  /\ (~ px_Close p == 0 ->
                      exists q, tr_StockAmount v = Some q
                                /\ q * px_Close p == Amount (tr_tx v))))
         (add_stock_amount_column politician_trades stock_data)
  /\ (NoDup (map price_date_ticker stock_data) ->
      map tr_tx (add_stock_amount_column politician_trades stock_data)
      = politician_trades).
Proof.
  split.
  - apply Forall_forall. intros v Hv. unfold add_stock_amount_column in Hv.
    apply in_flat_map in Hv. destruct Hv as [t [_ Hv]].
    destruct (filter (fun p => Z.eqb (px_Date p) (TransactionDate t)
                               && String.eqb (px_Ticker p) (Ticker t))
                     stock_data) as [|p0 ms] eqn:Hf.
    + destruct Hv as [<-|[]]. left. simpl. repeat split.
      intros p Hp [Hd Hk].
      assert (H : In p (filter (fun p => Z.eqb (px_Date p) (TransactionDate t)
                                        && String.eqb (px_Ticker p) (Ticker t))
                               stock_data)).
      { apply filter_In. split; [exact Hp|].
        apply andb_true_iff. split; [apply Z.eqb_eq | apply String.eqb_eq];
          assumption. }
      rewrite Hf in H. exact H.
    + apply in_map_iff in Hv. destruct Hv as [p [<- Hp]]. right.
      rewrite <- Hf in Hp. apply filter_In in Hp. destruct Hp as [Hp Hm].
      apply andb_true_iff in Hm. destruct Hm as [Hd Hk].
      apply Z.eqb_eq in Hd. apply String.eqb_eq in Hk.
      exists p. simpl. repeat split; try assumption.
      intros Hnz. exists (Amount t / px_Close p).
      split; [apply fdiv_nonzero, Hnz|]. field. exact Hnz.
  - intros Hnd. unfold add_stock_amount_column.
    induction politician_trades as [|t ts IH]; [reflexivity|].
    cbn [flat_map]. rewrite map_app.
    change (t :: ts) with ([t] ++ ts). f_equal; [|exact IH].
    pose proof (filter_price_unique stock_data (TransactionDate t) (Ticker t) Hnd)
      as Hlen.
    destruct (filter _ stock_data) as [|p [|p' ms]]; simpl in *;
      try reflexivity. lia.
Qed.

Lemma ex_stock_data_keys_NoDup : NoDup (map price_date_ticker ex_stock_data).
Proof.
  vm_compute.
  repeat (constructor; [simpl; intuition discriminate|]). constructor.
Defined.

(** X12 on the example: five transactions, five valued rows. *)
Lemma add_stock_amount_column_rows_witness :
  map tr_tx ex_trades = ex_politician_trades.
Proof.
  exact (proj2 (add_stock_amount_column_rows ex_politician_trades ex_stock_data)
               ex_stock_data_keys_NoDup).
Defined.

Lemma filter_keeps_keys_distinct (row key : Type) (key_of : row -> key)
  (keep : row -> bool) (rows : list row)
  (Hkeys : NoDup (map key_of rows)) :
  NoDup (map key_of (filter keep rows)).
Proof.
  induction rows as [|r rows IH]; cbn [filter map] in *; [constructor|].
  apply NoDup_cons_iff in Hkeys. destruct Hkeys as [Hfresh Hrest].
  destruct (keep r); cbn [map]; [|exact (IH Hrest)].
  apply NoDup_cons; [|exact (IH Hrest)].
  rewrite in_map_iff. intros [r' [Hkey Hin]].
  apply Hfresh, in_map_iff. exists r'. split; [exact Hkey|].
  exact (proj1 (proj1 (filter_In _ _ _) Hin)).
Qed.

Lemma merge_prices_keys (holding : list snapshot) (stock_data : list price) :
  NoDup (map price_date_ticker stock_data) ->
  map fst (merge_prices holding stock_data) = filter (priced stock_data) holding.
Proof.
  intros Hnd. unfold merge_prices.
  induction holding as [|h hs IH]; [reflexivity|].
  cbn [flat_map filter]. rewrite map_app, IH. unfold priced at 2.
  assert (Hlen := filter_price_unique stock_data (h_Date h) (h_Ticker h) Hnd).
  assert (Hsame : filter (fun p => Z.eqb (h_Date h) (px_Date p)
                                   && String.eqb (h_Ticker h) (px_Ticker p))
                         stock_data
                  = filter (fun p => Z.eqb (px_Date p) (h_Date h)
                                     && String.eqb (px_Ticker p) (h_Ticker h))
                           stock_data).
  { apply filter_ext. intros p. rewrite Z.eqb_sym, String.eqb_sym. reflexivity. }
  rewrite <- Hsame in Hlen.
  destruct (filter (fun p => Z.eqb (h_Date h) (px_Date p)
                             && String.eqb (h_Ticker h) (px_Ticker p))
                   stock_data) as [|p [|p' ms]] eqn:Hf.
  - replace (existsb _ stock_data) with false; [reflexivity|].
    symmetry. apply not_true_is_false. intros Hex.
    apply existsb_exists in Hex. destruct Hex as [p [Hp Hm]].
    assert (H : In p (filter (fun p => Z.eqb (h_Date h) (px_Date p)
                                      && String.eqb (h_Ticker h) (px_Ticker p))
                             stock_data))
      by (apply filter_In; split; assumption).
    rewrite Hf in H. exact H.
  - replace (existsb _ stock_data) with true; [reflexivity|].
    symmetry. apply existsb_exists. exists p.
    assert (H : In p (filter (fun p => Z.eqb (h_Date h) (px_Date p)
                                      && String.eqb (h_Ticker h) (px_Ticker p))
                             stock_data))
      by (rewrite Hf; left; reflexivity).
    apply filter_In in H. exact H.
  - simpl in Hlen. lia.
Qed.

(** X13.  When the price table has at most one row per (date, ticker), the
    aggregated table has exactly one row per priced position of the ledger,
    in ledger order; a ledger without repeated (date, ticker) then gives a
    table without repeated (date, ticker). *)
Theorem portfolio_rows_one_per_priced_position
    (holding : list snapshot) (stock_data : list price) :
  NoDup (map price_date_ticker stock_data) ->
  map roi_row_key (portfolio_rows holding stock_data)
  = map snapshot_key (filter (priced stock_data) holding)
  /\ (NoDup (map snapshot_key holding) ->
      NoDup (map roi_row_key (portfolio_rows holding stock_data))).
Proof.
  intros Hnd.
  assert (Hkeys : map roi_row_key (portfolio_rows holding stock_data)
                  = map snapshot_key (filter (priced stock_data) holding)).
  { unfold portfolio_rows. rewrite map_map.
    rewrite <- (@merge_prices_keys holding stock_data Hnd), map_map.
    reflexivity. }
  split; [exact Hkeys|].
  intros Hh. rewrite Hkeys. apply filter_keeps_keys_distinct, Hh.
Qed.

(** X13 on the example: the ten positions of the execution-keyed ledger,
    one of them without a price, give nine rows. *)
Lemma portfolio_rows_one_per_priced_position_witness :
  List.length (ex_rows ByTransactionDate) = 9%nat
  /\ NoDup (map roi_row_key (ex_rows ByTransactionDate)).
Proof.
  destruct (@portfolio_rows_one_per_priced_position
              (holdings_on ex_trades ByTransactionDate [1; 2; 3; 4; 5; 6]%Z)
              ex_stock_data ex_stock_data_keys_NoDup) as [Hkeys Hnodup].
  split.
  - rewrite <- (length_map roi_row_key). unfold ex_rows. rewrite Hkeys.
    vm_compute. reflexivity.
  - apply Hnodup. vm_compute.
    repeat (constructor; [simpl; intuition discriminate|]). constructor.
Defined.



(** ** Daily returns and the end date *)

Lemma merge_left_lookup (A : Type) (date_of : A -> Z) (left : list A)
    (right : list (Z * Q)) (a : A) (c : cell) :
  NoDup (map fst right) ->
  In (a, c) (merge_left date_of left right) ->
  fillna 1 c = lookup_return right (date_of a).
Proof.
  intros Hnd Hin. unfold merge_left in Hin. apply in_flat_map in Hin.
  destruct Hin as [a' [_ Hin]]. unfold lookup_return.
  pose proof (filter_key_unique right (date_of a') Hnd) as Hlen.
  destruct (filter (fun kv => Z.eqb (fst kv) (date_of a')) right)
    as [|kv [|kv' ms]] eqn:Hf.
  - destruct Hin as [Heq|[]]. injection Heq as <- <-. rewrite Hf. reflexivity.
  - destruct Hin as [Heq|[]]. injection Heq as <- <-. rewrite Hf. reflexivity.
  - simpl in Hlen. lia.
Qed.

(** The daily returns of a row of the comparison table are those of its
    date in the two aggregated series. *)
Lemma assemble_daily_returns (spy_data : frame)
    (politician_holdings copytraded_holdings : list roi_row) (r : final_row) :
  In r (assemble spy_data politician_holdings copytraded_holdings) ->
  fr_ROI r = lookup_return (daily_returns politician_holdings) (fr_Date r)
  /\ fr_CopyTradeROI r
     = lookup_return (daily_returns copytraded_holdings) (fr_Date r).
Proof.
  unfold assemble.
  set (final0 := combine (f_index spy_data) _).
  set (m1 := merge_left fst final0 (daily_returns politician_holdings)).
  set (m2 := merge_left (fun r => fst (fst r)) m1
                        (daily_returns copytraded_holdings)).
  intros Hr. apply final_rows_In in Hr.
  destruct Hr as [x [Hx [Hdate [Hroi Hcopy]]]].
  apply in_map_iff in Hx. destruct Hx as [[[a c1] c2] [Hx Hin]].
  subst x. simpl in *.
  assert (Hin1 : In (a, c1) m1).
  { assert (Hm2 : map fst m2 = m1)
      by (apply merge_left_rows, daily_returns_NoDup).
    rewrite <- Hm2. apply in_map_iff. exists (a, c1, c2).
    split; [reflexivity | exact Hin]. }
  rewrite Hroi, Hcopy, Hdate. split.
  - exact (@merge_left_lookup _ fst final0 _ a c1
             (daily_returns_NoDup politician_holdings) Hin1).
  - exact (@merge_left_lookup _ (fun r => fst (fst r)) m1 _ (a, c1) c2
             (daily_returns_NoDup copytraded_holdings) Hin).
Qed.

(** X15.  The end date only selects the calendar of the comparison table:
    the ledgers are reconstructed without it, so two runs that differ in the
    end date alone both fail or both return a table, and on a date that both
    tables have they give the same daily returns. *)
Theorem end_date_only_selects_calendar
    (yf_download : request -> frame) (trades : list trade)
    (stock_data : list price) (cutoff_date : Z) (e1 e2 : option Z)
    (log : list request) :
  (forall x,
      fst (create_portfolio_roi yf_download trades stock_data cutoff_date e1 log)
      = Raise x
      <-> fst (create_portfolio_roi yf_download trades stock_data cutoff_date
                                    e2 log)
          = Raise x)
  /\ (forall final1 final2 log1 log2,
        create_portfolio_roi yf_download trades stock_data cutoff_date e1 log
        = (Ok final1, log1) ->
        create_portfolio_roi yf_download trades stock_data cutoff_date e2 log
        = (Ok final2, log2) ->
        forall r1 r2,
          In r1 final1 -> In r2 final2 -> fr_Date r1 = fr_Date r2 ->
          fr_ROI r1 = fr_ROI r2 /\ fr_CopyTradeROI r1 = fr_CopyTradeROI r2).
Proof.
  split.
  - intros x. unfold create_portfolio_roi, bind.
    destruct (calculate_portfolio_roi yf_download trades cutoff_date stock_data
                ByTransactionDate log) as [[ph|e] l1]; [|reflexivity].
    destruct (calculate_portfolio_roi yf_download trades cutoff_date stock_data
                ByReportDate l1) as [[ch|e] l2]; [|reflexivity].
    unfold download, ret. simpl. split; discriminate.
  - intros final1 final2 log1 log2 H1 H2 r1 r2 Hr1 Hr2 Hdate.
    apply create_portfolio_roi_Ok in H1.
    destruct H1 as [ph [ch [l1 [l2 [Hph [Hch [Hf1 _]]]]]]].
    apply create_portfolio_roi_Ok in H2.
    destruct H2 as [ph' [ch' [l1' [l2' [Hph' [Hch' [Hf2 _]]]]]]].
    rewrite Hph in Hph'. injection Hph' as <- <-.
    rewrite Hch in Hch'. injection Hch' as <- <-.
    subst final1 final2.
    apply assemble_daily_returns in Hr1. apply assemble_daily_returns in Hr2.
    destruct Hr1 as [Ha1 Hb1]. destruct Hr2 as [Ha2 Hb2].
    rewrite Ha1, Ha2, Hb1, Hb2, Hdate. split; reflexivity.
Qed.

(** X15 on the example, with the calendar cut after day 3: day 2 has the
    same daily returns in both tables. *)
Lemma end_date_only_selects_calendar_witness :
  List.length ex_final_cut = 3%nat
  /\ fr_ROI (nth 1 ex_final_cut no_final_row)
     = fr_ROI (nth 1 ex_final no_final_row)
  /\ fr_CopyTradeROI (nth 1 ex_final_cut no_final_row)
     = fr_CopyTradeROI (nth 1 ex_final no_final_row).
Proof.
  assert (H1 : create_portfolio_roi bounded_provider ex_trades ex_stock_data 1
                                    (Some 3%Z) []
               = (Ok ex_final_cut,
                  [ex_spy; ex_spy; mkRequest ["SPY"] 1 (Some 3%Z)]))
    by (vm_compute; reflexivity).
  assert (H2 : create_portfolio_roi bounded_provider ex_trades ex_stock_data 1
                                    None []
               = (Ok ex_final, [ex_spy; ex_spy; ex_spy]))
    by (vm_compute; reflexivity).
  destruct (@end_date_only_selects_calendar bounded_provider ex_trades
              ex_stock_data 1%Z (Some 3%Z) None []) as [_ Hsame].
  split; [vm_compute; reflexivity|].
  apply (Hsame ex_final_cut ex_final _ _ H1 H2).
  - vm_compute. right. left. reflexivity.
  - vm_compute. right. left. reflexivity.
  - vm_compute. reflexivity.
Defined.

(** ** The benchmark column *)

Lemma final_rows_spy (rows : list (Z * Q * Q * Q)) :
  forall copy_cum cum,
    List.length copy_cum = List.length rows ->
    List.length cum = List.length rows ->
    map fr_SPYCumROI (final_rows rows copy_cum cum)
    = map (fun r => snd (fst (fst r))) rows.
Proof.
  induction rows as [|[[[d spy] roi] copy] rows IH]; intros copy_cum cum H1 H2.
  - destruct copy_cum; [|discriminate]. destruct cum; [|discriminate].
    reflexivity.
  - destruct copy_cum as [|cc copy_cum]; [discriminate|].
    destruct cum as [|c cum]; [discriminate|].
    simpl in H1, H2. injection H1 as H1. injection H2 as H2.
    simpl. rewrite (IH copy_cum cum H1 H2). reflexivity.
Qed.

Lemma combine_snd (A B : Type) (l : list A) (l' : list B) :
  List.length l' = List.length l -> map snd (combine l l') = l'.
Proof.
  revert l'. induction l as [|a l IH]; intros l' Hlen; simpl.
  - destruct l'; [reflexivity | discriminate].
  - destruct l' as [|b l']; [discriminate|]. simpl.
    rewrite IH; [reflexivity|]. simpl in Hlen. lia.
Qed.

(** The benchmark column is the running product of the benchmark's own
    daily factors. *)
Lemma assemble_spy_column (spy_data : frame)
    (politician_holdings copytraded_holdings : list roi_row) :
  map fr_SPYCumROI (assemble spy_data politician_holdings copytraded_holdings)
  = cumprod
      (map (fun c => fillna 0 c + 1)
           (pct_change None
              (map (fun d => f_close spy_data d "SPY") (f_index spy_data)))).
Proof.
  unfold assemble.
  set (closes := map (fun d => f_close spy_data d "SPY") (f_index spy_data)).
  set (spy_roi := map (fun c => fillna 0 c + 1) (pct_change None closes)).
  set (final0 := combine (f_index spy_data) (cumprod spy_roi)).
  set (m1 := merge_left fst final0 (daily_returns politician_holdings)).
  set (m2 := merge_left (fun r => fst (fst r)) m1
                        (daily_returns copytraded_holdings)).
  set (filled := map (fun r => (fst (fst (fst r)), snd (fst (fst r)),
                                fillna 1 (snd (fst r)), fillna 1 (snd r))) m2).
  rewrite final_rows_spy
    by (rewrite cumprod_length, length_map; reflexivity).
  assert (Hm2 : map fst m2 = m1)
    by (apply merge_left_rows, daily_returns_NoDup).
  assert (Hm1 : map fst m1 = final0)
    by (apply merge_left_rows, daily_returns_NoDup).
  unfold filled. rewrite map_map. simpl.
  transitivity (map snd final0).
  - rewrite <- Hm1, <- Hm2, !map_map. reflexivity.
  - apply combine_snd. rewrite cumprod_length. unfold spy_roi, closes.
    rewrite length_map, pct_change_length, length_map. reflexivity.
Qed.

Lemma cumprod_from_relative (rest : list Q) :
  forall p acc t x c,
    ~ p == 0 ->
    Forall (fun c => ~ c == 0) rest ->
    nth_error (cumprod_from acc
                 (map (fun c => fillna 0 c + 1)
                      (pct_change (Some (Some p)) (map Some rest)))) t = Some x ->
    nth_error rest t = Some c ->
    x == acc * (c / p).
Proof.
  induction rest as [|c1 rest IH]; intros p acc t x c Hp Hall Hx Hc.
  - destruct t; discriminate.
  - inversion Hall as [|? ? Hc1 Hrest]; subst.
    simpl in Hx. rewrite (fdiv_nonzero c1 Hp) in Hx. simpl in Hx.
    destruct t as [|t]; simpl in Hx, Hc.
    + injection Hx as <-. injection Hc as <-. field. exact Hp.
    + rewrite (IH c1 _ t x c Hc1 Hrest Hx Hc). field. split; assumption.
Qed.

(** X16.  When the benchmark has a non-zero close on every calendar day, the
    benchmark column of the comparison table is the price relative: on each
    day, the day's close divided by the first day's close (1 on the first
    day). *)
Theorem benchmark_is_price_relative
    (yf_download : request -> frame) (trades : list trade)
    (stock_data : list price) (cutoff_date : Z) (end_date : option Z)
    (log log' : list request) (final : list final_row) (closes : list Q) :
  create_portfolio_roi yf_download trades stock_data cutoff_date end_date log
  = (Ok final, log') ->
  let spy_data := yf_download (mkRequest ["SPY"] cutoff_date end_date) in
  map (fun d => f_close spy_data d "SPY") (f_index spy_data) = map Some closes ->
  Forall (fun c => ~ c == 0) closes ->
  forall t r c0 ct,
    nth_error final t = Some r ->
    nth_error closes 0 = Some c0 ->
    nth_error closes t = Some ct ->
    fr_SPYCumROI r == ct / c0.
Proof.
  intros Hrun spy_data Hcloses Hnz t r c0 ct Hr Hc0 Hct.
  apply create_portfolio_roi_Ok in Hrun.
  destruct Hrun as [ph [ch [l1 [l2 [_ [_ [Hfinal _]]]]]]].
  fold spy_data in Hfinal.
  pose proof (assemble_spy_column spy_data ph ch) as Hcol.
  rewrite <- Hfinal, Hcloses in Hcol.
  pose proof (map_nth_error fr_SPYCumROI _ _ Hr) as Hx. rewrite Hcol in Hx.
  destruct closes as [|c closes]; [discriminate|].
  simpl in Hc0. injection Hc0 as ->.
  inversion Hnz as [|? ? Hc0 Hrest]; subst.
  simpl in Hx. destruct t as [|t]; simpl in Hx, Hct.
  - injection Hx as <-. injection Hct as <-. field. exact Hc0.
  - rewrite (@cumprod_from_relative closes c0 (0 + 1) t _ ct Hc0 Hrest Hx Hct).
    field. exact Hc0.
Qed.

(** X16 on the example run: SPY closes at 101 on day 1 and at 104 on
    day 4. *)
Lemma benchmark_is_price_relative_witness :
  fr_SPYCumROI (nth 3 ex_final no_final_row) == 104 / 101.
Proof.
  apply (@benchmark_is_price_relative ex_provider ex_trades ex_stock_data 1%Z
           None [] [ex_spy; ex_spy; ex_spy] ex_final
           [101; 102; 103; 104; 105; 106] ex_run_final) with (t := 3%nat).
  - vm_compute. reflexivity.
  - repeat constructor; vm_compute; discriminate.
  - vm_compute. reflexivity.
  - reflexivity.
  - reflexivity.
Defined.

(** ** The two date keys *)

Lemma day_update_key_ext (trades : list trade) (c1 c2 : date_key) (d : dict)
    (date : Z) :
  (forall t, In t trades -> key_date c1 t = key_date c2 t) ->
  day_update trades c1 d date = day_update trades c2 d date.
Proof.
  intros Hkey.
  assert (Hf : forall l, (forall t, In t l -> key_date c1 t = key_date c2 t) ->
             filter (fun t => (key_date c1 t =? date)%Z) l
             = filter (fun t => (key_date c2 t =? date)%Z) l
             /\ existsb (fun t => (key_date c1 t =? date)%Z) l
                = existsb (fun t => (key_date c2 t =? date)%Z) l).
  { induction l as [|t l IH]; intros Hl; simpl; [split; reflexivity|].
    rewrite (Hl t (or_introl eq_refl)).
    destruct (IH (fun x Hx => Hl x (or_intror Hx))) as [-> ->].
    split; reflexivity. }
  unfold day_update, day_sums, day_transactions.
  destruct (Hf trades Hkey) as [-> ->]. reflexivity.
Qed.

Lemma holdings_on_key_ext (trades : list trade) (c1 c2 : date_key)
    (dates : list Z) :
  (forall t, In t trades -> key_date c1 t = key_date c2 t) ->
  holdings_on trades c1 dates = holdings_on trades c2 dates.
Proof.
  intros Hkey. unfold holdings_on. generalize (@nil (string * Q)).
  induction dates as [|date dates IH]; intros d; simpl; [reflexivity|].
  rewrite (@day_update_key_ext trades c1 c2 d date Hkey), IH. reflexivity.
Qed.

Lemma map_eq_In (A B : Type) (f g : A -> B) (l : list A) (x : A) :
  map f l = map g l -> In x l -> f x = g x.
Proof.
  induction l as [|a l IH]; simpl; intros Heq Hin; [contradiction|].
  injection Heq as Ha Hl. destruct Hin as [<-|Hin]; [exact Ha | exact (IH Hl Hin)].
Qed.

(** X17.  When every transaction is disclosed on its execution date, the
    copy-trade portfolio is the actual portfolio: in every row of the
    comparison table the two daily returns are equal, and so are the two
    cumulative returns. *)
Theorem immediate_disclosure_same_curves
    (yf_download : request -> frame) (trades : list trade)
    (stock_data : list price) (cutoff_date : Z) (end_date : option Z)
    (log log' : list request) (final : list final_row) :
  (forall t, In t trades -> ReportDate (tr_tx t) = TransactionDate (tr_tx t)) ->
  create_portfolio_roi yf_download trades stock_data cutoff_date end_date log
  = (Ok final, log') ->
  forall r, In r final ->
    fr_CopyTradeROI r = fr_ROI r
    /\ fr_CopyCumulativeROI r = fr_CumulativeROI r.
Proof.
  intros Hsame Hrun.
  apply create_portfolio_roi_Ok in Hrun.
  destruct Hrun as [ph [ch [l1 [l2 [Hph [Hch [Hfinal _]]]]]]].
  apply calculate_portfolio_roi_Ok in Hph. destruct Hph as [Hph _].
  apply calculate_portfolio_roi_Ok in Hch. destruct Hch as [Hch _].
  assert (Heq : ch = ph).
  { rewrite Hph, Hch. f_equal. apply holdings_on_key_ext.
    intros t Ht. simpl. apply Hsame, Ht. }
  rewrite Heq in Hfinal. clear Hph Hch Heq ch.
  assert (Hdaily : forall r, In r final -> fr_CopyTradeROI r = fr_ROI r).
  { intros r Hr. rewrite Hfinal in Hr. apply assemble_daily_returns in Hr.
    destruct Hr as [-> ->]. reflexivity. }
  destruct (assemble_columns
              (yf_download (mkRequest ["SPY"] cutoff_date end_date)) ph ph)
    as [_ [Hcum [Hcopy _]]].
  rewrite <- Hfinal in Hcum, Hcopy.
  assert (Hcols : map fr_CopyCumulativeROI final = map fr_CumulativeROI final).
  { rewrite Hcum, Hcopy. f_equal. apply map_ext_in. exact Hdaily. }
  intros r Hr. split; [exact (Hdaily r Hr) | exact (map_eq_In _ _ _ _ Hcols Hr)].
Qed.

(** X17 on the example disclosed at once: day 6. *)
Lemma immediate_disclosure_same_curves_witness :
  fr_CopyCumulativeROI (nth 5 disclosed_at_once_final no_final_row)
  = fr_CumulativeROI (nth 5 disclosed_at_once_final no_final_row).
Proof.
  assert (Hsame : forall t, In t disclosed_at_once ->
                    ReportDate (tr_tx t) = TransactionDate (tr_tx t)).
  { assert (Hall : forallb (fun t => Z.eqb (ReportDate (tr_tx t))
                                           (TransactionDate (tr_tx t)))
                           disclosed_at_once = true)
      by (vm_compute; reflexivity).
    intros t Ht. apply Z.eqb_eq.
    exact (proj1 (forallb_forall _ _) Hall t Ht). }
  assert (Hrun : create_portfolio_roi ex_provider disclosed_at_once
                                      ex_stock_data 1 None []
                 = (Ok disclosed_at_once_final, [ex_spy; ex_spy; ex_spy]))
    by (vm_compute; reflexivity).
  apply (@immediate_disclosure_same_curves ex_provider disclosed_at_once
           ex_stock_data 1%Z None [] _ disclosed_at_once_final Hsame Hrun).
  vm_compute. do 5 right. left. reflexivity.
Defined.

(** ** Before the first transaction *)

Lemma holdings_loop_app (trades : list trade) (col : date_key) (a b : list Z) :
  forall d,
    holdings_loop trades col d (a ++ b)
    = holdings_loop trades col d a
      ++ holdings_loop trades col (fold_left (day_update trades col) a d) b.
Proof.
  induction a as [|date a IH]; intros d; simpl; [reflexivity|].
  rewrite IH, app_assoc. reflexivity.
Qed.

Lemma holdings_loop_idle (trades : list trade) (col : date_key) (pre : list Z) :
  (forall t, In t trades -> ~ In (key_date col t) pre) ->
  holdings_loop trades col [] pre = []
  /\ fold_left (day_update trades col) pre [] = [].
Proof.
  induction pre as [|date pre IH]; intros Hno; simpl; [split; reflexivity|].
  assert (Hday : day_update trades col [] date = []).
  { unfold day_update.
    replace (existsb (fun t => (key_date col t =? date)%Z) trades) with false;
      [reflexivity|].
    symmetry. apply not_true_is_false. intros Hex.
    apply existsb_exists in Hex. destruct Hex as [t [Ht He]].
    apply Z.eqb_eq in He. apply (Hno t Ht). left. symmetry. exact He. }
  rewrite Hday. simpl. apply IH.
  intros t Ht Hin. apply (Hno t Ht). right. exact Hin.
Qed.

(** X18.  The portfolio is flat before its first transaction: when the
    ledger calendar starts with days on which no transaction is keyed, the
    ledger has no row on those days, and a comparison row dated on one of
    them (and on no later calendar day) has daily return 1. *)
Theorem flat_before_first_transaction
    (yf_download : request -> frame) (trades : list trade)
    (stock_data : list price) (cutoff_date : Z) (end_date : option Z)
    (log log' : list request) (final : list final_row)
    (pre post : list Z) :
  create_portfolio_roi yf_download trades stock_data cutoff_date end_date log
  = (Ok final, log') ->
  f_index (yf_download (mkRequest ["SPY"] cutoff_date None)) = pre ++ post ->
  (forall t, In t trades -> ~ In (ReportDate (tr_tx t)) pre) ->
  (forall r, In r (holdings_on trades ByReportDate (pre ++ post)) ->
             In (h_Date r) post)
  /\ (forall r, In r final -> ~ In (fr_Date r) post -> fr_CopyTradeROI r = 1).
Proof.
  intros Hrun Hcal Hno.
  assert (Hledger : forall r, In r (holdings_on trades ByReportDate (pre ++ post))
                              -> In (h_Date r) post).
  { intros r Hr. unfold holdings_on in Hr. rewrite holdings_loop_app in Hr.
    destruct (@holdings_loop_idle trades ByReportDate pre Hno) as [Hrows Hst].
    rewrite Hrows, Hst in Hr. simpl in Hr.
    exact (@holdings_loop_dates trades ByReportDate post [] r Hr). }
  split; [exact Hledger|].
  intros r Hr Hnot.
  apply create_portfolio_roi_Ok in Hrun.
  destruct Hrun as [ph [ch [l1 [l2 [_ [Hch [Hfinal _]]]]]]].
  apply calculate_portfolio_roi_Ok in Hch. destruct Hch as [Hch _].
  rewrite Hcal in Hch.
  destruct (assemble_columns
              (yf_download (mkRequest ["SPY"] cutoff_date end_date)) ph ch)
    as [_ [_ [_ [_ Habsent]]]].
  rewrite <- Hfinal in Habsent. apply (Habsent r Hr).
  intros Hin. apply Hnot.
  apply in_map_iff in Hin. destruct Hin as [[d v] [Hd Hin]]. simpl in Hd.
  subst d. apply daily_returns_In in Hin. destruct Hin as [Hin _].
  apply in_map_iff in Hin. destruct Hin as [row [Hdate Hrow]].
  rewrite Hch in Hrow. apply portfolio_rows_In in Hrow.
  destruct Hrow as [h [p [Hh [_ [Hrd _]]]]].
  rewrite <- Hdate, Hrd. apply Hledger, Hh.
Qed.

(** X18 on the example run restricted to X, first disclosed on day 2. *)
Lemma flat_before_first_transaction_witness :
  fr_CopyTradeROI (nth 0 (match fst (create_portfolio_roi ex_provider
                                       (of_ticker "X" ex_trades) ex_stock_data
                                       1 None []) with
                          | Ok final => final
                          | Raise _ => []
                          end) no_final_row) = 1.
Proof.
  assert (Hrun : exists final,
             create_portfolio_roi ex_provider (of_ticker "X" ex_trades)
                                  ex_stock_data 1 None []
             = (Ok final, [ex_spy; ex_spy; ex_spy])
             /\ In (nth 0 final no_final_row) final
             /\ fr_Date (nth 0 final no_final_row) = 1%Z).
  { eexists. split; [vm_compute; reflexivity|].
    split; [left; reflexivity | reflexivity]. }
  destruct Hrun as [final [Hrun [Hin Hdate]]].
  destruct (@flat_before_first_transaction ex_provider (of_ticker "X" ex_trades)
              ex_stock_data 1%Z None [] _ final [1]%Z [2; 3; 4; 5; 6]%Z Hrun
              eq_refl) as [_ Hflat].
  - assert (Hall : forallb (fun t => negb (Z.eqb (ReportDate (tr_tx t)) 1))
                           (of_ticker "X" ex_trades) = true)
      by (vm_compute; reflexivity).
    intros t Ht [He|[]].
    pose proof (proj1 (forallb_forall _ _) Hall t Ht) as Hp.
    cbv beta in Hp. rewrite <- He in Hp. discriminate.
  - rewrite Hrun. simpl. apply Hflat; [exact Hin|].
    rewrite Hdate. simpl. intuition discriminate.
Defined.

(** * The ledger in binary64 *)

(** ** Comparisons with zero and sums *)

Lemma f64_not_le_zero (x : Float64.float) :
  Float64.leb x Float64.zero = false ->
  Float64.ltb Float64.zero x = true \/ x = Float64.nan.
Proof.
  destruct x as [s|s| |s m e]; try destruct s; cbn;
    first [discriminate | intros _; left; reflexivity | intros _; right; reflexivity].
Qed.

Lemma f64_pos_not_le (x : Float64.float) :
  Float64.ltb Float64.zero x = true -> Float64.leb x Float64.zero = false.
Proof.
  destruct x as [s|s| |s m e]; try destruct s; cbn;
    first [discriminate | reflexivity].
Qed.

Lemma f64_add_zero_pos (x : Float64.float) :
  Float64.ltb Float64.zero x = true -> Float64.add Float64.zero x = x.
Proof.
  destruct x as [s|s| |s m e]; try destruct s; cbn;
    first [discriminate | reflexivity].
Qed.

Lemma f64_add_zero_nonpos (x : Float64.float) :
  Float64.leb x Float64.zero = true ->
  Float64.leb (Float64.add Float64.zero x) Float64.zero = true.
Proof.
  destruct x as [s|s| |s m e]; try destruct s; cbn;
    first [discriminate | reflexivity].
Qed.

(** Rounding a mantissa that is not negative never gives NaN. *)
Lemma shr_1_nonneg (mrs : shr_record) :
  (0 <= shr_m mrs)%Z -> (0 <= shr_m (shr_1 mrs))%Z.
Proof.
  destruct mrs as [m r s]. destruct m as [|p|p]; cbn; intros H.
  - lia.
  - destruct p; cbn; lia.
  - lia.
Qed.

Lemma iter_pos_inv (A : Type) (P : A -> Prop) (f : A -> A) :
  (forall x, P x -> P (f x)) ->
  forall (n : positive) (x : A), P x -> P (iter_pos f n x).
Proof.
  intros Hf. induction n as [n IH|n IH|]; intros x Hx; cbn.
  - apply IH, IH, Hf, Hx.
  - apply IH, IH, Hx.
  - apply Hf, Hx.
Qed.

Lemma shr_fexp_nonneg (m e : Z) (l : location) :
  (0 <= m)%Z ->
  (0 <= shr_m (fst (shr_fexp Float64.prec Float64.emax m e l)))%Z.
Proof.
  intros Hm. unfold shr_fexp, shr.
  assert (H0 : (0 <= shr_m (shr_record_of_loc m l))%Z).
  { destruct l as [|[]]; exact Hm. }
  destruct (_ - e)%Z; cbn [fst]; try exact H0.
  apply (@iter_pos_inv _ (fun mrs => (0 <= shr_m mrs)%Z)); [|exact H0].
  exact shr_1_nonneg.
Qed.

Lemma round_nearest_even_nonneg (m : Z) (l : location) :
  (0 <= m)%Z -> (0 <= round_nearest_even m l)%Z.
Proof.
  intros Hm. destruct l as [|[]]; cbn; try exact Hm; try lia.
  destruct (Z.even m); lia.
Qed.

Lemma binary_round_aux_not_nan (sx : bool) (mx ex : Z) (lx : location) :
  (0 <= mx)%Z ->
  binary_round_aux Float64.prec Float64.emax sx mx ex lx <> S754_nan.
Proof.
  intros Hm. unfold binary_round_aux.
  pose proof (shr_fexp_nonneg ex lx Hm) as H1.
  destruct (shr_fexp Float64.prec Float64.emax mx ex lx) as [mrs' e'].
  cbn [fst] in H1.
  pose proof (@shr_fexp_nonneg
                (round_nearest_even (shr_m mrs') (loc_of_shr_record mrs'))
                e' loc_Exact (round_nearest_even_nonneg _ H1)) as H2.
  destruct (shr_fexp Float64.prec Float64.emax _ e' loc_Exact) as [mrs'' e''].
  cbn [fst] in H2.
  destruct (shr_m mrs'') as [|q|q].
  - discriminate.
  - destruct (Z.leb e'' _); discriminate.
  - lia.
Qed.

(** The sum of two finite numbers is not NaN (it is infinite when the
    addition overflows). *)
Lemma f64_add_finite_not_nan (x y : Float64.float) :
  Float64.is_finite x = true -> Float64.is_finite y = true ->
  Float64.add x y <> Float64.nan.
Proof.
  unfold Float64.nan, Float64.add.
  destruct x as [sx|sx| |sx mx ex]; destruct y as [sy|sy| |sy my ey];
    cbn [Float64.is_finite]; intros Hx Hy;
    try discriminate Hx; try discriminate Hy.
  - destruct sx, sy; cbn; intros H; discriminate H.
  - cbn. intros H; discriminate H.
  - cbn. intros H; discriminate H.
  - unfold SFadd, binary_normalize.
    destruct (_ + _)%Z as [|m|m]; [intros H; discriminate H| |];
      unfold binary_round; destruct (shl_align _ _ _) as [mz ez];
      apply binary_round_aux_not_nan; lia.
Qed.

(** A quantity greater than 0 plus a finite day sum is not NaN. *)
Lemma f64_add_pos_finite_not_nan (h s : Float64.float) :
  Float64.ltb Float64.zero h = true \/ h = Float64.zero ->
  Float64.is_finite s = true ->
  Float64.add h s <> Float64.nan.
Proof.
  intros Hh Hs.
  destruct (Float64.is_finite h) eqn:Hf.
  - apply f64_add_finite_not_nan; assumption.
  - destruct Hh as [Hh| ->]; [|discriminate].
    destruct h as [sh|sh| |sh mh eh]; try discriminate.
    destruct sh; [discriminate|].
    destruct s as [ss|ss| |ss ms es]; try discriminate Hs;
      cbn; intros H; discriminate H.
Qed.

(** ** The dictionary of quantities *)

Lemma f64_dict_set_In (d : Float64.dict) (k : string) (v : Float64.float)
    (kv : string * Float64.float) :
  In kv (Float64.dict_set d k v) -> kv = (k, v) \/ In kv d.
Proof.
  induction d as [|[k' v'] d IH]; cbn.
  - intros [H|[]]. left. symmetry. exact H.
  - destruct (String.eqb_spec k' k) as [->|Hne]; cbn.
    + intros [H|H]; [left; symmetry; exact H | right; right; exact H].
    + intros [H|H]; [right; left; exact H|].
      destruct (IH H) as [H1|H1]; [left; exact H1 | right; right; exact H1].
Qed.

Lemma f64_dict_get_set_same (d : Float64.dict) (k : string) (v : Float64.float) :
  Float64.dict_get (Float64.dict_set d k v) k = Some v.
Proof.
  induction d as [|[k' v'] d IH]; cbn.
  - rewrite String.eqb_refl. reflexivity.
  - destruct (String.eqb_spec k' k) as [->|Hne]; cbn.
    + rewrite String.eqb_refl. reflexivity.
    + destruct (String.eqb_spec k' k); [contradiction | exact IH].
Qed.

Lemma f64_dict_get_set_other (d : Float64.dict) (k k' : string)
    (v : Float64.float) :
  k <> k' -> Float64.dict_get (Float64.dict_set d k v) k' = Float64.dict_get d k'.
Proof.
  intros Hne. induction d as [|[k0 v0] d IH]; cbn.
  - destruct (String.eqb_spec k k'); [contradiction | reflexivity].
  - destruct (String.eqb_spec k0 k) as [->|Hn]; cbn.
    + destruct (String.eqb_spec k k'); [contradiction | reflexivity].
    + rewrite IH. reflexivity.
Qed.

Lemma f64_dict_get_del_same (d : Float64.dict) (k : string) :
  Float64.dict_get (Float64.dict_del d k) k = None.
Proof.
  induction d as [|[k0 v0] d IH]; simpl; [reflexivity|].
  destruct (String.eqb_spec k0 k) as [->|Hn]; simpl; [exact IH|].
  destruct (String.eqb_spec k0 k); [contradiction | exact IH].
Qed.

Lemma f64_dict_get_del_other (d : Float64.dict) (k k' : string) :
  k <> k' -> Float64.dict_get (Float64.dict_del d k) k' = Float64.dict_get d k'.
Proof.
  intros Hne. induction d as [|[k0 v0] d IH]; simpl; [reflexivity|].
  destruct (String.eqb_spec k0 k) as [->|Hn]; simpl.
  - destruct (String.eqb_spec k k'); [contradiction | exact IH].
  - rewrite IH. reflexivity.
Qed.

Lemma f64_dict_get_In (d : Float64.dict) (k : string) (v : Float64.float) :
  Float64.dict_get d k = Some v -> In (k, v) d.
Proof.
  induction d as [|[k0 v0] d IH]; cbn; [discriminate|].
  destruct (String.eqb_spec k0 k) as [->|Hn].
  - intros [= ->]. left; reflexivity.
  - intros H. right. exact (IH H).
Qed.

Lemma f64_dict_In_get (d : Float64.dict) (k : string) (v : Float64.float) :
  NoDup (map fst d) -> In (k, v) d -> Float64.dict_get d k = Some v.
Proof.
  induction d as [|[k0 v0] d IH]; cbn; intros Hnd Hin; [contradiction|].
  apply NoDup_cons_iff in Hnd. destruct Hnd as [Hnin Hnd'].
  destruct Hin as [Hin|Hin].
  - injection Hin as -> ->. rewrite String.eqb_refl. reflexivity.
  - destruct (String.eqb_spec k0 k) as [->|Hn]; [|exact (IH Hnd' Hin)].
    exfalso. apply Hnin. apply in_map_iff. exists (k, v).
    split; [reflexivity | exact Hin].
Qed.

Lemma f64_dict_set_keys_NoDup (d : Float64.dict) (k : string)
    (v : Float64.float) :
  NoDup (map fst d) -> NoDup (map fst (Float64.dict_set d k v)).
Proof.
  induction d as [|[k0 v0] d IH]; cbn; intros Hnd.
  - repeat constructor. intros [].
  - apply NoDup_cons_iff in Hnd. destruct Hnd as [Hnin Hnd'].
    destruct (String.eqb_spec k0 k) as [->|Hn]; cbn.
    + constructor; assumption.
    + constructor; [|exact (IH Hnd')].
      intros Hin. apply in_map_iff in Hin. destruct Hin as [[a b] [Ha Hb]].
      cbn in Ha. subst a. apply f64_dict_set_In in Hb. destruct Hb as [Hb|Hb].
      * injection Hb as Hk _. contradiction.
      * apply Hnin. apply in_map_iff. exists (k0, b).
        split; [reflexivity | exact Hb].
Qed.

Lemma f64_dict_del_keys_NoDup (d : Float64.dict) (k : string) :
  NoDup (map fst d) -> NoDup (map fst (Float64.dict_del d k)).
Proof.
  intros Hnd. unfold Float64.dict_del.
  apply filter_keeps_keys_distinct. exact Hnd.
Qed.

(** ** Every quantity of the ledger fails the test [<= 0] *)

Section Binary64Ledger.
Variable group_sum : list Float64.float -> Float64.float.

(** An invariant of the values of the dictionary is kept by line 137-139
    when it holds of every value that is stored, that is, of every new
    value that is not [<= 0]. *)
Lemma f64_update_holding_values (P : Float64.float -> Prop)
    (d : Float64.dict) (k : string) (s : Float64.float) :
  Forall (fun kv => P (snd kv)) d ->
  (Float64.leb (Float64.add (match Float64.dict_get d k with
                             | Some x => x
                             | None => Float64.zero
                             end) s) Float64.zero = false ->
   P (Float64.add (match Float64.dict_get d k with
                   | Some x => x
                   | None => Float64.zero
                   end) s)) ->
  Forall (fun kv => P (snd kv)) (Float64.update_holding d (k, s)).
Proof.
  intros Hd Hv. unfold Float64.update_holding.
  set (v := Float64.add _ s) in *.
  destruct (Float64.leb v Float64.zero) eqn:Hle.
  - apply Forall_forall. intros kv Hin.
    unfold Float64.dict_del in Hin. apply filter_In in Hin.
    destruct Hin as [Hin Hk].
    apply f64_dict_set_In in Hin. destruct Hin as [->|Hin].
    + cbn in Hk. rewrite String.eqb_refl in Hk. discriminate.
    + exact (proj1 (Forall_forall _ _) Hd kv Hin).
  - apply Forall_forall. intros kv Hin.
    apply f64_dict_set_In in Hin. destruct Hin as [->|Hin].
    + cbn. apply Hv. reflexivity.
    + exact (proj1 (Forall_forall _ _) Hd kv Hin).
Qed.

Lemma fold_left_inv_In (A B : Type) (f : A -> B -> A) (Inv : A -> Prop)
    (items : list B) :
  (forall a x, In x items -> Inv a -> Inv (f a x)) ->
  forall a, Inv a -> Inv (fold_left f items a).
Proof.
  induction items as [|x items IH]; intros Hstep a Ha; cbn [fold_left].
  - exact Ha.
  - apply IH.
    + intros a' y Hy. apply Hstep. right. exact Hy.
    + apply Hstep; [left; reflexivity | exact Ha].
Qed.

Lemma f64_day_sums_In (trades : list Float64.trade) (col : date_key)
    (date : Z) (k : string) (s : Float64.float) :
  In (k, s) (Float64.day_sums group_sum trades col date) <->
  Float64.traded trades col k date = true
  /\ s = Float64.ticker_day_sum group_sum trades col k date.
Proof.
  unfold Float64.day_sums, Float64.traded. rewrite in_map_iff. split.
  - intros [k' [Heq Hin]]. injection Heq as -> <-. split; [|reflexivity].
    apply (Permutation_in _ (sort_keys_perm String.compare _)) in Hin.
    apply (proj1 (string_unique_In _ _)) in Hin. apply in_map_iff in Hin.
    destruct Hin as [t [Ht Hin]]. apply existsb_exists. exists t.
    split; [exact Hin | apply String.eqb_eq; exact Ht].
  - intros [Htr ->]. exists k. split; [reflexivity|].
    apply (Permutation_in _ (Permutation_sym (sort_keys_perm String.compare _))).
    apply string_unique_In. apply existsb_exists in Htr.
    destruct Htr as [t [Hin Ht]]. apply String.eqb_eq in Ht.
    apply in_map_iff. exists t. split; [exact Ht | exact Hin].
Qed.

Lemma f64_day_sums_keys_NoDup (trades : list Float64.trade) (col : date_key)
    (date : Z) :
  NoDup (map fst (Float64.day_sums group_sum trades col date)).
Proof.
  unfold Float64.day_sums. rewrite map_map. cbn [fst]. rewrite map_id.
  eapply Permutation_NoDup;
    [apply Permutation_sym, sort_keys_perm | apply string_unique_NoDup].
Qed.

Lemma f64_traded_trade (trades : list Float64.trade) (col : date_key)
    (k : string) (date : Z) :
  Float64.traded trades col k date = true ->
  exists t, In t trades /\ Ticker (Float64.tr_tx t) = k
            /\ Float64.key_date col t = date.
Proof.
  unfold Float64.traded, Float64.day_transactions. intros H.
  apply existsb_exists in H. destruct H as [t [Hin Ht]].
  apply filter_In in Hin. destruct Hin as [Hin Hd].
  exists t. split; [exact Hin|]. split.
  - apply String.eqb_eq. exact Ht.
  - apply Z.eqb_eq. exact Hd.
Qed.

(** The values of the dictionary through a day and through the loop. *)
Lemma f64_day_update_values (P : Float64.float -> Prop)
    (trades : list Float64.trade) (col : date_key) (d : Float64.dict)
    (date : Z) :
  (forall h k,
      (h = Float64.zero \/ P h) ->
      Float64.traded trades col k date = true ->
      Float64.leb (Float64.add h (Float64.ticker_day_sum group_sum trades col k date))
                  Float64.zero = false ->
      P (Float64.add h (Float64.ticker_day_sum group_sum trades col k date))) ->
  Forall (fun kv => P (snd kv)) d ->
  Forall (fun kv => P (snd kv)) (Float64.day_update group_sum trades col d date).
Proof.
  intros Hstep Hd. unfold Float64.day_update.
  destruct (existsb _ trades); [|exact Hd].
  apply fold_left_inv_In; [|exact Hd].
  intros a [k s] Hin Ha. apply f64_day_sums_In in Hin.
  destruct Hin as [Htr ->].
  apply f64_update_holding_values; [exact Ha|].
  apply Hstep; [|exact Htr].
  destruct (Float64.dict_get a k) as [x|] eqn:Hget; [right | left; reflexivity].
  apply f64_dict_get_In in Hget.
  exact (proj1 (Forall_forall _ _) Ha _ Hget).
Qed.

Lemma f64_holdings_loop_values (P : Float64.float -> Prop)
    (trades : list Float64.trade) (col : date_key) (dates : list Z) :
  (forall h k date,
      (h = Float64.zero \/ P h) ->
      Float64.traded trades col k date = true ->
      Float64.leb (Float64.add h (Float64.ticker_day_sum group_sum trades col k date))
                  Float64.zero = false ->
      P (Float64.add h (Float64.ticker_day_sum group_sum trades col k date))) ->
  forall d,
    Forall (fun kv => P (snd kv)) d ->
    Forall (fun r => P (Float64.h_StockAmount r))
           (Float64.holdings_loop group_sum trades col d dates).
Proof.
  intros Hstep. induction dates as [|date dates IH]; intros d Hd;
    cbn [Float64.holdings_loop].
  - constructor.
  - assert (Hd' : Forall (fun kv => P (snd kv))
                         (Float64.day_update group_sum trades col d date)).
    { apply f64_day_update_values; [|exact Hd].
      intros h k. apply Hstep. }
    apply Forall_app. split; [|apply IH, Hd'].
    apply Forall_map. cbn. exact Hd'.
Qed.

(** C1, amended.  Whatever the transactions, the date key (execution or
    disclosure), the trading calendar and the way a group is summed, every
    row of the ledger carries a quantity that fails the test [<= 0] of line
    138: the quantity is strictly greater than 0, or it is NaN.  When the
    day sum of every transaction's ticker and date is finite, the quantity
    is strictly greater than 0 in every row. *)
Theorem holdings_quantity_positive
    (trades : list Float64.trade) (groupby_column : date_key) (dates : list Z) :
  Forall (fun r =>
            Float64.leb (Float64.h_StockAmount r) Float64.zero = false
            /\ (Float64.ltb Float64.zero (Float64.h_StockAmount r) = true
                \/ Float64.h_StockAmount r = Float64.nan))
         (Float64.holdings_on group_sum trades groupby_column dates)
  /\ ((forall t, In t trades ->
         Float64.is_finite
           (Float64.ticker_day_sum group_sum trades groupby_column
              (Ticker (Float64.tr_tx t)) (Float64.key_date groupby_column t))
         = true) ->
      Forall (fun r => Float64.ltb Float64.zero (Float64.h_StockAmount r) = true)
             (Float64.holdings_on group_sum trades groupby_column dates)).
Proof.
  split.
  - apply (@f64_holdings_loop_values
             (fun v => Float64.leb v Float64.zero = false
                       /\ (Float64.ltb Float64.zero v = true \/ v = Float64.nan))).
    + intros h k date _ _ Hle. split; [exact Hle | apply f64_not_le_zero, Hle].
    + constructor.
  - intros Hfin.
    apply (@f64_holdings_loop_values
             (fun v => Float64.ltb Float64.zero v = true)).
    + intros h k date Hh Htr Hle.
      destruct (f64_traded_trade _ _ _ _ Htr) as [t [Hin [Hk Hd]]].
      pose proof (Hfin t Hin) as Hs. rewrite Hk, Hd in Hs.
      destruct (f64_not_le_zero _ Hle) as [Hpos|Hnan]; [exact Hpos|].
      exfalso. revert Hnan. apply f64_add_pos_finite_not_nan; [|exact Hs].
      destruct Hh as [Hh|Hh]; [right | left]; exact Hh.
    + constructor.
Qed.

(** ** One ticker through the day loop, in binary64 *)

Lemma f64_update_holding_get_same (d : Float64.dict) (k : string)
    (s : Float64.float) :
  Float64.dict_get (Float64.update_holding d (k, s)) k =
  if Float64.leb (Float64.add (match Float64.dict_get d k with
                               | Some x => x
                               | None => Float64.zero
                               end) s) Float64.zero
  then None
  else Some (Float64.add (match Float64.dict_get d k with
                          | Some x => x
                          | None => Float64.zero
                          end) s).
Proof.
  unfold Float64.update_holding. destruct (Float64.leb _ Float64.zero).
  - apply f64_dict_get_del_same.
  - apply f64_dict_get_set_same.
Qed.

Lemma f64_update_holding_get_other (d : Float64.dict) (k k' : string)
    (s : Float64.float) :
  k <> k' ->
  Float64.dict_get (Float64.update_holding d (k, s)) k' = Float64.dict_get d k'.
Proof.
  intros Hne. unfold Float64.update_holding.
  destruct (Float64.leb _ Float64.zero).
  - rewrite f64_dict_get_del_other by exact Hne.
    apply f64_dict_get_set_other, Hne.
  - apply f64_dict_get_set_other, Hne.
Qed.

Lemma f64_update_holding_keys (d : Float64.dict) (item : string * Float64.float) :
  NoDup (map fst d) -> NoDup (map fst (Float64.update_holding d item)).
Proof.
  intros Hd. destruct item as [k s]. unfold Float64.update_holding.
  destruct (Float64.leb _ Float64.zero).
  - apply f64_dict_del_keys_NoDup, f64_dict_set_keys_NoDup, Hd.
  - apply f64_dict_set_keys_NoDup, Hd.
Qed.

Lemma f64_fold_update_get_other (items : list (string * Float64.float))
    (k : string) :
  ~ In k (map fst items) ->
  forall d,
    Float64.dict_get (fold_left Float64.update_holding items d) k
    = Float64.dict_get d k.
Proof.
  induction items as [|[k0 s0] items IH]; intros Hnin d; cbn [fold_left].
  - reflexivity.
  - rewrite IH.
    + apply f64_update_holding_get_other. intros ->. apply Hnin.
      left; reflexivity.
    + intros Hin. apply Hnin. right. exact Hin.
Qed.

Lemma f64_fold_update_get_same (items : list (string * Float64.float))
    (k : string) (s : Float64.float) :
  NoDup (map fst items) -> In (k, s) items ->
  forall d,
    Float64.dict_get (fold_left Float64.update_holding items d) k
    = Float64.dict_get (Float64.update_holding d (k, s)) k.
Proof.
  induction items as [|[k0 s0] items IH]; intros Hnd Hin d; cbn [fold_left].
  - contradiction.
  - cbn in Hnd. apply NoDup_cons_iff in Hnd. destruct Hnd as [Hnin Hnd'].
    destruct Hin as [Heq|Hin].
    + injection Heq as -> ->.
      apply f64_fold_update_get_other. exact Hnin.
    + rewrite (IH Hnd' Hin).
      assert (Hne : k0 <> k).
      { intros ->. apply Hnin. apply in_map_iff. exists (k, s).
        split; [reflexivity | exact Hin]. }
      rewrite !f64_update_holding_get_same.
      rewrite (f64_update_holding_get_other _ s0 Hne). reflexivity.
Qed.

(** The effect of one day on one ticker. *)
Lemma f64_day_update_get (trades : list Float64.trade) (col : date_key)
    (d : Float64.dict) (date : Z) (k : string) :
  Float64.dict_get (Float64.day_update group_sum trades col d date) k =
  if Float64.traded trades col k date
  then Float64.dict_get
         (Float64.update_holding d
            (k, Float64.ticker_day_sum group_sum trades col k date)) k
  else Float64.dict_get d k.
Proof.
  unfold Float64.day_update.
  destruct (Float64.traded trades col k date) eqn:Htr.
  - destruct (f64_traded_trade _ _ _ _ Htr) as [t [Hin [_ Hd]]].
    assert (Hex : existsb (fun t => Z.eqb (Float64.key_date col t) date) trades
                  = true).
    { apply existsb_exists. exists t. split; [exact Hin | apply Z.eqb_eq, Hd]. }
    rewrite Hex. apply f64_fold_update_get_same.
    + apply f64_day_sums_keys_NoDup.
    + apply f64_day_sums_In. split; [exact Htr | reflexivity].
  - destruct (existsb _ trades); [|reflexivity].
    apply f64_fold_update_get_other. intros Hin.
    apply in_map_iff in Hin. destruct Hin as [[k' s] [Hk Hin]].
    cbn in Hk. subst k'. apply f64_day_sums_In in Hin.
    destruct Hin as [Hin _]. rewrite Hin in Htr. discriminate.
Qed.

Lemma f64_day_update_keys (trades : list Float64.trade) (col : date_key)
    (d : Float64.dict) (date : Z) :
  NoDup (map fst d) ->
  NoDup (map fst (Float64.day_update group_sum trades col d date)).
Proof.
  intros Hd. unfold Float64.day_update. destruct (existsb _ trades); [|exact Hd].
  apply fold_left_inv_In; [|exact Hd].
  intros a x _. apply f64_update_holding_keys.
Qed.

Lemma f64_state_after_app (trades : list Float64.trade) (col : date_key)
    (a b : list Z) :
  Float64.state_after group_sum trades col (a ++ b)
  = fold_left (Float64.day_update group_sum trades col) b
              (Float64.state_after group_sum trades col a).
Proof. unfold Float64.state_after. apply fold_left_app. Qed.

Lemma f64_state_after_keys (trades : list Float64.trade) (col : date_key)
    (dates : list Z) :
  NoDup (map fst (Float64.state_after group_sum trades col dates)).
Proof.
  induction dates as [|date dates IH] using rev_ind.
  - constructor.
  - rewrite f64_state_after_app. cbn [fold_left].
    apply f64_day_update_keys, IH.
Qed.

Lemma f64_holdings_loop_In (trades : list Float64.trade) (col : date_key)
    (dates : list Z) :
  forall (d : Float64.dict) (r : Float64.snapshot),
    In r (Float64.holdings_loop group_sum trades col d dates) <->
    exists pre post,
      dates = pre ++ Float64.h_Date r :: post
      /\ In (Float64.h_Ticker r, Float64.h_StockAmount r)
            (fold_left (Float64.day_update group_sum trades col)
                       (pre ++ [Float64.h_Date r]) d).
Proof.
  induction dates as [|date dates IH]; intros d r;
    cbn [Float64.holdings_loop].
  - split; [intros [] | intros [pre [post [H _]]]].
    destruct pre; discriminate.
  - rewrite in_app_iff, in_map_iff, IH. split.
    + intros [[kv [Hr Hin]] | [pre [post [Hd Hin]]]].
      * exists [], dates. subst r. cbn. split; [reflexivity|].
        destruct kv; exact Hin.
      * exists (date :: pre), post. subst dates.
        split; [reflexivity | exact Hin].
    + intros [pre [post [Hd Hin]]]. destruct pre as [|x pre]; cbn in Hd, Hin.
      * injection Hd as Hd Hpost. subst date. left.
        exists (Float64.h_Ticker r, Float64.h_StockAmount r).
        split; [destruct r; reflexivity | exact Hin].
      * injection Hd as Hd Hpost. subst x dates. right.
        exists pre, post. split; [reflexivity | exact Hin].
Qed.

(** On a calendar without repeated dates, the rows of a date are the
    entries of the dictionary after that date. *)
Lemma f64_holdings_on_In (trades : list Float64.trade) (col : date_key)
    (pre post : list Z) (date : Z) (k : string) (q : Float64.float) :
  NoDup (pre ++ date :: post) ->
  In (Float64.mkSnapshot date k q)
     (Float64.holdings_on group_sum trades col (pre ++ date :: post)) <->
  Float64.dict_get (Float64.state_after group_sum trades col (pre ++ [date])) k
  = Some q.
Proof.
  intros Hnd. unfold Float64.holdings_on. rewrite f64_holdings_loop_In.
  cbn [Float64.h_Date Float64.h_Ticker Float64.h_StockAmount]. split.
  - intros [pre' [post' [Hd Hin]]].
    destruct (NoDup_split_unique _ _ _ _ _ Hnd Hd) as [<- _].
    apply f64_dict_In_get; [apply f64_state_after_keys | exact Hin].
  - intros Hget. exists pre, post. split; [reflexivity|].
    apply f64_dict_get_In. exact Hget.
Qed.

(** A ticker that is not held stays out while its day sums are [<= 0]. *)
Lemma f64_absent_run (trades : list Float64.trade) (col : date_key)
    (k : string) (dates : list Z) :
  forall d,
    Float64.dict_get d k = None ->
    (forall date, In date dates ->
       Float64.traded trades col k date = true ->
       Float64.leb (Float64.ticker_day_sum group_sum trades col k date)
                   Float64.zero = true) ->
    Float64.dict_get (fold_left (Float64.day_update group_sum trades col) dates d) k
    = None.
Proof.
  induction dates as [|date dates IH]; intros d Hd Hle; cbn [fold_left].
  - exact Hd.
  - apply IH; [|intros x Hx; apply Hle; right; exact Hx].
    rewrite f64_day_update_get.
    destruct (Float64.traded trades col k date) eqn:Htr; [|exact Hd].
    rewrite f64_update_holding_get_same, Hd.
    rewrite f64_add_zero_nonpos; [reflexivity|].
    apply Hle; [left; reflexivity | exact Htr].
Qed.

(** As long as the ticker has not been deleted, the quantity held is its
    net shares, accumulated in binary64 in calendar order. *)
Lemma f64_held_net_shares (trades : list Float64.trade) (col : date_key)
    (k : string) (pre : list Z) :
  (forall p d q, pre = p ++ d :: q ->
     Float64.traded trades col k d = true ->
     Float64.leb (Float64.net_shares group_sum trades col k (p ++ [d]))
                 Float64.zero = false) ->
  Float64.held group_sum trades col pre k
  = Float64.net_shares group_sum trades col k pre
  /\ (Float64.dict_get (Float64.state_after group_sum trades col pre) k = None ->
      Float64.net_shares group_sum trades col k pre = Float64.zero).
Proof.
  induction pre as [|d pre IH] using rev_ind; intros Hkept.
  - split; [reflexivity | intros _; reflexivity].
  - assert (Hpre : forall p d0 q, pre = p ++ d0 :: q ->
              Float64.traded trades col k d0 = true ->
              Float64.leb (Float64.net_shares group_sum trades col k (p ++ [d0]))
                          Float64.zero = false).
    { intros p d0 q Hq. apply (Hkept p d0 (q ++ [d])).
      rewrite Hq, <- app_assoc. reflexivity. }
    destruct (IH Hpre) as [Hheld Hnone].
    assert (Hnet : Float64.net_shares group_sum trades col k (pre ++ [d])
                   = if Float64.traded trades col k d
                     then Float64.add
                            (Float64.net_shares group_sum trades col k pre)
                            (Float64.ticker_day_sum group_sum trades col k d)
                     else Float64.net_shares group_sum trades col k pre).
    { unfold Float64.net_shares. rewrite fold_left_app. reflexivity. }
    unfold Float64.held in *. rewrite f64_state_after_app. cbn [fold_left].
    rewrite f64_day_update_get, Hnet.
    destruct (Float64.traded trades col k d) eqn:Htr.
    + rewrite f64_update_holding_get_same, Hheld.
      pose proof (Hkept pre d [] eq_refl Htr) as Hle.
      rewrite Hnet in Hle. rewrite Hle.
      split; [reflexivity | discriminate].
    + split; [exact Hheld | exact Hnone].
Qed.

(** C2, amended.  On a calendar without repeated dates, take a ticker that
    is traded on the calendar date [D] and whose quantity is [<= 0] there as
    the program computes it in binary64: the quantity held after the earlier
    calendar dates (0 for a ticker that is not held) plus the day sum of [D].
    Then the ledger has no row for the ticker on [D], nor on the following
    calendar dates [mid] as long as its day sums there are [<= 0]; and on
    the next calendar date [R], if the ticker is traded with a day sum
    greater than 0, its row carries exactly that day sum.  For a ticker that
    was not deleted before [D], the quantity compared with 0 on [D] is the
    net of its shares by [D], accumulated in binary64 in calendar order. *)
Theorem liquidation_until_rebuy
    (trades : list Float64.trade) (col : date_key) (k : string)
    (pre : list Z) (D : Z) (mid tail : list Z) :
  NoDup (pre ++ D :: mid ++ tail) ->
  Float64.traded trades col k D = true ->
  Float64.leb
    (Float64.add (Float64.held group_sum trades col pre k)
                 (Float64.ticker_day_sum group_sum trades col k D))
    Float64.zero = true ->
  (forall d, In d mid ->
     Float64.traded trades col k d = true ->
     Float64.leb (Float64.ticker_day_sum group_sum trades col k d)
                 Float64.zero = true) ->
  (forall r,
      In r (Float64.holdings_on group_sum trades col (pre ++ D :: mid ++ tail)) ->
      Float64.h_Ticker r = k -> ~ In (Float64.h_Date r) (D :: mid))
  /\ (forall R tail', tail = R :: tail' ->
        Float64.traded trades col k R = true ->
        Float64.ltb Float64.zero
                    (Float64.ticker_day_sum group_sum trades col k R) = true ->
        forall q,
          In (Float64.mkSnapshot R k q)
             (Float64.holdings_on group_sum trades col
                                  (pre ++ D :: mid ++ tail))
          <-> q = Float64.ticker_day_sum group_sum trades col k R)
  /\ ((forall p d q, pre = p ++ d :: q ->
         Float64.traded trades col k d = true ->
         Float64.leb (Float64.net_shares group_sum trades col k (p ++ [d]))
                     Float64.zero = false) ->
      Float64.add (Float64.held group_sum trades col pre k)
                  (Float64.ticker_day_sum group_sum trades col k D)
      = Float64.net_shares group_sum trades col k (pre ++ [D])).
Proof.
  intros Hnd HtrD Hle Hmid.
  assert (HD : Float64.dict_get
                 (Float64.state_after group_sum trades col (pre ++ [D])) k
               = None).
  { rewrite f64_state_after_app. cbn [fold_left].
    rewrite f64_day_update_get, HtrD, f64_update_holding_get_same.
    unfold Float64.held in Hle. rewrite Hle. reflexivity. }
  assert (Hpre : forall m1 m2, mid = m1 ++ m2 ->
            Float64.dict_get
              (Float64.state_after group_sum trades col ((pre ++ [D]) ++ m1)) k
            = None).
  { intros m1 m2 Hm. rewrite f64_state_after_app.
    apply f64_absent_run; [exact HD|].
    intros d Hd. apply Hmid. subst mid. apply in_or_app. left. exact Hd. }
  split; [|split].
  - intros [date k' q] Hin Hk Hdate. cbn in Hk, Hdate. subst k'.
    destruct Hdate as [<-|Hdate].
    + apply (f64_holdings_on_In trades col pre (mid ++ tail) D k q Hnd) in Hin.
      rewrite HD in Hin. discriminate.
    + apply in_split in Hdate. destruct Hdate as [m1 [m2 Hm]].
      assert (Hcal : pre ++ D :: mid ++ tail
                     = ((pre ++ [D]) ++ m1) ++ date :: (m2 ++ tail)).
      { subst mid. repeat rewrite <- app_assoc. reflexivity. }
      rewrite Hcal in Hin, Hnd.
      apply (f64_holdings_on_In trades col _ _ date k q Hnd) in Hin.
      rewrite <- app_assoc in Hin.
      rewrite (Hpre (m1 ++ [date]) m2) in Hin; [discriminate|].
      subst mid. rewrite <- app_assoc. reflexivity.
  - intros R tail' Htail HtrR Hpos q.
    assert (Hcal : pre ++ D :: mid ++ tail
                   = ((pre ++ [D]) ++ mid) ++ R :: tail').
    { subst tail. repeat rewrite <- app_assoc. reflexivity. }
    rewrite Hcal in *.
    rewrite (f64_holdings_on_In trades col _ _ R k q Hnd).
    rewrite f64_state_after_app. cbn [fold_left].
    rewrite f64_day_update_get, HtrR, f64_update_holding_get_same.
    rewrite (Hpre mid []) by (rewrite app_nil_r; reflexivity).
    rewrite (f64_add_zero_pos _ Hpos), (f64_pos_not_le _ Hpos).
    split; [intros [= <-]; reflexivity | intros ->; reflexivity].
  - intros Hkept.
    destruct (@f64_held_net_shares trades col k pre Hkept) as [Hheld _].
    rewrite Hheld. unfold Float64.net_shares at 2.
    rewrite fold_left_app. cbn [fold_left]. rewrite HtrD. reflexivity.
Qed.

End Binary64Ledger.

(** ** The binary64 ledger on examples *)

(** C1 on the example: every day sum is finite, and every row of the
    execution-keyed ledger has a quantity greater than 0. *)
Lemma holdings_quantity_positive_witness :
  Forall (fun r => Float64.ltb Float64.zero (Float64.h_StockAmount r) = true)
         (Float64.holdings_on Float64.sum_in_order ex_trades_f64
                              ByTransactionDate [1; 2; 3; 4; 5; 6]%Z).
Proof.
  apply (proj2 (holdings_quantity_positive Float64.sum_in_order ex_trades_f64
                  ByTransactionDate [1; 2; 3; 4; 5; 6]%Z)).
  assert (Hall : forallb
            (fun t => Float64.is_finite
               (Float64.ticker_day_sum Float64.sum_in_order ex_trades_f64
                  ByTransactionDate (Ticker (Float64.tr_tx t))
                  (Float64.key_date ByTransactionDate t)))
            ex_trades_f64 = true) by (vm_compute; reflexivity).
  intros t Hin. exact (proj1 (forallb_forall _ _) Hall t Hin).
Defined.

(** C1 as stated fails: X is bought on day 1 and sold on day 2, at a close
    of zero on both days.  The two quantities are +infinity and -infinity,
    their sum is NaN, NaN is not [<= 0], and the ledger has a row for X on
    day 2 whose quantity is not greater than 0. *)
Lemma zero_close_row_is_nan :
  map Float64.tr_StockAmount zero_close
  = [S754_infinity false; S754_infinity true]
  /\ In (Float64.mkSnapshot 2 "X" Float64.nan)
        (Float64.holdings_on Float64.sum_in_order zero_close ByTransactionDate
                             [1; 2; 3]%Z)
  /\ Float64.ltb Float64.zero Float64.nan = false
  /\ ~ Forall (fun r =>
                 Float64.ltb Float64.zero (Float64.h_StockAmount r) = true)
              (Float64.holdings_on Float64.sum_in_order zero_close
                                   ByTransactionDate [1; 2; 3]%Z).
Proof.
  assert (Hin : In (Float64.mkSnapshot 2 "X" Float64.nan)
                   (Float64.holdings_on Float64.sum_in_order zero_close
                                        ByTransactionDate [1; 2; 3]%Z))
    by (vm_compute; right; left; reflexivity).
  split; [vm_compute; reflexivity|]. split; [exact Hin|].
  split; [reflexivity|].
  intros Hall. pose proof (proj1 (Forall_forall _ _) Hall _ Hin) as H.
  discriminate H.
Qed.

(** C2 on the example: X is bought on day 1 (20 shares), sold on day 3
    (20 shares) and bought again on day 5. *)
Lemma liquidation_until_rebuy_witness :
  (forall r,
      In r (Float64.holdings_on Float64.sum_in_order ex_trades_f64
                                ByTransactionDate [1; 2; 3; 4; 5; 6]%Z) ->
      Float64.h_Ticker r = "X" -> ~ In (Float64.h_Date r) [3; 4]%Z)
  /\ In (Float64.mkSnapshot 5 "X"
           (Float64.ticker_day_sum Float64.sum_in_order ex_trades_f64
                                   ByTransactionDate "X" 5))
        (Float64.holdings_on Float64.sum_in_order ex_trades_f64
                             ByTransactionDate [1; 2; 3; 4; 5; 6]%Z)
  /\ Float64.net_shares Float64.sum_in_order ex_trades_f64 ByTransactionDate
                        "X" [1; 2; 3]%Z
     = Float64.zero.
Proof.
  assert (Hmid : forall d, In d [4]%Z ->
            Float64.traded ex_trades_f64 ByTransactionDate "X" d = true ->
            Float64.leb (Float64.ticker_day_sum Float64.sum_in_order
                           ex_trades_f64 ByTransactionDate "X" d)
                        Float64.zero = true).
  { intros d [<-|[]] H. vm_compute in H. discriminate H. }
  assert (Hkept : forall p d q, [1; 2]%Z = p ++ d :: q ->
            Float64.traded ex_trades_f64 ByTransactionDate "X" d = true ->
            Float64.leb (Float64.net_shares Float64.sum_in_order ex_trades_f64
                           ByTransactionDate "X" (p ++ [d]))
                        Float64.zero = false).
  { intros p d q H _. destruct p as [|a [|b p]]; cbn in H.
    - injection H as <- _. vm_compute. reflexivity.
    - injection H as <- <- _. vm_compute. reflexivity.
    - exfalso. injection H as _ _ H. destruct p; discriminate H. }
  destruct (@liquidation_until_rebuy Float64.sum_in_order ex_trades_f64
              ByTransactionDate "X" [1; 2]%Z 3%Z [4]%Z [5; 6]%Z
              ex_calendar_NoDup eq_refl eq_refl Hmid)
    as [Habsent [Hrebuy Hnet]].
  split; [exact Habsent|]. split.
  - apply (Hrebuy 5%Z [6]%Z eq_refl eq_refl eq_refl). reflexivity.
  - etransitivity; [symmetry; exact (Hnet Hkept) | vm_compute; reflexivity].
Defined.

(** Net shares of zero in exact arithmetic do not make the quantity of the
    program [<= 0]: 0.1 and 0.2 shares are bought and 0.3 shares are sold.
    In exact arithmetic the net is zero and the exact ledger has no row for
    X from day 3 on; in binary64 the sum of 0.1 and 0.2 exceeds 0.3 by
    2^-54, which is not [<= 0], and the ledger keeps a row for X on days 3
    and 4. *)
Lemma rounding_dust_is_held :
  net_shares_by (add_stock_amount_column dust_politician_trades dust_stock_data)
                ByTransactionDate "X" 3 == 0
  /\ (forall r,
        In r (holdings_on
                (add_stock_amount_column dust_politician_trades dust_stock_data)
                ByTransactionDate [1; 2; 3; 4]%Z) ->
        ~ In (h_Date r) [3; 4]%Z)
  /\ In (Float64.mkSnapshot 3 "X" (S754_finite false 4503599627370496 (-106)))
        (Float64.holdings_on Float64.sum_in_order
           (Float64.add_stock_amount_column dust_politician_trades
                                            dust_stock_data)
           ByTransactionDate [1; 2; 3; 4]%Z)
  /\ In (Float64.mkSnapshot 4 "X" (S754_finite false 4503599627370496 (-106)))
        (Float64.holdings_on Float64.sum_in_order
           (Float64.add_stock_amount_column dust_politician_trades
                                            dust_stock_data)
           ByTransactionDate [1; 2; 3; 4]%Z)
  /\ Float64.ltb Float64.zero (S754_finite false 4503599627370496 (-106))
     = true.
Proof.
  split; [q_compute|]. split.
  - intros r Hr Hd. in_list Hr; cbn in Hd; intuition discriminate.
  - split; [vm_compute; do 2 right; left; reflexivity|].
    split; [vm_compute; do 3 right; left; reflexivity | reflexivity].
Qed.
